(** * kmcuda: the host-side orchestration of the CUDA k-means driver

    A shallow embedding of [src/kmcuda.cc]: argument validation
    ([check_args]), device selection ([setup_devices]), centroid
    initialisation ([kmeans_init_centroids]), the driver ([kmeans_cuda]) and
    [normalize_cuda], followed by the properties the specification states
    about them.

    Conventions.
    - A [uint32_t], [uint16_t], [int] or [size_t] value is a [Z]; where the
      C++ expression is evaluated in 32 bits the reduction [u32] is written
      out.  An increment that a loop guard keeps below [2^32] is written
      without it.
    - A [float] or [double] is a [cfloat]: an exact rational or NaN.
      The two [float] products the driver converts to [uint32_t] (lines
      272 and 273) are rounded to binary32; the [double] arithmetic of the
      k-means++ search is exact.
    - Device and host memory is one flat array of 32-bit words, addressed in
      elements (a [float] and a [uint32_t] are both one element).  A copy
      takes effect when it is issued: the memory of a [world] is the memory
      once every queued command has completed.
    - The CUDA runtime and the kernels of the other translation units are
      the fields of an environment [env]. *)

From Stdlib Require Import ZArith QArith Qround List Lia Bool Permutation Sorted FinFun.
Import ListNotations.
Open Scope Z_scope.

(** ** Machine integers *)

Definition u32 (x : Z) : Z := x mod 2 ^ 32.
Definition u64 (x : Z) : Z := x mod 2 ^ 64.
Definition UINT32_MAX : Z := 2 ^ 32 - 1.

(** [x << n] on a 32-bit operand.  The shift count is taken modulo the
    width, as the x86 and ARM shift instructions take it; C++ leaves counts
    of 32 and more undefined. *)
Definition shl32 (x n : Z) : Z := u32 (Z.shiftl x (n mod 32)).

(** ** Floating-point values: exact rationals and NaN *)

Inductive cfloat : Type :=
| FNaN
| FNum (q : Q).

Definition Qltb (x y : Q) : bool := negb (Qle_bool y x).

(** [a < b]; false as soon as an operand is NaN. *)
Definition flt (a b : cfloat) : bool :=
  match a, b with
  | FNum x, FNum y => Qltb x y
  | _, _ => false
  end.

(** [a > b]. *)
Definition fgt (a b : cfloat) : bool := flt b a.

(** [a >= b]; false as soon as an operand is NaN. *)
Definition fge (a b : cfloat) : bool :=
  match a, b with
  | FNum x, FNum y => Qle_bool y x
  | _, _ => false
  end.

(** [a != a]: the NaN test of the source. *)
Definition fne_self (a : cfloat) : bool :=
  match a with
  | FNaN => true
  | FNum _ => false
  end.

Definition fadd (a b : cfloat) : cfloat :=
  match a, b with
  | FNum x, FNum y => FNum (x + y)
  | _, _ => FNaN
  end.

Definition fsub (a b : cfloat) : cfloat :=
  match a, b with
  | FNum x, FNum y => FNum (x - y)
  | _, _ => FNaN
  end.

Definition fmul (a b : cfloat) : cfloat :=
  match a, b with
  | FNum x, FNum y => FNum (x * y)
  | _, _ => FNaN
  end.

Definition fzero : cfloat := FNum 0.
Definition fone : cfloat := FNum 1.
Definition fhalf : cfloat := FNum (1 # 2).

(** Conversion of a floating value to [uint32_t]: truncation; undefined on
    NaN and outside the range of the type. *)
Definition cfloat_to_u32 (a : cfloat) : option Z :=
  match a with
  | FNaN => None
  | FNum q =>
      let t := Z.quot (Qnum q) (Zpos (Qden q)) in
      if (0 <=? t) && (t <=? UINT32_MAX) then Some t else None
  end.

(** *** Binary32 rounding

    [tolerance * samples_size] and [yinyang_t * clusters_size] (lines 272
    and 273) multiply a [float] by a [uint32_t]: the integer is converted to
    [float] and the product is a [float], both rounded to the nearest
    binary32 value, ties to even. *)

(** The nearest integer, ties to even. *)
Definition round_half_even (q : Q) : Z :=
  let f := Qfloor q in
  match (q - inject_Z f ?= 1 # 2)%Q with
  | Lt => f
  | Gt => f + 1
  | Eq => if Z.even f then f else f + 1
  end.

(** [2 ^ e] for an integer exponent. *)
Definition pow2 (e : Z) : Q :=
  if 0 <=? e then inject_Z (2 ^ e) else (/ inject_Z (2 ^ (- e)))%Q.

(** The exponent [e] of a positive rational [a / b]:
    [2 ^ e <= a / b < 2 ^ (e + 1)]. *)
Definition binade (m : Q) : Z :=
  let a := Qnum m in
  let b := Z.pos (Qden m) in
  if b <=? a then Z.log2 (a / b) else - Z.log2_up ((b + a - 1) / a).

Definition Qmagnitude (q : Q) : Q := if Qle_bool 0 q then q else (- q)%Q.

(** The binary32 value nearest to [q]: a multiple of the unit in the last
    place [2 ^ (e - 23)], where [e] is the exponent of [q], and not less
    than [-126] (below it the values are subnormal).  Overflow to an
    infinity is not represented: the values rounded here are converted to
    [uint32_t] next, where an infinity and a finite value of that size are
    both out of range. *)
Definition round_f32 (q : Q) : Q :=
  if Qeq_bool q 0 then 0%Q
  else
    let ulp := pow2 (Z.max (binade (Qmagnitude q)) (-126) - 23) in
    (inject_Z (round_half_even (q / ulp)) * ulp)%Q.

(** [static_cast<float>(n)] for an unsigned integer. *)
Definition float_of_u32 (n : Z) : cfloat := FNum (round_f32 (inject_Z n)).

(** [a * b] in [float]. *)
Definition fmul32 (a b : cfloat) : cfloat :=
  match a, b with
  | FNum x, FNum y => FNum (round_f32 (x * y))
  | _, _ => FNaN
  end.

(** [uint32_t(f * n)] for a [float f] and a [uint32_t n]. *)
Definition scaled_to_u32 (f : cfloat) (n : Z) : option Z :=
  cfloat_to_u32 (fmul32 f (float_of_u32 n)).

(** A 32-bit word read as an IEEE binary32 is a NaN when its exponent is all
    ones and its fraction is not zero. *)
Definition word_is_nan (w : Z) : bool :=
  (Z.land (Z.shiftr w 23) 255 =? 255) && negb (Z.land w 8388607 =? 0).

(** ** Result codes *)

(** [KMCUDAResult].  The header that declares it is not part of the sources;
    the codes are those the source returns, and the allocation failure the
    allocation macros return is named as the specification names it. *)
Inductive KMCUDAResult : Type :=
| kmcudaSuccess
| kmcudaInvalidArguments
| kmcudaNoSuchDevice
| kmcudaMemoryAllocationError
| kmcudaRuntimeError
| kmcudaMemoryCopyError.

Definition is_success (r : KMCUDAResult) : bool :=
  match r with
  | kmcudaSuccess => true
  | _ => false
  end.

Inductive KMCUDAInitMethod : Type :=
| kmcudaInitMethodRandom
| kmcudaInitMethodPlusPlus
| kmcudaInitMethodImport.

(** The distance metric is only handed on to the kernels. *)
Definition KMCUDADistanceMetric : Type := Z.

(** Status of a CUDA runtime call. *)
Inductive cudaError_t : Type :=
| cudaSuccess
| cudaErrorPeerAccessAlreadyEnabled
| cudaErrorOther.

Definition cuda_ok (e : cudaError_t) : bool :=
  match e with
  | cudaSuccess => true
  | _ => false
  end.

(** ** The world the driver runs in *)

Inductive memcpy_kind : Type :=
| cudaMemcpyHostToDevice
| cudaMemcpyDeviceToHost
| cudaMemcpyDeviceToDevice.

(** The CUDA runtime calls the driver issues, in the order it issues them.
    Sizes and counts are in elements. *)
Inductive call : Type :=
| CudaGetDeviceCount
| CudaSetDevice (dev : Z)
| CudaDeviceCanAccessPeer (dev1 dev2 : Z)
| CudaDeviceEnablePeerAccess (odev : Z)
| CudaMemGetInfo
| CudaMalloc (size : Z)
| CudaMemcpy (dst src count : Z) (kind : memcpy_kind)
| CudaMemcpyToLocal (src count : Z) (kind : memcpy_kind)   (* into a variable of the caller *)
| CudaMemcpyAsync (dst src count : Z) (kind : memcpy_kind)
| CudaMemcpyPeer (dst dstdev src srcdev count : Z)
| CudaMemcpyPeerAsync (dst dstdev src srcdev count : Z)
| CudaDeviceSynchronize.

(** Lines written by [INFO], [DEBUG] and [printf].  Whether an [INFO] or
    [DEBUG] line reaches the terminal is decided by the verbosity plumbing
    of the macros; the log keeps every line. *)
Inductive msg : Type :=
| InfoFp16Unsupported (arch : Z)
| InfoFailedToValidate (dev : Z)
| InfoP2PImpossible (dev1 dev2 : Z)
| InfoP2PAlreadyEnabled (dev : Z)
| InfoP2PEnableFailed (dev : Z)
| PrintMemoryStats (dev : Z)
| InfoRandomInit
| DebugShuffleComplete
| InfoPlusPlus
| PrintDump
| PrintDumpDev (dev : Z)
| PrintStep (i : Z)
| DebugPlusPlusFailed
| InfoDistSumNaN
| InfoBadIndex (j : Z)
| InfoDone
| DebugArguments
| InfoThreshold (threshold : Z)
| DebugYinyangGroups (g : Z)
| DebugReusingPassed
| DebugSetupFailed
| DebugInitFailed
| DebugInternalFailed
| DebugReturnSuccess.

Definition memory : Type := Z -> Z.

Record world : Type := mkWorld {
  w_mem : memory;          (* host and device memory, one word per element *)
  w_rng : Z;               (* state of the process-wide generator of rand() *)
  w_calls : list call;     (* runtime calls issued so far, oldest first *)
  w_log : list msg         (* lines logged so far, oldest first *)
}.

(** [count] elements copied from [src] to [dst]. *)
Definition copy_mem (m : memory) (dst src count : Z) : memory :=
  fun a => if (dst <=? a) && (a <? dst + count) then m (src + (a - dst)) else m a.

(** ** Control flow of a C++ function body

    A statement either falls through with a value, executes [return r],
    aborts the process (a failed [assert]), has no defined behaviour (an
    access out of range, a conversion out of range) or exhausts the budget
    of a loop without a bound. *)
Inductive outcome (R A : Type) : Type :=
| Val (a : A) (w : world)
| Return (r : R) (w : world)
| Aborted (w : world)
| Undefined
| Diverge.

Arguments Val {R A} a w.
Arguments Return {R A} r w.
Arguments Aborted {R A} w.
Arguments Undefined {R A}.
Arguments Diverge {R A}.

Definition M (R A : Type) : Type := world -> outcome R A.

Definition ret {R A} (a : A) : M R A := fun w => Val a w.

Definition bind {R A B} (c : M R A) (k : A -> M R B) : M R B :=
  fun w =>
    match c w with
    | Val a w' => k a w'
    | Return r w' => Return r w'
    | Aborted w' => Aborted w'
    | Undefined => Undefined
    | Diverge => Diverge
    end.

Notation "x <- c ;; k" := (bind c (fun x => k))
  (at level 61, c at next level, right associativity).
Notation "c ;; k" := (bind c (fun _ => k))
  (at level 61, right associativity).
Notation "' pat <- c ;; k" := (bind c (fun x => match x with pat => k end))
  (at level 61, pat pattern, c at next level, right associativity).

(** [return r;] *)
Definition return_ {R A} (r : R) : M R A := fun w => Return r w.

Definition undefined {R A} : M R A := fun _ => Undefined.

(** A call of a function whose body is [body]: its [return] ends the body,
    not the caller. *)
Definition call_fn {R R'} (body : M R R) : M R' R :=
  fun w =>
    match body w with
    | Val r w' => Val r w'
    | Return r w' => Val r w'
    | Aborted w' => Aborted w'
    | Undefined => Undefined
    | Diverge => Diverge
    end.

Definition when {R} (b : bool) (c : M R unit) : M R unit :=
  if b then c else ret tt.

(** [for (x : l) body] *)
Fixpoint for_each {R A} (l : list A) (body : A -> M R unit) : M R unit :=
  match l with
  | [] => ret tt
  | x :: l' => body x ;; for_each l' body
  end.

(** A loop over [l] that updates a local variable. *)
Fixpoint fold_each {R A S} (l : list A) (s : S) (body : A -> S -> M R S) : M R S :=
  match l with
  | [] => ret s
  | x :: l' => s' <- body x s ;; fold_each l' s' body
  end.

(** The indices [0 .. n-1] of a counted loop. *)
Definition upto (n : Z) : list Z := map Z.of_nat (seq 0 (Z.to_nat n)).

(** [v[i]] on a [std::vector] or an array; out of range it is undefined. *)
Definition at_ {R A} (v : list A) (i : Z) : M R A :=
  if i <? 0 then undefined
  else match nth_error v (Z.to_nat i) with
       | Some x => ret x
       | None => undefined
       end.

Definition log_line {R} (m : msg) : M R unit :=
  fun w => Val tt (mkWorld (w_mem w) (w_rng w) (w_calls w) (w_log w ++ [m])).

Definition INFO {R} (m : msg) : M R unit := log_line m.
Definition DEBUG {R} (m : msg) : M R unit := log_line m.
Definition printf {R} (m : msg) : M R unit := log_line m.

Definition record_call {R} (c : call) : M R unit :=
  fun w => Val tt (mkWorld (w_mem w) (w_rng w) (w_calls w ++ [c]) (w_log w)).

Definition get_world {R} : M R world := fun w => Val w w.

Definition set_mem {R} (m : memory) : M R unit :=
  fun w => Val tt (mkWorld m (w_rng w) (w_calls w) (w_log w)).

Definition set_rng {R} (s : Z) : M R unit :=
  fun w => Val tt (mkWorld (w_mem w) s (w_calls w) (w_log w)).

(** ** The environment: build constants, the C library, the CUDA runtime and
    the kernels

    [private.h], the CUDA runtime and the kernel translation units are not
    part of the sources, so what they provide is a field here.  A status may
    depend on the calls issued before. *)

(** An entry of a [udevptrs<T>]: the address and the flag that marks a
    pointer the vector does not own ([emplace_back(p, true)]). *)
Record devptr : Type := mkDevptr {
  dp_get : Z;
  dp_borrowed : bool
}.

Definition udevptrs : Type := list devptr.

Record env : Type := mkEnv {
  (* build *)
  CUDA_ARCH : Z;
  NDEBUG : bool;
  (* C library *)
  RAND_MAX : Z;
  rand_gen : Z -> Z * Z;                        (* state -> value, next state *)
  (* CUDA runtime *)
  device_count : Z;                             (* cudaGetDeviceCount *)
  set_device_status : Z -> cudaError_t;         (* cudaSetDevice(dev) *)
  can_access_peer : Z -> Z -> bool;             (* cudaDeviceCanAccessPeer *)
  enable_peer_status : Z -> Z -> cudaError_t;   (* on device dev, towards odev *)
  malloc_result : list call -> Z -> option Z;   (* cudaMalloc: the address *)
  memcpy_status : list call -> call -> cudaError_t;
  mem_get_info_status : list call -> cudaError_t;
  synchronize_status : list call -> cudaError_t;
  (* kernels and helpers of the other translation units *)
  max_distribute_length : Z -> Z -> list Z -> Z;
  kmeans_cuda_setup : Z -> Z -> Z -> Z -> list Z -> Z -> KMCUDAResult;
  kmeans_cuda_plus_plus :
    Z -> Z -> Z -> KMCUDADistanceMetric -> list Z -> Z -> Z ->
    udevptrs -> udevptrs -> udevptrs -> udevptrs -> memory ->
    KMCUDAResult * list cfloat * cfloat * memory;
  kmeans_cuda_yy :
    cfloat -> Z -> Z -> Z -> Z -> KMCUDADistanceMetric -> list Z -> Z -> Z ->
    udevptrs -> udevptrs -> udevptrs -> udevptrs -> udevptrs -> udevptrs ->
    udevptrs -> udevptrs -> udevptrs -> udevptrs -> memory ->
    KMCUDAResult * memory
}.

Section Driver.

Variable E : env.

(** *** C library and CUDA runtime calls *)

(** [srand(seed)] *)
Definition srand {R} (seed : Z) : M R unit := set_rng seed.

(** [rand()] *)
Definition rand {R} : M R Z :=
  fun w =>
    let '(v, s) := rand_gen E (w_rng w) in
    Val v (mkWorld (w_mem w) s (w_calls w) (w_log w)).

(** [cudaGetDeviceCount(&n)]: the count it stores. *)
Definition cudaGetDeviceCount {R} : M R Z :=
  record_call CudaGetDeviceCount ;; ret (device_count E).

Definition cudaSetDevice {R} (dev : Z) : M R cudaError_t :=
  record_call (CudaSetDevice dev) ;; ret (set_device_status E dev).

Definition cudaDeviceCanAccessPeer {R} (dev1 dev2 : Z) : M R bool :=
  record_call (CudaDeviceCanAccessPeer dev1 dev2) ;; ret (can_access_peer E dev1 dev2).

Definition cudaDeviceEnablePeerAccess {R} (dev odev : Z) : M R cudaError_t :=
  record_call (CudaDeviceEnablePeerAccess odev) ;; ret (enable_peer_status E dev odev).

Definition cudaMemGetInfo {R} : M R cudaError_t :=
  fun w =>
    Val (mem_get_info_status E (w_calls w))
        (mkWorld (w_mem w) (w_rng w) (w_calls w ++ [CudaMemGetInfo]) (w_log w)).

Definition cudaDeviceSynchronize {R} : M R cudaError_t :=
  fun w =>
    Val (synchronize_status E (w_calls w))
        (mkWorld (w_mem w) (w_rng w) (w_calls w ++ [CudaDeviceSynchronize]) (w_log w)).

(** [cudaMalloc(&p, size)]: the address on success. *)
Definition cudaMalloc {R} (size : Z) : M R (option Z) :=
  fun w =>
    Val (malloc_result E (w_calls w) size)
        (mkWorld (w_mem w) (w_rng w) (w_calls w ++ [CudaMalloc size]) (w_log w)).

(** A copy command: its status comes from the runtime, and a successful one
    moves [count] elements. *)
Definition issue_copy {R} (c : call) (dst src count : Z) : M R cudaError_t :=
  fun w =>
    let st := memcpy_status E (w_calls w) c in
    Val st (mkWorld (if cuda_ok st then copy_mem (w_mem w) dst src count else w_mem w)
                    (w_rng w) (w_calls w ++ [c]) (w_log w)).

Definition cudaMemcpy {R} (dst src count : Z) (kind : memcpy_kind) : M R cudaError_t :=
  issue_copy (CudaMemcpy dst src count kind) dst src count.

(** [cudaMemcpy(&x, src, sizeof(float), kind)] into a variable [x] of the
    calling function: the status and the word read. *)
Definition cudaMemcpyToLocal {R} (src : Z) (kind : memcpy_kind) : M R (cudaError_t * Z) :=
  fun w =>
    let c := CudaMemcpyToLocal src 1 kind in
    Val (memcpy_status E (w_calls w) c, w_mem w src)
        (mkWorld (w_mem w) (w_rng w) (w_calls w ++ [c]) (w_log w)).

Definition cudaMemcpyAsync {R} (dst src count : Z) (kind : memcpy_kind) : M R cudaError_t :=
  issue_copy (CudaMemcpyAsync dst src count kind) dst src count.

Definition cudaMemcpyPeer {R} (dst dstdev src srcdev count : Z) : M R cudaError_t :=
  issue_copy (CudaMemcpyPeer dst dstdev src srcdev count) dst src count.

Definition cudaMemcpyPeerAsync {R} (dst dstdev src srcdev count : Z) : M R cudaError_t :=
  issue_copy (CudaMemcpyPeerAsync dst dstdev src srcdev count) dst src count.

(** *** The macros of [private.h] *)

(** Modelled from the spec: [CUCH(call, code)] is a macro of [private.h].
    Section 7: a failed copy or allocation "is immediately fatal and aborts
    the entire call", so a status other than success returns [code]. *)
Definition CUCH (st : cudaError_t) (code : KMCUDAResult) : M KMCUDAResult unit :=
  if cuda_ok st then ret tt else return_ code.

(** Modelled from the spec: [RETERR(call, ...)] is a macro of [private.h];
    a result other than success is returned to the caller, after the
    optional statement. *)
Definition RETERR (r : KMCUDAResult) (otherwise : M KMCUDAResult unit) : M KMCUDAResult unit :=
  if is_success r then ret tt else (otherwise ;; return_ r).

(** Modelled from the spec: [FOR_EACH_DEV(...)] is a macro of [private.h].
    Section 9: "for every selected device, set context then enqueue". *)
Definition FOR_EACH_DEV {R} (devs : list Z) (body : Z -> M R unit) : M R unit :=
  for_each devs (fun dev => cudaSetDevice dev ;; body dev).

(** Modelled from the spec: [FOR_EACH_DEVI(...)], as [FOR_EACH_DEV] with the
    position [devi] of the device in [devs]. *)
Definition FOR_EACH_DEVI {R} (devs : list Z) (body : Z -> M R unit) : M R unit :=
  for_each (upto (Z.of_nat (length devs)))
           (fun devi => dev <- at_ devs devi ;; cudaSetDevice dev ;; body devi).

(** [FOR_EACH_DEV] around a body that updates a local variable. *)
Definition FOR_EACH_DEV_with {R S} (devs : list Z) (s : S) (body : Z -> S -> M R S) : M R S :=
  fold_each devs s (fun dev s => cudaSetDevice dev ;; body dev s).

(** [FOR_EACH_DEVI] around a body that updates a local variable. *)
Definition FOR_EACH_DEVI_with {R S} (devs : list Z) (s : S) (body : Z -> S -> M R S) : M R S :=
  fold_each (upto (Z.of_nat (length devs))) s
            (fun devi s => dev <- at_ devs devi ;; cudaSetDevice dev ;; body devi s).

(** Modelled from the spec: [CUMALLOC_ONE(dest, size, dev)] is a macro of
    [private.h].  Section 4.3: "allocate a fresh device-local region sized
    to the buffer's element count"; section 7: a failed allocation returns
    the allocation error.  The new entry is owned. *)
Definition CUMALLOC_ONE (dest : udevptrs) (size dev : Z) : M KMCUDAResult udevptrs :=
  p <- cudaMalloc size ;;
  match p with
  | Some a => ret (dest ++ [mkDevptr a false])
  | None => return_ kmcudaMemoryAllocationError
  end.

(** Modelled from the spec: [CUMALLOC(dest, size)], one [CUMALLOC_ONE] on
    every selected device. *)
Definition CUMALLOC (devs : list Z) (dest : udevptrs) (size : Z) : M KMCUDAResult udevptrs :=
  fold_each devs dest (fun dev dest => cudaSetDevice dev ;; CUMALLOC_ONE dest size dev).

(** Modelled from the spec: [CUMEMCPY_H2D_ASYNC(dst, dst_stride, src, size)]
    is a macro of [private.h].  Section 4.3: "copy from host memory
    asynchronously to every device"; a failed copy returns the copy
    error. *)
Definition CUMEMCPY_H2D_ASYNC (devs : list Z) (dst : udevptrs) (dst_stride src size : Z)
  : M KMCUDAResult unit :=
  FOR_EACH_DEVI devs (fun devi =>
    d <- at_ dst devi ;;
    st <- cudaMemcpyAsync (dp_get d + dst_stride) src size cudaMemcpyHostToDevice ;;
    CUCH st kmcudaMemoryCopyError).

(** Modelled from the spec: [CUMEMCPY_D2D_ASYNC(dst, dst_stride, src,
    src_stride, size)] is a macro of [private.h]: on every device, a
    device-to-device copy between the entries of that device. *)
Definition CUMEMCPY_D2D_ASYNC (devs : list Z) (dst : udevptrs) (dst_stride : Z)
  (src : udevptrs) (src_stride size : Z) : M KMCUDAResult unit :=
  FOR_EACH_DEVI devs (fun devi =>
    d <- at_ dst devi ;;
    s <- at_ src devi ;;
    st <- cudaMemcpyAsync (dp_get d + dst_stride) (dp_get s + src_stride) size
                          cudaMemcpyDeviceToDevice ;;
    CUCH st kmcudaMemoryCopyError).

(** Modelled from the spec: [SYNC_ALL_DEVS] is a macro of [private.h].
    Section 4.6: "synchronize all devices before returning". *)
Definition SYNC_ALL_DEVS (devs : list Z) : M KMCUDAResult unit :=
  FOR_EACH_DEV devs (fun _ =>
    st <- cudaDeviceSynchronize ;;
    CUCH st kmcudaRuntimeError).

(** [assert(c)]: nothing when assertions are compiled out. *)
Definition assert {R} (c : bool) : M R unit :=
  if NDEBUG E then ret tt
  else if c then ret tt
  else fun w => Aborted w.

(** *** [check_args] (lines 19-56) *)

Definition check_args
  (tolerance yinyang_t : cfloat) (samples_size features_size clusters_size device : Z)
  (fp16x2 : bool) (verbosity : Z) (samples centroids assignments : Z)
  : M KMCUDAResult KMCUDAResult :=
  if (clusters_size <? 2) || (clusters_size =? UINT32_MAX) then
    return_ kmcudaInvalidArguments
  else if features_size =? 0 then
    return_ kmcudaInvalidArguments
  else if samples_size <? clusters_size then
    return_ kmcudaInvalidArguments
  else if device <? 0 then
    return_ kmcudaNoSuchDevice
  else
    devices <- cudaGetDeviceCount ;;
    if device >? shl32 1 devices then
      return_ kmcudaNoSuchDevice
    else if (samples =? 0) || (centroids =? 0) || (assignments =? 0) then
      return_ kmcudaInvalidArguments
    else if flt tolerance fzero || fgt tolerance fone then
      return_ kmcudaInvalidArguments
    else if flt yinyang_t fzero || fgt yinyang_t fhalf then
      return_ kmcudaInvalidArguments
    else if (CUDA_ARCH E <? 60) && fp16x2 then
      INFO (InfoFp16Unsupported (CUDA_ARCH E)) ;;
      return_ kmcudaInvalidArguments
    else
      return_ kmcudaSuccess.

(** *** [setup_devices] (lines 58-116) *)

(** The loop of lines 67-76: [for (int dev = 0; device; dev++)].  A 32-bit
    mask is zero after at most 32 shifts, which is the budget given. *)
Fixpoint scan_mask {R} (fuel : nat) (dev device : Z) (devs : list Z) : M R (list Z * Z) :=
  if device =? 0 then ret (devs, device)
  else
    match fuel with
    | O => fun _ => Diverge
    | S fuel' =>
        devs <- (if negb (Z.land device 1 =? 0) then
                   let devs := devs ++ [dev] in           (* push_back *)
                   st <- cudaSetDevice dev ;;
                   if negb (cuda_ok st) then
                     INFO (InfoFailedToValidate dev) ;;
                     ret (removelast devs)                (* pop_back *)
                   else ret devs
                 else ret devs) ;;
        scan_mask fuel' (dev + 1) (Z.shiftr device 1) devs
    end.

(** Lines 83-94: the peer-access capability of every pair. *)
Definition warn_p2p_impossible {R} (devs : list Z) : M R unit :=
  for_each devs (fun dev1 =>
    for_each devs (fun dev2 =>
      if dev1 <=? dev2 then ret tt
      else
        access <- cudaDeviceCanAccessPeer dev1 dev2 ;;
        when (negb access) (INFO (InfoP2PImpossible dev1 dev2)))).

(** Lines 95-109: peer access switched on for every ordered pair. *)
Definition enable_p2p {R} (devs : list Z) : M R unit :=
  for_each devs (fun dev =>
    cudaSetDevice dev ;;
    for_each devs (fun odev =>
      if dev =? odev then ret tt
      else
        err <- cudaDeviceEnablePeerAccess dev odev ;;
        match err with
        | cudaErrorPeerAccessAlreadyEnabled => INFO (InfoP2PAlreadyEnabled dev)
        | cudaSuccess => ret tt
        | _ => INFO (InfoP2PEnableFailed dev)
        end)).

Definition setup_devices (device device_ptrs verbosity : Z) : M (list Z) (list Z) :=
  let devs : list Z := [] in
  device <- (if device =? 0 then
               n <- cudaGetDeviceCount ;;                 (* stored in device *)
               let device := u32 n in
               if device =? 0 then return_ devs
               else ret (u32 (shl32 1 device - 1))
             else ret device) ;;
  ' (devs, device) <- scan_mask 32 0 device devs ;;
  let p2p_dp :=
    (device_ptrs >=? 0) && (Z.land device (shl32 1 device_ptrs) =? 0) in
  let devs := if p2p_dp then devs ++ [device_ptrs] else devs in
  when (1 <? Z.of_nat (length devs))
       (warn_p2p_impossible devs ;; enable_p2p devs) ;;
  let devs := if p2p_dp then removelast devs else devs in
  return_ devs.

(** *** [print_memory_stats] (lines 118-131) *)

Definition print_memory_stats (devs : list Z) : M KMCUDAResult KMCUDAResult :=
  FOR_EACH_DEV devs (fun dev =>
    st <- cudaMemGetInfo ;;
    if negb (cuda_ok st) then return_ kmcudaRuntimeError
    else printf (PrintMemoryStats dev)) ;;
  return_ kmcudaSuccess.

(** *** The cumulative-weight search of k-means++ (lines 220-245) *)

(** [host_dists[j]]; the array holds [samples_size] floats, and an index
    outside it has no defined value. *)
Definition host_at (host_dists : list cfloat) (j : Z) : option cfloat :=
  if j <? 0 then None else nth_error host_dists (Z.to_nat j).

(** [for (; j < samples_size && dist_sum2 < choice_sum; j++)
       dist_sum2 += host_dists[j];]
    (lines 226-228 from [j = 0], lines 236-238 from [j = choice_approx]).
    The guard bounds the iterations by [samples_size - j]; a budget of that
    many is never exhausted. *)
Fixpoint scan_forward (host_dists : list cfloat) (samples_size : Z) (choice_sum : cfloat)
  (fuel : nat) (j : Z) (dist_sum2 : cfloat) : option Z :=
  if (j <? samples_size) && flt dist_sum2 choice_sum then
    match fuel with
    | O => None
    | S fuel' =>
        match host_at host_dists j with
        | Some d => scan_forward host_dists samples_size choice_sum fuel' (j + 1) (fadd dist_sum2 d)
        | None => None
        end
    end
  else Some j.

(** [for (uint32_t t = 0; t < choice_approx; t++) dist_sum2 += host_dists[t];]
    (lines 232-234). *)
Fixpoint partial_sum (host_dists : list cfloat) (ts : list Z) (dist_sum2 : cfloat)
  : option cfloat :=
  match ts with
  | [] => Some dist_sum2
  | t :: ts' =>
      match host_at host_dists t with
      | Some d => partial_sum host_dists ts' (fadd dist_sum2 d)
      | None => None
      end
  end.

(** [for (; j > 1 && dist_sum2 >= choice_sum; j--) dist_sum2 -= host_dists[j];]
    (lines 240-242), at most [j - 1] iterations. *)
Fixpoint walk_back (host_dists : list cfloat) (choice_sum : cfloat)
  (fuel : nat) (j : Z) (dist_sum2 : cfloat) : option Z :=
  if (j >? 1) && fge dist_sum2 choice_sum then
    match fuel with
    | O => None
    | S fuel' =>
        match host_at host_dists j with
        | Some d => walk_back host_dists choice_sum fuel' (j - 1) (fsub dist_sum2 d)
        | None => None
        end
    end
  else Some j.

(** Lines 221-245: the index [j] the search leaves, for the draw [choice]
    and the sum [dist_sum] the kernel reported.  [None]: the source reads
    outside [host_dists] or converts a value no [uint32_t] holds. *)
Definition weighted_search (host_dists : list cfloat) (samples_size : Z)
  (choice dist_sum : cfloat) : option Z :=
  match cfloat_to_u32 (fmul choice (FNum (inject_Z samples_size))) with
  | None => None
  | Some choice_approx =>
      let choice_sum := fmul choice dist_sum in
      if choice_approx <? 100 then
        scan_forward host_dists samples_size choice_sum (Z.to_nat samples_size) 0 fzero
      else
        match partial_sum host_dists (upto choice_approx) fzero with
        | None => None
        | Some dist_sum2 =>
            if flt dist_sum2 choice_sum then
              scan_forward host_dists samples_size choice_sum
                           (Z.to_nat samples_size) choice_approx dist_sum2
            else
              match walk_back host_dists choice_sum (Z.to_nat choice_approx)
                              choice_approx dist_sum2 with
              | Some j => Some (u32 (j + 1))
              | None => None
              end
        end
  end.

(** *** Random initialisation: the shuffle (line 171) *)

Fixpoint list_set {A} (l : list A) (k : nat) (x : A) : list A :=
  match l, k with
  | [], _ => []
  | _ :: l', O => x :: l'
  | y :: l', S k' => y :: list_set l' k' x
  end.

(** [std::iter_swap(first + i, first + j)] *)
Definition swap_at (l : list Z) (i j : nat) : list Z :=
  list_set (list_set l i (nth j l 0)) j (nth i l 0).

(** Modelled from the spec: [std::random_shuffle] is the C++ library's, not
    a function of the sources.  Section 4.4: "Fisher-Yates over the full
    index range using a process-wide seeded generator": position [i], from
    1 to the end, is exchanged with position [rand() % (i + 1)]. *)
Definition random_shuffle {R} (v : list Z) : M R (list Z) :=
  fold_each (map (fun k => k + 1) (upto (Z.of_nat (length v) - 1))) v
            (fun i v =>
               r <- rand ;;
               ret (swap_at v (Z.to_nat i) (Z.to_nat (r mod (i + 1))))).

(** *** [kmeans_init_centroids] (lines 135-257) *)

(** Lines 143-163. *)
Definition init_import
  (samples_size features_size clusters_size : Z) (devs : list Z) (device_ptrs : Z)
  (host_centroids : Z) (centroids : udevptrs) : M KMCUDAResult unit :=
  if device_ptrs <? 0 then
    CUMEMCPY_H2D_ASYNC devs centroids 0 host_centroids (u32 (clusters_size * features_size))
  else
    origin_devi <- FOR_EACH_DEVI_with devs (-1) (fun devi origin_devi =>
      dev <- at_ devs devi ;;
      if dev =? device_ptrs then ret devi else ret origin_devi) ;;
    FOR_EACH_DEVI devs (fun devi =>
      if negb (devi =? origin_devi) then
        d <- at_ centroids devi ;;
        dev <- at_ devs devi ;;
        st <- cudaMemcpyPeerAsync (dp_get d) dev host_centroids device_ptrs
                                  (u32 (clusters_size * features_size)) ;;
        CUCH st kmcudaMemoryCopyError
      else ret tt).

(** Lines 164-183.  The vector [chosen] after the shuffle is returned with
    the effect, so that the indices picked can be named. *)
Definition init_random
  (samples_size features_size clusters_size : Z) (devs : list Z)
  (samples centroids : udevptrs) : M KMCUDAResult (list Z) :=
  INFO InfoRandomInit ;;
  let chosen := upto samples_size in
  chosen <- random_shuffle chosen ;;
  DEBUG DebugShuffleComplete ;;
  FOR_EACH_DEVI devs (fun devi =>
    for_each (upto clusters_size) (fun c =>
      d <- at_ centroids devi ;;
      s <- at_ samples devi ;;
      ch <- at_ chosen c ;;
      st <- cudaMemcpyAsync (dp_get d + u32 (c * features_size))
                            (dp_get s + ch * features_size)
                            features_size cudaMemcpyDeviceToDevice ;;
      CUCH st kmcudaMemoryCopyError)) ;;
  ret chosen.

(** Lines 186-193: [while (smoke != smoke)].  The loop has no bound of its
    own; [fuel] is the number of probes allowed. *)
Fixpoint probe_sample (fuel : nat) (samples_size features_size : Z) (devs : list Z)
  (samples : udevptrs) (smoke first_offset : Z) : M KMCUDAResult Z :=
  if word_is_nan smoke then
    match fuel with
    | O => fun _ => Diverge
    | S fuel' =>
        r <- rand ;;
        if samples_size =? 0 then undefined
        else
          let first_offset := u32 ((r mod samples_size) * features_size) in
          dev0 <- at_ devs 0 ;;
          cudaSetDevice dev0 ;;
          s0 <- at_ samples 0 ;;
          ' (st, smoke) <- cudaMemcpyToLocal (dp_get s0 + first_offset)
                                             cudaMemcpyDeviceToHost ;;
          CUCH st kmcudaMemoryCopyError ;;
          probe_sample fuel' samples_size features_size devs samples smoke first_offset
    end
  else ret first_offset.

(** The quiet NaN [NAN] as a binary32 word. *)
Definition NAN_word : Z := 2143289344.

(** Lines 205-252: the body of the loop over [i]. *)
Definition plus_plus_step
  (samples_size features_size clusters_size : Z) (metric : KMCUDADistanceMetric)
  (devs : list Z) (fp16x2 verbosity : Z)
  (samples dists dev_sums centroids : udevptrs) (i : Z) : M KMCUDAResult unit :=
  when ((verbosity >? 1) ||
        ((verbosity >? 0) &&
         ((clusters_size <? 100) || (i mod (clusters_size / 100) =? 0))))
       (printf (PrintStep i)) ;;
  w <- get_world ;;
  let '(res, host_dists, dist_sum, m) :=
    kmeans_cuda_plus_plus E samples_size features_size i metric devs fp16x2 verbosity
                          samples centroids dists dev_sums (w_mem w) in
  set_mem m ;;
  RETERR res (DEBUG DebugPlusPlusFailed) ;;
  when (fne_self dist_sum)
       (assert (negb (fne_self dist_sum)) ;;
        INFO InfoDistSumNaN) ;;
  r <- rand ;;
  let choice := FNum (inject_Z r / inject_Z (RAND_MAX E)) in
  match weighted_search host_dists samples_size choice dist_sum with
  | None => undefined
  | Some j =>
      when ((j =? 0) || (j >? samples_size))
           (assert ((j >? 0) && (j <=? samples_size)) ;;
            INFO (InfoBadIndex j)) ;;
      CUMEMCPY_D2D_ASYNC devs centroids (u32 (i * features_size))
                         samples (u32 (u32 (j - 1) * features_size)) features_size
  end.

(** Lines 184-253. *)
Definition init_plus_plus (fuel : nat)
  (samples_size features_size clusters_size : Z) (metric : KMCUDADistanceMetric)
  (devs : list Z) (fp16x2 verbosity : Z)
  (samples dists dev_sums centroids : udevptrs) : M KMCUDAResult unit :=
  INFO InfoPlusPlus ;;
  first_offset <- probe_sample fuel samples_size features_size devs samples NAN_word 0 ;;
  CUMEMCPY_D2D_ASYNC devs centroids 0 samples first_offset features_size ;;
  when (verbosity >? 2)
       (printf PrintDump ;;
        FOR_EACH_DEVI devs (fun devi =>
          dev <- at_ devs devi ;;
          _ <- at_ samples devi ;;
          _ <- at_ centroids devi ;;
          _ <- at_ dists devi ;;
          _ <- at_ dev_sums devi ;;
          printf (PrintDumpDev dev))) ;;
  for_each (map (fun k => k + 1) (upto (clusters_size - 1)))
           (plus_plus_step samples_size features_size clusters_size metric devs
                           fp16x2 verbosity samples dists dev_sums centroids).

Definition kmeans_init_centroids (fuel : nat)
  (method : KMCUDAInitMethod) (samples_size features_size clusters_size : Z)
  (metric : KMCUDADistanceMetric) (seed : Z) (devs : list Z) (device_ptrs : Z)
  (fp16x2 verbosity : Z) (host_centroids : Z)
  (samples dists dev_sums centroids : udevptrs) : M KMCUDAResult KMCUDAResult :=
  srand seed ;;
  match method with
  | kmcudaInitMethodImport =>
      init_import samples_size features_size clusters_size devs device_ptrs
                  host_centroids centroids
  | kmcudaInitMethodRandom =>
      _ <- init_random samples_size features_size clusters_size devs samples centroids ;;
      ret tt
  | kmcudaInitMethodPlusPlus =>
      init_plus_plus fuel samples_size features_size clusters_size metric devs
                     fp16x2 verbosity samples dists dev_sums centroids
  end ;;
  INFO InfoDone ;;
  return_ kmcudaSuccess.

(** *** [kmeans_cuda] (lines 259-394) *)

(** The sizes of lines 328-335, in elements.  [max_length] is what
    [max_distribute_length] returned. *)
Definition yyb_size (max_length yy_groups_size : Z) : Z :=
  u64 (max_length * u32 (yy_groups_size + 1)).

Definition yy_drifts_size (centroids_size clusters_size : Z) : Z :=
  u64 (centroids_size + clusters_size).

Definition yy_passed_size (max_length clusters_size yy_groups_size : Z) : Z :=
  Z.max max_length (u32 (clusters_size + yy_groups_size)).

Definition yyc_size (yy_groups_size features_size : Z) : Z :=
  u32 (yy_groups_size * features_size).

(** Line 336: whether [device_centroids_yy] reuses [device_passed_yy]. *)
Definition yy_reuses_passed (max_length clusters_size features_size yy_groups_size : Z) : bool :=
  yyc_size yy_groups_size features_size
    <=? yy_passed_size max_length clusters_size yy_groups_size.

(** Lines 324-345: the vectors [device_assignments_yy], [device_bounds_yy],
    [device_drifts_yy], [device_passed_yy] and [device_centroids_yy]. *)
Definition alloc_yinyang
  (samples_size features_size clusters_size yy_groups_size centroids_size : Z)
  (devs : list Z)
  : M KMCUDAResult (udevptrs * udevptrs * udevptrs * udevptrs * udevptrs) :=
  if yy_groups_size >=? 1 then
    device_assignments_yy <- CUMALLOC devs [] clusters_size ;;
    let max_length := u32 (max_distribute_length E samples_size (features_size * 4) devs) in
    device_bounds_yy <- CUMALLOC devs [] (yyb_size max_length yy_groups_size) ;;
    device_drifts_yy <- CUMALLOC devs [] (yy_drifts_size centroids_size clusters_size) ;;
    let max_length := yy_passed_size max_length clusters_size yy_groups_size in
    device_passed_yy <- CUMALLOC devs [] max_length ;;
    device_centroids_yy <-
      (if yyc_size yy_groups_size features_size <=? max_length then
         DEBUG DebugReusingPassed ;;
         ret (map (fun p => mkDevptr (dp_get p) true) device_passed_yy)
       else CUMALLOC devs [] (yyc_size yy_groups_size features_size)) ;;
    ret (device_assignments_yy, device_bounds_yy, device_drifts_yy,
         device_passed_yy, device_centroids_yy)
  else ret ([], [], [], [], []).

(** Lines 372-391. *)
Definition collect_results
  (samples_size centroids_size : Z) (devs : list Z) (device_ptrs origin_devi : Z)
  (centroids assignments : Z) (device_centroids device_assignments : udevptrs)
  : M KMCUDAResult unit :=
  if origin_devi <? 0 then
    if device_ptrs <? 0 then
      c <- at_ device_centroids (last devs 0) ;;
      st <- cudaMemcpy centroids (dp_get c) centroids_size cudaMemcpyDeviceToHost ;;
      CUCH st kmcudaMemoryCopyError ;;
      a <- at_ device_assignments (last devs 0) ;;
      st <- cudaMemcpy assignments (dp_get a) samples_size cudaMemcpyDeviceToHost ;;
      CUCH st kmcudaMemoryCopyError
    else
      c <- at_ device_centroids (Z.of_nat (length devs) - 1) ;;
      st <- cudaMemcpyPeer centroids device_ptrs (dp_get c) (last devs 0) centroids_size ;;
      CUCH st kmcudaMemoryCopyError ;;
      a <- at_ device_assignments (Z.of_nat (length devs) - 1) ;;
      st <- cudaMemcpyPeer assignments device_ptrs (dp_get a) (last devs 0) samples_size ;;
      CUCH st kmcudaMemoryCopyError ;;
      SYNC_ALL_DEVS devs
  else ret tt.

(** [PROFILE] is taken as not defined.  Lines 272 and 273 convert a
    [float] product to [uint32_t]; where the product is NaN or does not fit,
    the conversion has no defined value.  The argument of [INFO] on line
    272 is taken as evaluated whatever the verbosity: the macro is not part
    of the sources. *)
Definition kmeans_cuda (fuel : nat)
  (init : KMCUDAInitMethod) (tolerance yinyang_t : cfloat) (metric : KMCUDADistanceMetric)
  (samples_size features_size clusters_size seed device device_ptrs fp16x2 verbosity : Z)
  (samples centroids assignments : Z) : M KMCUDAResult KMCUDAResult :=
  DEBUG DebugArguments ;;
  res <- call_fn (check_args tolerance yinyang_t samples_size features_size clusters_size
                             device (negb (fp16x2 =? 0)) verbosity
                             samples centroids assignments) ;;
  RETERR res (ret tt) ;;
  match scaled_to_u32 tolerance samples_size with
  | None => undefined
  | Some threshold =>
  INFO (InfoThreshold threshold) ;;
  match scaled_to_u32 yinyang_t clusters_size with
  | None => undefined
  | Some yy_groups_size =>
  DEBUG (DebugYinyangGroups yy_groups_size) ;;
  devs <- call_fn (setup_devices device device_ptrs verbosity) ;;
  if Z.of_nat (length devs) =? 0 then return_ kmcudaNoSuchDevice
  else
  let device_samples_size := u64 (samples_size * features_size) in
  ' (device_samples, origin_devi) <-
    FOR_EACH_DEVI_with devs (([] : udevptrs), -1) (fun devi st =>
      let '(device_samples, origin_devi) := st in
      dev <- at_ devs devi ;;
      if dev =? device_ptrs then
        ret (device_samples ++ [mkDevptr samples true], devi)
      else
        device_samples <- CUMALLOC_ONE device_samples device_samples_size dev ;;
        ret (device_samples, origin_devi)) ;;
  (if device_ptrs <? 0 then
     CUMEMCPY_H2D_ASYNC devs device_samples 0 samples device_samples_size
   else
     FOR_EACH_DEVI devs (fun devi =>
       if negb (devi =? origin_devi) then
         d <- at_ device_samples devi ;;
         dev <- at_ devs devi ;;
         st <- cudaMemcpyPeerAsync (dp_get d) dev samples device_ptrs device_samples_size ;;
         CUCH st kmcudaMemoryCopyError
       else ret tt)) ;;
  let centroids_size := u64 (clusters_size * features_size) in
  device_centroids <-
    FOR_EACH_DEV_with devs ([] : udevptrs) (fun dev device_centroids =>
      if dev =? device_ptrs then ret (device_centroids ++ [mkDevptr centroids true])
      else CUMALLOC_ONE device_centroids centroids_size dev) ;;
  device_assignments <-
    FOR_EACH_DEV_with devs ([] : udevptrs) (fun dev device_assignments =>
      if dev =? device_ptrs then ret (device_assignments ++ [mkDevptr assignments true])
      else CUMALLOC_ONE device_assignments samples_size dev) ;;
  device_assignments_prev <- CUMALLOC devs [] samples_size ;;
  device_ccounts <- CUMALLOC devs [] clusters_size ;;
  ' (device_assignments_yy, device_bounds_yy, device_drifts_yy,
     device_passed_yy, device_centroids_yy) <-
    alloc_yinyang samples_size features_size clusters_size yy_groups_size
                  centroids_size devs ;;
  when (verbosity >? 1)
       (res <- call_fn (print_memory_stats devs) ;; RETERR res (ret tt)) ;;
  RETERR (kmeans_cuda_setup E samples_size features_size clusters_size
                            yy_groups_size devs verbosity)
         (DEBUG DebugSetupFailed) ;;
  res <- call_fn (kmeans_init_centroids fuel init samples_size features_size clusters_size
                    metric seed devs device_ptrs fp16x2 verbosity centroids
                    device_samples device_assignments device_assignments_prev
                    device_centroids) ;;
  RETERR res (DEBUG DebugInitFailed) ;;
  w <- get_world ;;
  let '(res, m) :=
    kmeans_cuda_yy E tolerance yy_groups_size samples_size clusters_size features_size
                   metric devs fp16x2 verbosity device_samples device_centroids
                   device_ccounts device_assignments_prev device_assignments
                   device_assignments_yy device_centroids_yy device_bounds_yy
                   device_drifts_yy device_passed_yy (w_mem w) in
  set_mem m ;;
  RETERR res (DEBUG DebugInternalFailed) ;;
  collect_results samples_size centroids_size devs device_ptrs origin_devi
                  centroids assignments device_centroids device_assignments ;;
  DEBUG DebugReturnSuccess ;;
  return_ kmcudaSuccess
  end
  end.

(** *** [normalize_cuda] (lines 396-402) *)

Definition normalize_cuda
  (samples features_size samples_size device device_ptrs verbosity output : Z)
  : M KMCUDAResult KMCUDAResult :=
  DEBUG DebugReturnSuccess ;;
  return_ kmcudaSuccess.

End Driver.

(** ** Reading an outcome *)

(** The code a function body returned, if it returned. *)
Definition returned {R A} (o : outcome R A) : option R :=
  match o with
  | Return r _ => Some r
  | _ => None
  end.

(** The world a body left, if it returned or fell through. *)
Definition final_world {R A} (o : outcome R A) : option world :=
  match o with
  | Val _ w => Some w
  | Return _ w => Some w
  | _ => None
  end.

(** ** Sample environments for concrete runs *)

(** A linear congruential [rand()]. *)
Definition lcg (s : Z) : Z * Z :=
  let s' := (s * 1103515245 + 12345) mod 2147483647 in (s', s').

(** An environment with [ndev] devices in which every runtime call succeeds,
    allocations return fresh addresses from [2^40] on, and the kernels do
    nothing and succeed; [pp] is the k-means++ distance kernel. *)
Definition sample_env (ndebug : bool) (ndev : Z) (gen : Z -> Z * Z)
  (pp : Z -> memory -> KMCUDAResult * list cfloat * cfloat * memory) : env :=
  {| CUDA_ARCH := 60;
     NDEBUG := ndebug;
     RAND_MAX := 2147483647;
     rand_gen := gen;
     device_count := ndev;
     set_device_status := fun dev => if dev <? ndev then cudaSuccess else cudaErrorOther;
     can_access_peer := fun _ _ => true;
     enable_peer_status := fun _ _ => cudaSuccess;
     malloc_result := fun calls _ => Some (2 ^ 40 * (1 + Z.of_nat (length calls)));
     memcpy_status := fun _ _ => cudaSuccess;
     mem_get_info_status := fun _ => cudaSuccess;
     synchronize_status := fun _ => cudaSuccess;
     max_distribute_length := fun samples_size _ _ => samples_size;
     kmeans_cuda_setup := fun _ _ _ _ _ _ => kmcudaSuccess;
     kmeans_cuda_plus_plus := fun _ _ i _ _ _ _ _ _ _ _ m => pp i m;
     kmeans_cuda_yy := fun _ _ _ _ _ _ _ _ _ _ _ _ _ _ _ _ _ _ _ m => (kmcudaSuccess, m) |}.

(** A distance kernel that reports distance 1 for each of [n] samples. *)
Definition unit_dists (n : Z) (_ : Z) (m : memory)
  : KMCUDAResult * list cfloat * cfloat * memory :=
  (kmcudaSuccess, repeat fone (Z.to_nat n), FNum (inject_Z n), m).

(** A distance kernel whose sum is NaN. *)
Definition nan_dists (n : Z) (_ : Z) (m : memory)
  : KMCUDAResult * list cfloat * cfloat * memory :=
  (kmcudaSuccess, repeat fone (Z.to_nat n), FNaN, m).

Definition empty_world : world := mkWorld (fun _ => 0) 0 [] [].

(** ** Vocabulary of the statements *)

(** A statement that always falls through and leaves memory and the
    generator alone: it only issues calls and writes log lines. *)
Definition quiet {R A} (c : M R A) : Prop :=
  forall w, exists a w',
    c w = Val a w' /\ w_mem w' = w_mem w /\ w_rng w' = w_rng w.

(** The size conditions of lines 23-31. *)
Definition sizes_rejected (samples_size features_size clusters_size : Z) : Prop :=
  clusters_size < 2 \/ clusters_size = UINT32_MAX \/ features_size = 0 \/
  samples_size < clusters_size.

(** The device-mask condition of lines 32-39. *)
Definition mask_rejected (E : env) (device : Z) : Prop :=
  device < 0 \/ device > shl32 1 (device_count E).

(** The pointer and range conditions of lines 40-48: a null pointer, a
    tolerance below 0 or above 1, a yinyang fraction below 0 or above 0.5. *)
Definition values_rejected (tolerance yinyang_t : cfloat) (samples centroids assignments : Z)
  : Prop :=
  samples = 0 \/ centroids = 0 \/ assignments = 0 \/
  flt tolerance fzero = true \/ fgt tolerance fone = true \/
  flt yinyang_t fzero = true \/ fgt yinyang_t fhalf = true.

(** The half-precision condition of lines 49-54. *)
Definition fp16_rejected (E : env) (fp16x2 : bool) : Prop :=
  CUDA_ARCH E < 60 /\ fp16x2 = true.

(** The device indices a 32-bit mask names, in ascending order, that the
    runtime lets the driver select. *)
Definition selectable (E : env) (mask : Z) : list Z :=
  filter (fun d => Z.testbit mask d && cuda_ok (set_device_status E d)) (upto 32).

(** The mask after line 66: [0] stands for every installed device. *)
Definition expanded_mask (E : env) (device : Z) : Z :=
  if device =? 0 then
    if u32 (device_count E) =? 0 then 0
    else u32 (shl32 1 (u32 (device_count E)) - 1)
  else device.

(** A value of type [uint32_t]. *)
Definition is_u32 (x : Z) : Prop := 0 <= x < 2 ^ 32.

(** The running sum [host_dists[0] + ... + host_dists[j-1]]. *)
Definition prefix_sum (dists : list Q) (j : nat) : Q :=
  fold_left Qplus (firstn j dists) 0%Q.

(** The naive full prefix-sum scan of the specification: the smallest [j]
    whose prefix sum reaches [target], among [0 .. n]; [n] when none does. *)
Definition naive_search (dists : list Q) (target : Q) : Z :=
  match find (fun j => Qle_bool target (prefix_sum dists j)) (seq 0 (S (length dists))) with
  | Some j => Z.of_nat j
  | None => Z.of_nat (length dists)
  end.

(** 200 distances: sample 0 at distance 1000, sample 100 at distance 500,
    every other sample at distance 1.  They sum to 1698. *)
Definition skewed_dists : list Q :=
  (1000 :: repeat 1 99 ++ 500 :: repeat 1 99)%Q.

(** 200 distances: sample 150 at distance 1000, every other sample at
    distance 1.  They sum to 1199. *)
Definition late_heavy_dists : list Q :=
  (repeat 1 150 ++ 1000 :: repeat 1 49)%Q.

(** A statement that always falls through with the value [a] and issues
    exactly the calls [cs]. *)
Definition emits {R A} (c : M R A) (a : A) (cs : list call) : Prop :=
  forall w, exists w', c w = Val a w' /\ w_calls w' = w_calls w ++ cs.

(** The exchanges of [random_shuffle] as a function of the generator state:
    the vector and the state they leave. *)
Fixpoint shuffle_from (gen : Z -> Z * Z) (positions : list Z) (state : Z) (v : list Z)
  : list Z * Z :=
  match positions with
  | [] => (v, state)
  | i :: rest =>
      let '(r, state') := gen state in
      shuffle_from gen rest state' (swap_at v (Z.to_nat i) (Z.to_nat (r mod (i + 1))))
  end.

(** The vector [chosen] of line 171 for a seed and a sample count. *)
Definition shuffled (E : env) (seed samples_size : Z) : list Z :=
  fst (shuffle_from (rand_gen E)
                    (map (fun k => k + 1) (upto (Z.of_nat (length (upto samples_size)) - 1)))
                    seed (upto samples_size)).

(** The calls of lines 173-181 for the picked indices [chosen]: on every
    device, one device-to-device copy per centroid. *)
Definition random_copy_calls (devs : list Z) (samples centroids : udevptrs)
  (features_size : Z) (chosen : list Z) : list call :=
  flat_map
    (fun devi =>
       CudaSetDevice (nth (Z.to_nat devi) devs 0) ::
       map (fun c =>
              CudaMemcpyAsync
                (dp_get (nth (Z.to_nat devi) centroids (mkDevptr 0 false))
                 + u32 (c * features_size))
                (dp_get (nth (Z.to_nat devi) samples (mkDevptr 0 false))
                 + nth (Z.to_nat c) chosen 0 * features_size)
                features_size cudaMemcpyDeviceToDevice)
           (upto (Z.of_nat (length chosen))))
    (upto (Z.of_nat (length devs))).

(** Every copy the runtime is asked for succeeds. *)
Definition copies_succeed (E : env) : Prop :=
  forall calls c, memcpy_status E calls c = cudaSuccess.

(** The process was aborted by a failed assertion. *)
Definition aborted {R A} (o : outcome R A) : bool :=
  match o with
  | Aborted _ => true
  | _ => false
  end.

(** A statement that always falls through and keeps the lines logged so
    far. *)
Definition falls_through {R A} (c : M R A) : Prop :=
  forall w, exists a w',
    c w = Val a w' /\ (forall m, In m (w_log w) -> In m (w_log w')).

(** What the distance kernel answers in iteration [i] from the world [w]:
    its sum, and the index the search of lines 220-245 then leaves. *)
Definition step_dist_sum (E : env) (samples_size features_size : Z)
  (metric : KMCUDADistanceMetric) (devs : list Z) (fp16x2 verbosity : Z)
  (samples dists dev_sums centroids : udevptrs) (i : Z) (w : world) : cfloat :=
  let '(_, _, dist_sum, _) :=
    kmeans_cuda_plus_plus E samples_size features_size i metric devs fp16x2 verbosity
                          samples centroids dists dev_sums (w_mem w) in
  dist_sum.

Definition step_index (E : env) (samples_size features_size : Z)
  (metric : KMCUDADistanceMetric) (devs : list Z) (fp16x2 verbosity : Z)
  (samples dists dev_sums centroids : udevptrs) (i : Z) (w : world) : option Z :=
  let '(_, host_dists, dist_sum, _) :=
    kmeans_cuda_plus_plus E samples_size features_size i metric devs fp16x2 verbosity
                          samples centroids dists dev_sums (w_mem w) in
  weighted_search host_dists samples_size
    (FNum (inject_Z (fst (rand_gen E (w_rng w))) / inject_Z (RAND_MAX E))) dist_sum.

(** The distance kernel succeeds and fills the [samples_size] entries of
    [host_dists], whatever it is called with. *)
Definition kernel_fills (E : env) (samples_size : Z) : Prop :=
  forall features_size i metric devs fp16x2 verbosity samples centroids dists dev_sums m,
    let '(res, host_dists, dist_sum, m') :=
      kmeans_cuda_plus_plus E samples_size features_size i metric devs fp16x2 verbosity
                            samples centroids dists dev_sums m in
    res = kmcudaSuccess /\ length host_dists = Z.to_nat samples_size.

(** [rand()] returns a value from [0] to [RAND_MAX], so that a draw is in
    [[0, 1]]. *)
Definition rand_in_range (E : env) : Prop :=
  0 < RAND_MAX E /\ forall s, 0 <= fst (rand_gen E s) <= RAND_MAX E.

(** In an iteration whose draw is 1 ([rand()] returned [RAND_MAX]) the
    search reads inside [host_dists]. *)
Definition draw_one_search_defined (E : env) (samples_size features_size : Z)
  (metric : KMCUDADistanceMetric) (devs : list Z) (fp16x2 verbosity : Z)
  (samples dists dev_sums centroids : udevptrs) : Prop :=
  forall i w,
    fst (rand_gen E (w_rng w)) = RAND_MAX E ->
    step_index E samples_size features_size metric devs fp16x2 verbosity
               samples dists dev_sums centroids i w <> None.

(** Iteration [i] from the world [w] violates a check of the source: the
    kernel reports a NaN sum (line 216), or the search leaves an index out
    of range (line 246). *)
Definition step_violation (E : env) (samples_size features_size : Z)
  (metric : KMCUDADistanceMetric) (devs : list Z) (fp16x2 verbosity : Z)
  (samples dists dev_sums centroids : udevptrs) (i : Z) (w : world) : Prop :=
  step_dist_sum E samples_size features_size metric devs fp16x2 verbosity
                samples dists dev_sums centroids i w = FNaN \/
  exists j,
    step_index E samples_size features_size metric devs fp16x2 verbosity
               samples dists dev_sums centroids i w = Some j /\
    (j = 0 \/ j > samples_size).

(** A generator that returns [r] at every call. *)
Definition constant_rand (r : Z) (s : Z) : Z * Z := (r, s).

(** The first draw after [srand(seed)] probes a sample whose first word is
    not a NaN. *)
Definition first_probe_is_number (E : env) (seed samples_size features_size : Z)
  (samples : udevptrs) (m : memory) : Prop :=
  word_is_nan
    (m (dp_get (nth 0 samples (mkDevptr 0 false))
        + u32 ((fst (rand_gen E seed) mod samples_size) * features_size))) = false.

(** A world whose host memory holds a centroid array of [65538 * 65535]
    elements, every one the word 7, from address [2^33] on; every other
    word is 0. *)
Definition big_centroids_world : world :=
  mkWorld (fun a => if (2 ^ 33 <=? a) && (a <? 2 ^ 33 + 65538 * 65535) then 7 else 0)
          0 [] [].

(** A statement that always falls through and issues exactly the calls
    [cs], whatever value it yields. *)
Definition issues {R A} (c : M R A) (cs : list call) : Prop :=
  forall w, exists a w', c w = Val a w' /\ w_calls w' = w_calls w ++ cs.

(** Every allocation and every synchronisation succeeds. *)
Definition mallocs_succeed (E : env) : Prop :=
  forall calls size, exists a, malloc_result E calls size = Some a.

Definition syncs_succeed (E : env) : Prop :=
  forall calls, synchronize_status E calls = cudaSuccess.

(** The calls of [CUMALLOC(dest, size)]: one allocation of [size] elements
    on every device. *)
Definition allocs (devs : list Z) (size : Z) : list call :=
  flat_map (fun dev => [CudaSetDevice dev; CudaMalloc size]) devs.

(** Two buffers of [n] elements that do not overlap. *)
Definition apart (p q n : Z) : Prop := p + n <= q \/ q + n <= p.

(** The centroid buffers of [n] elements do not overlap each other, and
    none overlaps the caller's array at [host] unless it is that array. *)
Definition buffers_apart (centroids : udevptrs) (host n : Z) : Prop :=
  (forall i j, (i < length centroids)%nat -> (j < length centroids)%nat -> i <> j ->
               apart (dp_get (nth i centroids (mkDevptr 0 false)))
                     (dp_get (nth j centroids (mkDevptr 0 false))) n) /\
  (forall i, (i < length centroids)%nat ->
             dp_get (nth i centroids (mkDevptr 0 false)) = host \/
             apart (dp_get (nth i centroids (mkDevptr 0 false))) host n).

(** The entry of the designated device is the caller's array itself. *)
Definition designated_entry_is_host (devs : list Z) (device_ptrs : Z)
  (centroids : udevptrs) (host : Z) : Prop :=
  forall i, (i < length devs)%nat -> nth i devs 0 = device_ptrs ->
            dp_get (nth i centroids (mkDevptr 0 false)) = host.

(** The memory after the copies of [n] elements from [host] to the
    buffers [dst x], for the [x] of [l] that are [written]. *)
Definition copy_each (written : Z -> bool) (dst : Z -> Z) (host n : Z)
  (l : list Z) (m : memory) : memory :=
  fold_left (fun m x => if written x then copy_mem m (dst x) host n else m) l m.

(** Every copy, every allocation, every memory query fails. *)
Definition copies_fail (E : env) : Prop :=
  forall calls c, cuda_ok (memcpy_status E calls c) = false.

Definition mallocs_fail (E : env) : Prop :=
  forall calls size, malloc_result E calls size = None.

Definition mem_info_succeeds (E : env) : Prop :=
  forall calls, mem_get_info_status E calls = cudaSuccess.

Definition mem_info_fails (E : env) : Prop :=
  forall calls, cuda_ok (mem_get_info_status E calls) = false.

(** The distance kernel answers the code [r], whatever it is called with. *)
Definition kernel_answers (E : env) (r : KMCUDAResult) : Prop :=
  forall samples_size features_size i metric devs fp16x2 verbosity
         samples centroids dists dev_sums m,
    fst (fst (fst (kmeans_cuda_plus_plus E samples_size features_size i metric devs
                     fp16x2 verbosity samples centroids dists dev_sums m))) = r.

(** [E] with other answers of the runtime. *)
Definition with_memcpy_status (E : env) (f : list call -> call -> cudaError_t) : env :=
  {| CUDA_ARCH := CUDA_ARCH E; NDEBUG := NDEBUG E; RAND_MAX := RAND_MAX E;
     rand_gen := rand_gen E; device_count := device_count E;
     set_device_status := set_device_status E; can_access_peer := can_access_peer E;
     enable_peer_status := enable_peer_status E; malloc_result := malloc_result E;
     memcpy_status := f;
     mem_get_info_status := mem_get_info_status E;
     synchronize_status := synchronize_status E;
     max_distribute_length := max_distribute_length E;
     kmeans_cuda_setup := kmeans_cuda_setup E;
     kmeans_cuda_plus_plus := kmeans_cuda_plus_plus E;
     kmeans_cuda_yy := kmeans_cuda_yy E |}.

Definition with_malloc_result (E : env) (f : list call -> Z -> option Z) : env :=
  {| CUDA_ARCH := CUDA_ARCH E; NDEBUG := NDEBUG E; RAND_MAX := RAND_MAX E;
     rand_gen := rand_gen E; device_count := device_count E;
     set_device_status := set_device_status E; can_access_peer := can_access_peer E;
     enable_peer_status := enable_peer_status E; malloc_result := f;
     memcpy_status := memcpy_status E;
     mem_get_info_status := mem_get_info_status E;
     synchronize_status := synchronize_status E;
     max_distribute_length := max_distribute_length E;
     kmeans_cuda_setup := kmeans_cuda_setup E;
     kmeans_cuda_plus_plus := kmeans_cuda_plus_plus E;
     kmeans_cuda_yy := kmeans_cuda_yy E |}.

Definition with_mem_get_info_status (E : env) (f : list call -> cudaError_t) : env :=
  {| CUDA_ARCH := CUDA_ARCH E; NDEBUG := NDEBUG E; RAND_MAX := RAND_MAX E;
     rand_gen := rand_gen E; device_count := device_count E;
     set_device_status := set_device_status E; can_access_peer := can_access_peer E;
     enable_peer_status := enable_peer_status E; malloc_result := malloc_result E;
     memcpy_status := memcpy_status E;
     mem_get_info_status := f;
     synchronize_status := synchronize_status E;
     max_distribute_length := max_distribute_length E;
     kmeans_cuda_setup := kmeans_cuda_setup E;
     kmeans_cuda_plus_plus := kmeans_cuda_plus_plus E;
     kmeans_cuda_yy := kmeans_cuda_yy E |}.

(** A distance kernel that fails with a runtime error. *)
Definition failing_dists (_ : Z) (m : memory)
  : KMCUDAResult * list cfloat * cfloat * memory :=
  (kmcudaRuntimeError, [], fzero, m).

(** A world whose every word is a NaN. *)
Definition nan_world : world := mkWorld (fun _ => NAN_word) 0 [] [].

(** A statement that always falls through with a value that satisfies
    [P]. *)
Definition yields {R A} (c : M R A) (P : A -> Prop) : Prop :=
  forall w, exists a w', c w = Val a w' /\ P a.

(** The setup and the refinement kernels succeed, whatever they are called
    with. *)
Definition setup_succeeds (E : env) : Prop :=
  forall samples_size features_size clusters_size yy_groups_size devs verbosity,
    kmeans_cuda_setup E samples_size features_size clusters_size yy_groups_size
                      devs verbosity = kmcudaSuccess.

Definition refinement_succeeds (E : env) : Prop :=
  forall tolerance yy_groups_size samples_size clusters_size features_size metric devs
         fp16x2 verbosity samples centroids ccounts assignments_prev assignments
         assignments_yy centroids_yy bounds_yy drifts_yy passed_yy m,
    fst (kmeans_cuda_yy E tolerance yy_groups_size samples_size clusters_size features_size
                        metric devs fp16x2 verbosity samples centroids ccounts
                        assignments_prev assignments assignments_yy centroids_yy
                        bounds_yy drifts_yy passed_yy m) = kmcudaSuccess.

(** The refinement kernel answers the code [r], whatever it is called with. *)
Definition refinement_answers (E : env) (r : KMCUDAResult) : Prop :=
  forall tolerance yy_groups_size samples_size clusters_size features_size metric devs
         fp16x2 verbosity samples centroids ccounts assignments_prev assignments
         assignments_yy centroids_yy bounds_yy drifts_yy passed_yy m,
    fst (kmeans_cuda_yy E tolerance yy_groups_size samples_size clusters_size features_size
                        metric devs fp16x2 verbosity samples centroids ccounts
                        assignments_prev assignments assignments_yy centroids_yy
                        bounds_yy drifts_yy passed_yy m) = r.

(** [E] with a refinement kernel that answers [r] and leaves memory alone. *)
Definition with_refinement_code (E : env) (r : KMCUDAResult) : env :=
  {| CUDA_ARCH := CUDA_ARCH E; NDEBUG := NDEBUG E; RAND_MAX := RAND_MAX E;
     rand_gen := rand_gen E; device_count := device_count E;
     set_device_status := set_device_status E; can_access_peer := can_access_peer E;
     enable_peer_status := enable_peer_status E; malloc_result := malloc_result E;
     memcpy_status := memcpy_status E; mem_get_info_status := mem_get_info_status E;
     synchronize_status := synchronize_status E;
     max_distribute_length := max_distribute_length E;
     kmeans_cuda_setup := kmeans_cuda_setup E;
     kmeans_cuda_plus_plus := kmeans_cuda_plus_plus E;
     kmeans_cuda_yy := fun _ _ _ _ _ _ _ _ _ _ _ _ _ _ _ _ _ _ _ m => (r, m) |}.

(** The indices of the set bits of a 32-bit mask, ascending. *)
Definition mask_bits (mask : Z) : list Z := filter (Z.testbit mask) (upto 32).

(** The capability probes of lines 83-94 for the peer list [devs]. *)
Definition peer_probes (devs : list Z) : list call :=
  flat_map (fun dev1 =>
    flat_map (fun dev2 =>
      if dev1 <=? dev2 then [] else [CudaDeviceCanAccessPeer dev1 dev2]) devs) devs.

(** The switches of lines 95-109 for the peer list [devs]. *)
Definition peer_switches (devs : list Z) : list call :=
  flat_map (fun dev =>
    CudaSetDevice dev ::
    flat_map (fun odev =>
      if dev =? odev then [] else [CudaDeviceEnablePeerAccess odev]) devs) devs.

(** The peer list of [setup_devices]: the selected devices, followed by the
    designated device whenever there is one. *)
Definition peer_list (E : env) (device device_ptrs : Z) : list Z :=
  if device_ptrs >=? 0 then selectable E (expanded_mask E device) ++ [device_ptrs]
  else selectable E (expanded_mask E device).

(** Every runtime call of [setup_devices], in order. *)
Definition setup_calls (E : env) (device device_ptrs : Z) : list call :=
  (if device =? 0 then [CudaGetDeviceCount] else []) ++
  map CudaSetDevice (mask_bits (expanded_mask E device)) ++
  (if 1 <? Z.of_nat (length (peer_list E device device_ptrs))
   then peer_probes (peer_list E device device_ptrs) ++
        peer_switches (peer_list E device device_ptrs)
   else []).

(** * Properties *)

(** ** Argument validation *)

Section CheckArgs.

Variable E : env.
Variables (tolerance yinyang_t : cfloat).
Variables (samples_size features_size clusters_size device : Z).
Variables (fp16x2 : bool) (verbosity samples centroids assignments : Z).
Variable w : world.

(** The checks in the order the source makes them. *)
Lemma check_args_cascade :
  returned (check_args E tolerance yinyang_t samples_size features_size clusters_size
                       device fp16x2 verbosity samples centroids assignments w)
  = Some
      (if (clusters_size <? 2) || (clusters_size =? UINT32_MAX) then kmcudaInvalidArguments
       else if features_size =? 0 then kmcudaInvalidArguments
       else if samples_size <? clusters_size then kmcudaInvalidArguments
       else if device <? 0 then kmcudaNoSuchDevice
       else if device >? shl32 1 (device_count E) then kmcudaNoSuchDevice
       else if (samples =? 0) || (centroids =? 0) || (assignments =? 0)
            then kmcudaInvalidArguments
       else if flt tolerance fzero || fgt tolerance fone then kmcudaInvalidArguments
       else if flt yinyang_t fzero || fgt yinyang_t fhalf then kmcudaInvalidArguments
       else if (CUDA_ARCH E <? 60) && fp16x2 then kmcudaInvalidArguments
       else kmcudaSuccess).
Proof.
  unfold check_args.
  destruct ((clusters_size <? 2) || (clusters_size =? UINT32_MAX)); [reflexivity|].
  destruct (features_size =? 0); [reflexivity|].
  destruct (samples_size <? clusters_size); [reflexivity|].
  destruct (device <? 0); [reflexivity|].
  unfold bind at 1. unfold cudaGetDeviceCount, record_call, bind, ret.
  destruct (device >? shl32 1 (device_count E)); [reflexivity|].
  destruct ((samples =? 0) || (centroids =? 0) || (assignments =? 0)); [reflexivity|].
  destruct (flt tolerance fzero || fgt tolerance fone); [reflexivity|].
  destruct (flt yinyang_t fzero || fgt yinyang_t fhalf); [reflexivity|].
  destruct ((CUDA_ARCH E <? 60) && fp16x2); reflexivity.
Qed.

End CheckArgs.

Ltac bool_to_prop :=
  repeat match goal with
         | H : (_ || _) = true |- _ => apply orb_true_iff in H
         | H : (_ || _) = false |- _ => apply orb_false_iff in H; destruct H
         | H : (_ && _) = true |- _ => apply andb_true_iff in H; destruct H
         | H : (_ && _) = false |- _ => apply andb_false_iff in H
         | H : (_ <? _) = true |- _ => apply Z.ltb_lt in H
         | H : (_ <? _) = false |- _ => apply Z.ltb_ge in H
         | H : (_ >? _) = true |- _ => apply Z.gtb_lt in H
         | H : (_ >? _) = false |- _ => rewrite Z.gtb_ltb in H
         | H : (_ =? _) = true |- _ => apply Z.eqb_eq in H
         | H : (_ =? _) = false |- _ => apply Z.eqb_neq in H
         | H : (_ <=? _) = true |- _ => apply Z.leb_le in H
         | H : (_ <=? _) = false |- _ => apply Z.leb_gt in H
         | H : (_ >=? _) = true |- _ => rewrite Z.geb_leb in H
         | H : (_ >=? _) = false |- _ => rewrite Z.geb_leb in H
         end.

(** C2 (as amended): [check_args] rejects with InvalidArguments when a size
    condition holds; otherwise with NoSuchDevice when the device mask is out
    of range; otherwise with InvalidArguments when a pointer is null, the
    tolerance is below 0 or above 1, the yinyang fraction is below 0 or
    above 0.5, or half precision is asked of an architecture below 60; and
    it returns Success when none of these holds. *)
Theorem check_args_verdicts :
  forall (E : env) (tolerance yinyang_t : cfloat)
         (samples_size features_size clusters_size device : Z)
         (fp16x2 : bool) (verbosity samples centroids assignments : Z) (w : world),
    let verdict :=
      returned (check_args E tolerance yinyang_t samples_size features_size clusters_size
                           device fp16x2 verbosity samples centroids assignments w) in
    (sizes_rejected samples_size features_size clusters_size ->
     verdict = Some kmcudaInvalidArguments) /\
    (~ sizes_rejected samples_size features_size clusters_size ->
     mask_rejected E device ->
     verdict = Some kmcudaNoSuchDevice) /\
    (~ sizes_rejected samples_size features_size clusters_size ->
     ~ mask_rejected E device ->
     values_rejected tolerance yinyang_t samples centroids assignments \/
     fp16_rejected E fp16x2 ->
     verdict = Some kmcudaInvalidArguments) /\
    (~ sizes_rejected samples_size features_size clusters_size ->
     ~ mask_rejected E device ->
     ~ values_rejected tolerance yinyang_t samples centroids assignments ->
     ~ fp16_rejected E fp16x2 ->
     verdict = Some kmcudaSuccess).
Proof.
  intros E tolerance yinyang_t samples_size features_size clusters_size device
         fp16x2 verbosity samples centroids assignments w verdict.
  subst verdict. rewrite check_args_cascade.
  unfold sizes_rejected, mask_rejected, values_rejected, fp16_rejected.
  destruct ((clusters_size <? 2) || (clusters_size =? UINT32_MAX)) eqn:H1;
  destruct (features_size =? 0) eqn:H2;
  destruct (samples_size <? clusters_size) eqn:H3;
  destruct (device <? 0) eqn:H4;
  destruct (device >? shl32 1 (device_count E)) eqn:H5;
  destruct ((samples =? 0) || (centroids =? 0) || (assignments =? 0)) eqn:H6;
  destruct (flt tolerance fzero) eqn:H7;
  destruct (fgt tolerance fone) eqn:H8;
  destruct (flt yinyang_t fzero) eqn:H9;
  destruct (fgt yinyang_t fhalf) eqn:H10;
  destruct ((CUDA_ARCH E <? 60) && fp16x2) eqn:H11;
  cbn [orb andb]; bool_to_prop;
  (repeat split; intros; try reflexivity; exfalso;
   try solve [intuition (try lia; try congruence)]).
Qed.

(** C2, counterexample: with one device installed, the mask [5] and a null
    [samples] pointer, [check_args] answers NoSuchDevice although a pointer
    is null: the mask is checked first. *)
Lemma check_args_null_pointer_after_mask :
  values_rejected fzero fzero 0 1 1 /\
  returned (check_args (sample_env true 1 lcg (unit_dists 2)) fzero fzero 2 1 2 5 false 0
                       0 1 1 empty_world)
  = Some kmcudaNoSuchDevice.
Proof.
  split.
  - left. reflexivity.
  - reflexivity.
Qed.

(** ** The control-flow monad *)

Lemma bind_Val {R A B} (c : M R A) (k : A -> M R B) w a w' :
  c w = Val a w' -> bind c k w = k a w'.
Proof. intros H. unfold bind. rewrite H. reflexivity. Qed.

Lemma bind_Return {R A B} (c : M R A) (k : A -> M R B) w r w' :
  c w = Return r w' -> bind c k w = Return r w'.
Proof. intros H. unfold bind. rewrite H. reflexivity. Qed.

Lemma quiet_ret {R A} (a : A) : quiet (@ret R A a).
Proof. intros w. exists a, w. auto. Qed.

Lemma quiet_bind {R A B} (c : M R A) (k : A -> M R B) :
  quiet c -> (forall a, quiet (k a)) -> quiet (bind c k).
Proof.
  intros Hc Hk w.
  destruct (Hc w) as (a & w1 & H1 & Hm1 & Hr1).
  destruct (Hk a w1) as (b & w2 & H2 & Hm2 & Hr2).
  exists b, w2. rewrite (bind_Val _ _ _ _ _ H1). repeat split; congruence.
Qed.

Lemma quiet_log {R} (m : msg) : quiet (@log_line R m).
Proof. intros w. eexists; eexists; split; [reflexivity|]; auto. Qed.

Lemma quiet_record_call {R} (c : call) : quiet (@record_call R c).
Proof. intros w. eexists; eexists; split; [reflexivity|]; auto. Qed.

Lemma quiet_when {R} (b : bool) (c : M R unit) : quiet c -> quiet (when b c).
Proof. intros H. destruct b; [exact H | apply quiet_ret]. Qed.

Lemma quiet_for_each {R A} (l : list A) (body : A -> M R unit) :
  (forall x, quiet (body x)) -> quiet (for_each l body).
Proof.
  intros H. induction l as [|x l IH]; cbn [for_each].
  - apply quiet_ret.
  - apply quiet_bind; [apply H | intros _; exact IH].
Qed.

Lemma quiet_cudaSetDevice {R} E dev : quiet (@cudaSetDevice E R dev).
Proof.
  unfold cudaSetDevice. apply quiet_bind; [apply quiet_record_call|].
  intros _. apply quiet_ret.
Qed.

Create HintDb quiet.
#[local] Hint Resolve quiet_ret quiet_log quiet_record_call quiet_when
  quiet_for_each quiet_cudaSetDevice : quiet.

Lemma quiet_warn_p2p_impossible {R} E devs : quiet (@warn_p2p_impossible E R devs).
Proof.
  unfold warn_p2p_impossible.
  apply quiet_for_each; intros dev1. apply quiet_for_each; intros dev2.
  destruct (dev1 <=? dev2); [apply quiet_ret|].
  apply quiet_bind.
  - unfold cudaDeviceCanAccessPeer. apply quiet_bind; [apply quiet_record_call|].
    intros _. apply quiet_ret.
  - intros a. apply quiet_when. apply quiet_log.
Qed.

Lemma quiet_enable_p2p {R} E devs : quiet (@enable_p2p E R devs).
Proof.
  unfold enable_p2p.
  apply quiet_for_each; intros dev.
  apply quiet_bind; [apply quiet_cudaSetDevice|]. intros _.
  apply quiet_for_each; intros odev.
  destruct (dev =? odev); [apply quiet_ret|].
  apply quiet_bind.
  - unfold cudaDeviceEnablePeerAccess. apply quiet_bind; [apply quiet_record_call|].
    intros _. apply quiet_ret.
  - intros [ | | ]; unfold INFO; auto with quiet.
Qed.

(** ** Device selection *)

(** The positions [dev], [dev + 1], ... the loop of lines 67-76 visits. *)
Lemma upto_succ (n : nat) :
  upto (Z.of_nat (S n)) = 0 :: map (fun k => k + 1) (upto (Z.of_nat n)).
Proof.
  unfold upto. rewrite !Nat2Z.id. cbn [seq map]. f_equal.
  rewrite <- seq_shift, !map_map. apply map_ext. intros k. lia.
Qed.

Lemma bit0_land (device : Z) :
  negb (Z.land device 1 =? 0) = Z.testbit device 0.
Proof.
  change 1 with (Z.ones 1). rewrite Z.land_ones by lia.
  change (2 ^ 1) with 2. rewrite Zmod_odd, Z.bit0_odd.
  destruct (Z.odd device); reflexivity.
Qed.

Lemma scan_mask_spec E R (fuel : nat) :
  forall (dev device : Z) (devs : list Z) (w : world),
    0 <= device < 2 ^ Z.of_nat fuel ->
    exists w',
      @scan_mask E R fuel dev device devs w
      = Val (devs ++ filter (fun d => Z.testbit device (d - dev)
                                      && cuda_ok (set_device_status E d))
                            (map (fun k => dev + k) (upto (Z.of_nat fuel))), 0) w'
      /\ w_mem w' = w_mem w /\ w_rng w' = w_rng w.
Proof.
  induction fuel as [|fuel IH]; intros dev device devs w Hd.
  - change (2 ^ Z.of_nat 0) with 1 in Hd. assert (device = 0) by lia. subst.
    exists w. cbn. rewrite app_nil_r. auto.
  - destruct (device =? 0) eqn:H0.
    + apply Z.eqb_eq in H0. subst device. exists w.
      cbn [scan_mask]. cbn [Z.eqb]. unfold ret. split; [|auto].
      f_equal. f_equal. rewrite <- (app_nil_r devs) at 1. f_equal.
      symmetry.
      induction (map (fun k => dev + k) (upto (Z.of_nat (S fuel)))) as [|x l IHl];
        [reflexivity|]. cbn [filter]. rewrite Z.testbit_0_l. cbn. exact IHl.
    + cbn [scan_mask]. rewrite H0.
      rewrite upto_succ. cbn [map filter]. rewrite map_map.
      replace (dev + 0 - dev) with 0 by lia. replace (dev + 0) with dev by lia.
      rewrite bit0_land.
      assert (Hs : 0 <= Z.shiftr device 1 < 2 ^ Z.of_nat fuel).
      { rewrite Z.shiftr_div_pow2 by lia. change (2 ^ 1) with 2.
        rewrite Nat2Z.inj_succ, Z.pow_succ_r in Hd by lia.
        split; [apply Z.div_pos; lia | apply Z.div_lt_upper_bound; lia]. }
      assert (Hf : forall l,
        filter (fun d => Z.testbit device (d - dev) && cuda_ok (set_device_status E d))
               (map (fun x => dev + (x + 1)) l)
        = filter (fun d => Z.testbit (Z.shiftr device 1) (d - (dev + 1))
                           && cuda_ok (set_device_status E d))
                 (map (fun k => dev + 1 + k) l)
        \/ exists x, In x l /\ x < 0).
      { induction l as [|x l IHl]; [left; reflexivity|].
        destruct (Z_lt_dec x 0) as [Hx|Hx]; [right; exists x; split; [left; reflexivity|lia]|].
        destruct IHl as [IHl|(y & Hy & Hy')]; [|right; exists y; split; [right; exact Hy|lia]].
        left. cbn [map filter]. rewrite Z.shiftr_spec by lia.
        replace (dev + 1 + x - (dev + 1) + 1) with (dev + (x + 1) - dev) by lia.
        replace (dev + 1 + x) with (dev + (x + 1)) by lia.
        rewrite IHl. reflexivity. }
      destruct (Hf (upto (Z.of_nat fuel))) as [Hf'|(x & Hx & Hx')].
      2:{ unfold upto in Hx. apply in_map_iff in Hx. destruct Hx as (k & <- & _). lia. }
      rewrite Hf'. clear Hf Hf'.
      destruct (Z.testbit device 0) eqn:Hb; cbn [negb andb].
      * destruct (quiet_cudaSetDevice (R:=R) E dev w) as (st & w1 & H1 & Hm1 & Hr1).
        assert (Hst : st = set_device_status E dev).
        { unfold cudaSetDevice, bind, record_call, ret in H1. congruence. }
        subst st.
        destruct (cuda_ok (set_device_status E dev)) eqn:Hok.
        -- destruct (IH (dev + 1) (Z.shiftr device 1) (devs ++ [dev]) w1 Hs)
             as (w2 & H2 & Hm2 & Hr2).
           exists w2. split; [|split; congruence].
           unfold bind at 1. unfold bind at 1. rewrite H1. rewrite Hok. cbn [negb].
           unfold ret at 1. rewrite H2. rewrite <- app_assoc. reflexivity.
        -- destruct (IH (dev + 1) (Z.shiftr device 1) devs
                        (mkWorld (w_mem w1) (w_rng w1) (w_calls w1)
                                 (w_log w1 ++ [InfoFailedToValidate dev])) Hs)
             as (w2 & H2 & Hm2 & Hr2).
           exists w2. split; [|split; cbn in *; congruence].
           unfold bind at 1. unfold bind at 1. rewrite H1. rewrite Hok. cbn [negb].
           unfold bind at 1. unfold INFO, log_line. unfold ret at 1.
           rewrite removelast_last. exact H2.
      * destruct (IH (dev + 1) (Z.shiftr device 1) devs w Hs) as (w2 & H2 & Hm2 & Hr2).
        exists w2. split; [|auto].
        unfold bind at 1. unfold ret at 1. exact H2.
Qed.

Lemma selectable_zero E : selectable E 0 = [].
Proof.
  unfold selectable. induction (upto 32) as [|x l IH]; [reflexivity|].
  cbn [filter]. rewrite Z.testbit_0_l. exact IH.
Qed.

Lemma expanded_mask_u32 E device : is_u32 device -> is_u32 (expanded_mask E device).
Proof.
  unfold is_u32, expanded_mask. intros H.
  destruct (device =? 0); [|exact H].
  destruct (u32 (device_count E) =? 0); [lia|].
  unfold u32. apply Z.mod_pos_bound. lia.
Qed.

(** What [setup_devices] returns: the devices of the expanded mask that can
    be selected; it only issues calls and logs. *)
Lemma setup_devices_spec E device device_ptrs verbosity w :
  is_u32 device ->
  exists w',
    setup_devices E device device_ptrs verbosity w
    = Return (selectable E (expanded_mask E device)) w'
    /\ w_mem w' = w_mem w /\ w_rng w' = w_rng w.
Proof.
  intros Hu. pose proof (expanded_mask_u32 E device Hu) as Hm.
  unfold setup_devices, expanded_mask in *.
  assert (Hsel : forall mask,
    filter (fun d => Z.testbit mask (d - 0) && cuda_ok (set_device_status E d))
           (map (fun k => 0 + k) (upto (Z.of_nat 32)))
    = selectable E mask).
  { intros mask. unfold selectable. change (Z.of_nat 32) with 32.
    rewrite (map_ext (fun k => 0 + k) (fun k => k)) by (intros; lia).
    rewrite map_id. apply filter_ext. intros d. replace (d - 0) with d by lia. reflexivity. }
  assert (Hq : forall devs', quiet (R:=list Z)
                 (when (1 <? Z.of_nat (length devs'))
                       (warn_p2p_impossible E devs' ;; enable_p2p E devs'))).
  { intros devs'. apply quiet_when. apply quiet_bind; [apply quiet_warn_p2p_impossible|].
    intros _. apply quiet_enable_p2p. }
  destruct (device =? 0) eqn:H0.
  - unfold bind at 1. unfold bind at 1.
    unfold cudaGetDeviceCount. unfold bind at 1. unfold record_call, ret.
    destruct (u32 (device_count E) =? 0) eqn:Hn.
    + unfold return_. eexists.
      split; [rewrite selectable_zero; reflexivity | split; reflexivity].
    + unfold bind at 1.
      match goal with |- context [scan_mask _ _ _ ?mask _ ?w0] =>
        destruct (scan_mask_spec E (list Z) 32 0 mask [] w0 Hm) as (w1 & H1 & Hm1 & Hr1)
      end.
      rewrite H1. rewrite Hsel. cbn [app].
      rewrite Z.land_0_l. cbn [Z.eqb]. rewrite andb_true_r.
      match goal with |- context [when ?b ?c] =>
        match type of (Hq (if device_ptrs >=? 0
                           then selectable E (u32 (shl32 1 (u32 (device_count E)) - 1))
                                ++ [device_ptrs]
                           else selectable E (u32 (shl32 1 (u32 (device_count E)) - 1)))) with
        | quiet ?q => destruct (Hq (if device_ptrs >=? 0
                           then selectable E (u32 (shl32 1 (u32 (device_count E)) - 1))
                                ++ [device_ptrs]
                           else selectable E (u32 (shl32 1 (u32 (device_count E)) - 1))) w1)
            as ([] & w2 & H2 & Hm2 & Hr2)
        end
      end.
      unfold bind at 1. rewrite H2. unfold return_.
      exists w2. split; [|split; cbn in *; congruence].
      f_equal. destruct (device_ptrs >=? 0); [|reflexivity].
      apply removelast_last.
  - unfold bind at 1. unfold ret at 1.
    destruct (scan_mask_spec E (list Z) 32 0 device [] w Hu) as (w1 & H1 & Hm1 & Hr1).
    unfold bind at 1. rewrite H1. rewrite Hsel. cbn [app].
    rewrite Z.land_0_l. cbn [Z.eqb]. rewrite andb_true_r.
    destruct (Hq (if device_ptrs >=? 0
                  then selectable E device ++ [device_ptrs]
                  else selectable E device) w1) as ([] & w2 & H2 & Hm2 & Hr2).
    unfold bind at 1. rewrite H2. unfold return_.
    exists w2. split; [|split; congruence].
    f_equal. destruct (device_ptrs >=? 0); [|reflexivity].
    apply removelast_last.
Qed.

Lemma StronglySorted_filter {A} (R : A -> A -> Prop) (f : A -> bool) (l : list A) :
  StronglySorted R l -> StronglySorted R (filter f l).
Proof.
  induction 1 as [|x l Hs IH Hall]; cbn [filter]; [constructor|].
  destruct (f x); [|exact IH].
  constructor; [exact IH|].
  rewrite Forall_forall in *. intros y Hy. apply filter_In in Hy. apply Hall, Hy.
Qed.

Lemma upto_sorted (n : Z) : StronglySorted Z.lt (upto n).
Proof.
  unfold upto. generalize (Z.to_nat n) as k. intros k.
  generalize 0%nat as s. induction k as [|k IH]; intros s; cbn [seq map].
  - constructor.
  - constructor; [apply IH|].
    rewrite Forall_forall. intros y Hy. apply in_map_iff in Hy.
    destruct Hy as (z & <- & Hz). apply in_seq in Hz. lia.
Qed.

Lemma in_upto (n x : Z) : In x (upto n) <-> 0 <= x < n.
Proof.
  unfold upto. rewrite in_map_iff. split.
  - intros (k & <- & Hk). apply in_seq in Hk. lia.
  - intros H. exists (Z.to_nat x). split; [lia|]. apply in_seq. lia.
Qed.

Lemma cuda_ok_iff st : cuda_ok st = true <-> st = cudaSuccess.
Proof. destruct st; cbn; split; congruence. Qed.

Lemma in_selectable E mask d :
  In d (selectable E mask) <->
  0 <= d < 32 /\ Z.testbit mask d = true /\ set_device_status E d = cudaSuccess.
Proof.
  unfold selectable. rewrite filter_In, in_upto, andb_true_iff, cuda_ok_iff. tauto.
Qed.

(** C4: for every 32-bit mask and every designated device id,
    [setup_devices] returns (it does not fail) the list of [selectable]
    devices of the expanded mask: the indices whose bit is set and whose
    selection succeeded, no others, in ascending order; the designated
    device is in the list only if its bit is set in the mask. *)
Theorem setup_devices_selects :
  forall (E : env) (device device_ptrs verbosity : Z) (w : world),
    is_u32 device ->
    (exists w',
        setup_devices E device device_ptrs verbosity w
        = Return (selectable E (expanded_mask E device)) w') /\
    Sorted Z.lt (selectable E (expanded_mask E device)) /\
    (forall d,
        In d (selectable E (expanded_mask E device)) <->
        0 <= d < 32 /\ Z.testbit (expanded_mask E device) d = true /\
        set_device_status E d = cudaSuccess) /\
    (In device_ptrs (selectable E (expanded_mask E device)) ->
     Z.testbit (expanded_mask E device) device_ptrs = true).
Proof.
  intros E device device_ptrs verbosity w Hu.
  split; [|split; [|split]].
  - destruct (setup_devices_spec E device device_ptrs verbosity w Hu) as (w' & H & _).
    exists w'. exact H.
  - apply StronglySorted_Sorted. unfold selectable.
    apply StronglySorted_filter, upto_sorted.
  - intros d. apply in_selectable.
  - intros H. apply in_selectable in H. tauto.
Qed.

(** C4, witness: two devices installed, mask [0b101] (device 2 cannot be
    selected), designated device 1. *)
Lemma setup_devices_selects_witness :
  (exists w',
      setup_devices (sample_env true 2 lcg (unit_dists 2)) 5 1 0 empty_world
      = Return (selectable (sample_env true 2 lcg (unit_dists 2))
                           (expanded_mask (sample_env true 2 lcg (unit_dists 2)) 5)) w') /\
  Sorted Z.lt (selectable (sample_env true 2 lcg (unit_dists 2))
                          (expanded_mask (sample_env true 2 lcg (unit_dists 2)) 5)) /\
  (forall d,
      In d (selectable (sample_env true 2 lcg (unit_dists 2))
                       (expanded_mask (sample_env true 2 lcg (unit_dists 2)) 5)) <->
      0 <= d < 32 /\
      Z.testbit (expanded_mask (sample_env true 2 lcg (unit_dists 2)) 5) d = true /\
      set_device_status (sample_env true 2 lcg (unit_dists 2)) d = cudaSuccess) /\
  (In 1 (selectable (sample_env true 2 lcg (unit_dists 2))
                    (expanded_mask (sample_env true 2 lcg (unit_dists 2)) 5)) ->
   Z.testbit (expanded_mask (sample_env true 2 lcg (unit_dists 2)) 5) 1 = true).
Proof.
  apply (setup_devices_selects (sample_env true 2 lcg (unit_dists 2)) 5 1 0 empty_world).
  unfold is_u32. lia.
Defined.

Example setup_devices_drops_unselectable :
  returned (setup_devices (sample_env true 2 lcg (unit_dists 2)) 5 1 0 empty_world)
  = Some [0].
Proof. reflexivity. Qed.

(** ** Binary32 rounding *)

Lemma round_half_even_le (q : Q) (N : Z) :
  (q <= inject_Z N)%Q -> round_half_even q <= N.
Proof.
  intros Hq. unfold round_half_even.
  assert (Hf : Qfloor q <= N).
  { rewrite <- (Qfloor_Z N). apply Qfloor_resp_le. exact Hq. }
  assert (Hstrict : (1 # 2 <= q - inject_Z (Qfloor q))%Q -> Qfloor q + 1 <= N).
  { intros Hhalf. destruct (Z_lt_dec (Qfloor q) N) as [Hlt|Hge]; [lia|].
    assert (Qfloor q = N) as Heq by lia. rewrite Heq in Hhalf.
    assert (Hle : (q - inject_Z N <= 0)%Q).
    { apply (Qplus_le_l _ _ (inject_Z N)). ring_simplify. exact Hq. }
    exfalso. apply (Qle_not_lt _ _ (Qle_trans _ _ _ Hhalf Hle)). reflexivity. }
  destruct (q - inject_Z (Qfloor q) ?= 1 # 2)%Q eqn:C.
  - apply Qeq_alt in C.
    assert (Hh : (1 # 2 <= q - inject_Z (Qfloor q))%Q) by (rewrite C; apply Qle_refl).
    destruct (Z.even (Qfloor q)); [exact Hf | exact (Hstrict Hh)].
  - exact Hf.
  - apply Qgt_alt in C. apply Hstrict. apply Qlt_le_weak. exact C.
Qed.

Lemma round_half_even_nonneg (q : Q) : (0 <= q)%Q -> 0 <= round_half_even q.
Proof.
  intros Hq. unfold round_half_even.
  assert (Hf : 0 <= Qfloor q).
  { change 0 with (Qfloor 0). apply Qfloor_resp_le. exact Hq. }
  destruct (q - inject_Z (Qfloor q) ?= 1 # 2)%Q; [destruct (Z.even (Qfloor q))| |]; lia.
Qed.

Lemma inject_Z_pos (z : Z) : 0 < z -> (0 < inject_Z z)%Q.
Proof. intros H. unfold Qlt. cbn. lia. Qed.

Lemma pow2_pos (e : Z) : (0 < pow2 e)%Q.
Proof.
  unfold pow2. destruct (0 <=? e) eqn:He.
  - apply inject_Z_pos. apply Z.pow_pos_nonneg; lia.
  - apply Qinv_lt_0_compat. apply inject_Z_pos. apply Z.pow_pos_nonneg; lia.
Qed.

Lemma pow2_split (x j : Z) :
  0 <= j -> x <= j -> (pow2 x * inject_Z (2 ^ (j - x)) == inject_Z (2 ^ j))%Q.
Proof.
  intros Hj Hx. unfold pow2. destruct (0 <=? x) eqn:H0.
  - rewrite <- inject_Z_mult. rewrite <- Z.pow_add_r by lia.
    replace (x + (j - x)) with j by lia. reflexivity.
  - replace (j - x) with (j + - x) by lia. rewrite Z.pow_add_r by lia.
    rewrite inject_Z_mult.
    assert (Hne : ~ (inject_Z (2 ^ (- x)) == 0)%Q).
    { intros H. assert (Hp : (0 < inject_Z (2 ^ (- x)))%Q)
        by (apply inject_Z_pos; apply Z.pow_pos_nonneg; lia).
      rewrite H in Hp. apply (Qlt_irrefl 0). exact Hp. }
    field. exact Hne.
Qed.

(** The exponent of a value below [2 ^ k] is below [k]. *)
Lemma binade_lt (q : Q) (k : Z) :
  0 <= k -> (q < inject_Z (2 ^ k))%Q -> binade q < k \/ binade q <= 0.
Proof.
  intros Hk Hq. destruct q as [a b]. unfold binade. cbn [Qnum Qden].
  destruct (Z.pos b <=? a) eqn:Hab.
  - left. unfold Qlt in Hq. cbn in Hq.
    assert (Hdiv : a / Z.pos b < 2 ^ k) by (apply Z.div_lt_upper_bound; lia).
    assert (Hpos : 0 < a / Z.pos b) by (apply Z.div_str_pos; lia).
    apply Z.log2_lt_pow2; assumption.
  - right. pose proof (Z.log2_up_nonneg ((Z.pos b + a - 1) / a)). lia.
Qed.

Lemma Qmagnitude_nonneg (q : Q) : (0 <= q)%Q -> Qmagnitude q = q.
Proof.
  intros H. unfold Qmagnitude. apply Qle_bool_iff in H. rewrite H. reflexivity.
Qed.

Lemma round_f32_nonneg (q : Q) : (0 <= q)%Q -> (0 <= round_f32 q)%Q.
Proof.
  intros Hq. unfold round_f32. destruct (Qeq_bool q 0); [apply Qle_refl|].
  set (ulp := pow2 _). pose proof (pow2_pos (Z.max (binade (Qmagnitude q)) (-126) - 23)) as Hu.
  fold ulp in Hu.
  apply Qmult_le_0_compat; [|apply Qlt_le_weak; exact Hu].
  change 0%Q with (inject_Z 0). rewrite <- Zle_Qle.
  apply round_half_even_nonneg.
  apply Qle_shift_div_l; [exact Hu|]. rewrite Qmult_0_l. exact Hq.
Qed.

(** Rounding does not cross a binary32 value: [m * 2 ^ j] is one when it is
    below [2 ^ (j + 24)]. *)
Lemma round_f32_le (q : Q) (m j : Z) :
  0 <= j -> (0 <= q)%Q ->
  (q <= inject_Z (m * 2 ^ j))%Q -> (q < inject_Z (2 ^ (j + 24)))%Q ->
  (round_f32 q <= inject_Z (m * 2 ^ j))%Q.
Proof.
  intros Hj H0 Hle Hlt. unfold round_f32.
  destruct (Qeq_bool q 0); [exact (Qle_trans _ _ _ H0 Hle)|].
  rewrite (Qmagnitude_nonneg q H0).
  set (x := Z.max (binade q) (-126) - 23).
  assert (Hx : x <= j).
  { destruct (binade_lt q (j + 24) ltac:(lia) Hlt); unfold x; lia. }
  pose proof (pow2_pos x) as Hu.
  assert (HB : (inject_Z (m * 2 ^ j) == inject_Z (m * 2 ^ (j - x)) * pow2 x)%Q).
  { rewrite !inject_Z_mult. rewrite <- (pow2_split x j Hj Hx). ring. }
  rewrite HB.
  apply Qmult_le_compat_r; [|apply Qlt_le_weak; exact Hu].
  rewrite <- Zle_Qle. apply round_half_even_le.
  apply Qle_shift_div_r; [exact Hu|]. rewrite <- HB. exact Hle.
Qed.

(** The conversion of a value in [[0, B]] to [uint32_t] is defined when [B]
    is one. *)
Lemma cfloat_to_u32_defined (r : Q) (B : Z) :
  (0 <= r)%Q -> (r <= inject_Z B)%Q -> B <= UINT32_MAX ->
  exists g, cfloat_to_u32 (FNum r) = Some g /\ 0 <= g <= B.
Proof.
  intros H0 HB Hmax. unfold cfloat_to_u32. destruct r as [a b]. cbn [Qnum Qden].
  assert (Hn : 0 <= a) by (unfold Qle in H0; cbn in H0; lia).
  rewrite Z.quot_div_nonneg by lia.
  change (a / Z.pos b) with (Qfloor (a # b)).
  assert (Hlo : 0 <= Qfloor (a # b)) by (change 0 with (Qfloor 0); apply Qfloor_resp_le; exact H0).
  assert (Hhi : Qfloor (a # b) <= B) by (rewrite <- (Qfloor_Z B); apply Qfloor_resp_le; exact HB).
  exists (Qfloor (a # b)).
  replace (0 <=? Qfloor (a # b)) with true by lia.
  replace (Qfloor (a # b) <=? UINT32_MAX) with true by lia.
  split; [reflexivity|lia].
Qed.

(** [uint32_t(f * n)] is defined for a fraction [f] in [[0, 1]] and an
    integer [n] up to a binary32 value [B = m * 2 ^ j] that fits; its value
    is at most [B]. *)
Lemma scaled_to_u32_defined (f : Q) (n m j : Z) :
  (0 <= f)%Q -> (f <= 1)%Q ->
  0 <= j -> 0 <= n <= m * 2 ^ j -> m * 2 ^ j < 2 ^ (j + 24) -> m * 2 ^ j <= UINT32_MAX ->
  exists g, scaled_to_u32 (FNum f) n = Some g /\ 0 <= g <= m * 2 ^ j.
Proof.
  intros Hf0 Hf1 Hj Hn Hrep Hmax. unfold scaled_to_u32, float_of_u32, fmul32.
  set (B := m * 2 ^ j) in *.
  assert (Hn0 : (0 <= inject_Z n)%Q) by (change 0%Q with (inject_Z 0); rewrite <- Zle_Qle; lia).
  assert (HnB : (inject_Z n <= inject_Z B)%Q) by (rewrite <- Zle_Qle; lia).
  assert (HBlt : (inject_Z B < inject_Z (2 ^ (j + 24)))%Q) by (rewrite <- Zlt_Qlt; lia).
  pose proof (round_f32_nonneg _ Hn0) as Hr0.
  pose proof (round_f32_le (inject_Z n) m j Hj Hn0 HnB
                (Qle_lt_trans _ _ _ HnB HBlt)) as Hr1.
  fold B in Hr1.
  set (r := round_f32 (inject_Z n)) in *.
  assert (Hp0 : (0 <= f * r)%Q) by (apply Qmult_le_0_compat; assumption).
  assert (Hp1 : (f * r <= inject_Z B)%Q).
  { apply Qle_trans with (1 * r)%Q; [|rewrite Qmult_1_l; exact Hr1].
    apply Qmult_le_compat_r; assumption. }
  apply cfloat_to_u32_defined; [apply round_f32_nonneg; exact Hp0| |exact Hmax].
  apply round_f32_le; [exact Hj|exact Hp0|exact Hp1|].
  exact (Qle_lt_trans _ _ _ Hp1 HBlt).
Qed.

(** The reassignment threshold of line 272 is defined for a tolerance in
    [[0, 1]] and up to [2^32 - 256] samples, the largest binary32 value
    below [2^32]. *)
Lemma threshold_defined_below (t : Q) (samples_size : Z) :
  (0 <= t)%Q -> (t <= 1)%Q -> 0 <= samples_size <= 2 ^ 32 - 256 ->
  scaled_to_u32 (FNum t) samples_size <> None.
Proof.
  intros H0 H1 Hs.
  assert (HB : (2 ^ 24 - 1) * 2 ^ 8 = 2 ^ 32 - 256) by reflexivity.
  assert (HP : 2 ^ (8 + 24) = 2 ^ 32) by reflexivity.
  destruct (scaled_to_u32_defined t samples_size (2 ^ 24 - 1) 8 H0 H1)
    as (g & Hg & _).
  - lia.
  - rewrite HB. lia.
  - rewrite HB, HP. lia.
  - rewrite HB. unfold UINT32_MAX. lia.
  - rewrite Hg. discriminate.
Qed.

(** With a tolerance of 1 the limit is [2^32 - 129] samples: from
    [2^32 - 128] on, [samples_size] rounds to [2^32], which no [uint32_t]
    holds. *)
Example threshold_limit :
  scaled_to_u32 fone (2 ^ 32 - 129) = Some (2 ^ 32 - 256) /\
  scaled_to_u32 fone (2 ^ 32 - 128) = None /\
  scaled_to_u32 fone (2 ^ 32 - 1) = None.
Proof. repeat split; vm_compute; reflexivity. Qed.

(** The group count of line 273 is defined for a fraction in [[0, 0.5]]. *)
Lemma yy_groups_defined (q : Q) (cs : Z) :
  flt (FNum q) fzero = false -> fgt (FNum q) fhalf = false ->
  is_u32 cs ->
  exists g, scaled_to_u32 (FNum q) cs = Some g /\ 0 <= g <= 2 ^ 31.
Proof.
  unfold flt, fgt, flt, fzero, fhalf, Qltb, is_u32. intros H0 H1 Hcs.
  apply negb_false_iff in H0, H1. apply Qle_bool_iff in H0, H1.
  assert (HP : 2 ^ 23 * 2 ^ 9 = 2 ^ 32) by reflexivity.
  assert (HQ : 2 ^ 23 * 2 ^ 8 = 2 ^ 31) by reflexivity.
  unfold scaled_to_u32, float_of_u32, fmul32.
  assert (Hn0 : (0 <= inject_Z cs)%Q) by (change 0%Q with (inject_Z 0); rewrite <- Zle_Qle; lia).
  pose proof (round_f32_nonneg _ Hn0) as Hr0.
  assert (Hr1 : (round_f32 (inject_Z cs) <= inject_Z (2 ^ 23 * 2 ^ 9))%Q).
  { apply round_f32_le; [lia|exact Hn0| |]; [rewrite <- Zle_Qle|rewrite <- Zlt_Qlt].
    - rewrite HP. lia.
    - change (2 ^ (9 + 24)) with (2 * 2 ^ 32). lia. }
  set (r := round_f32 (inject_Z cs)) in *.
  assert (Hp0 : (0 <= q * r)%Q) by (apply Qmult_le_0_compat; assumption).
  assert (Hp1 : (q * r <= inject_Z (2 ^ 23 * 2 ^ 8))%Q).
  { apply Qle_trans with ((1 # 2) * inject_Z (2 ^ 23 * 2 ^ 9))%Q.
    - apply Qmult_le_compat_nonneg; split; assumption.
    - rewrite HP, HQ. unfold Qle. cbn. lia. }
  replace (2 ^ 31) with (2 ^ 23 * 2 ^ 8) by reflexivity.
  apply cfloat_to_u32_defined; [apply round_f32_nonneg; exact Hp0| |].
  - apply round_f32_le; [lia|exact Hp0|exact Hp1|].
    apply (Qle_lt_trans _ _ _ Hp1). rewrite <- Zlt_Qlt. rewrite HQ.
    change (2 ^ (8 + 24)) with (2 * 2 ^ 31). lia.
  - rewrite HQ. unfold UINT32_MAX. change (2 ^ 32) with (2 * 2 ^ 31). lia.
Qed.

Lemma filter_none {A} (f : A -> bool) (l : list A) :
  (forall x, In x l -> f x = false) -> filter f l = [].
Proof.
  induction l as [|x l IH]; intros H; [reflexivity|].
  cbn [filter]. rewrite (H x) by (left; reflexivity).
  apply IH. intros y Hy. apply H. right. exact Hy.
Qed.

Lemma filter_all {A} (f : A -> bool) (l : list A) :
  (forall x, In x l -> f x = true) -> filter f l = l.
Proof.
  induction l as [|x l IH]; intros H; [reflexivity|].
  cbn [filter]. rewrite (H x) by (left; reflexivity).
  f_equal. apply IH. intros y Hy. apply H. right. exact Hy.
Qed.

Lemma seq_from (b a : nat) : seq a b = map (Nat.add a) (seq 0 b).
Proof.
  revert a. induction b as [|b IH]; intros a; [reflexivity|].
  cbn [seq map]. rewrite Nat.add_0_r. f_equal.
  rewrite (IH (S a)), (IH 1%nat), map_map. apply map_ext. intros k. lia.
Qed.

Lemma upto_app (n m : Z) :
  0 <= n -> 0 <= m -> upto (n + m) = upto n ++ map (fun k => n + k) (upto m).
Proof.
  intros Hn Hm. unfold upto.
  rewrite Z2Nat.inj_add by lia. rewrite seq_app, map_app. f_equal.
  cbn [Nat.add]. rewrite (seq_from (Z.to_nat m) (Z.to_nat n)).
  rewrite !map_map. apply map_ext. intros k. lia.
Qed.

Lemma filter_below_upto (f : Z -> bool) (n m : Z) :
  0 <= n <= m ->
  (forall d, 0 <= d < n -> f d = true) ->
  (forall d, n <= d < m -> f d = false) ->
  filter f (upto m) = upto n.
Proof.
  intros Hnm Hlo Hhi.
  replace m with (n + (m - n)) by lia.
  rewrite upto_app by lia. rewrite filter_app.
  rewrite filter_all, filter_none.
  - apply app_nil_r.
  - intros x Hx. apply in_map_iff in Hx. destruct Hx as (k & <- & Hk).
    apply in_upto in Hk. apply Hhi. lia.
  - intros x Hx. apply in_upto in Hx. apply Hlo. lia.
Qed.

(** With [n] devices installed, [1 <= n <= 31], the mask [0] expands to the
    [n] low bits. *)
Lemma expanded_mask_zero E :
  1 <= device_count E <= 31 ->
  expanded_mask E 0 = Z.ones (device_count E).
Proof.
  intros Hn. unfold expanded_mask, shl32, u32.
  cbn [Z.eqb].
  assert (Hpow : 0 < 2 ^ device_count E < 2 ^ 32).
  { split; [apply Z.pow_pos_nonneg; lia | apply Z.pow_lt_mono_r; lia]. }
  rewrite (Z.mod_small (device_count E) (2 ^ 32)) by lia.
  destruct (device_count E =? 0) eqn:H0; [lia|].
  rewrite (Z.mod_small (device_count E) 32) by lia.
  rewrite Z.shiftl_1_l.
  rewrite (Z.mod_small (2 ^ device_count E)) by lia.
  rewrite Z.mod_small by lia.
  rewrite Z.ones_equiv. lia.
Qed.

Lemma selectable_all E :
  1 <= device_count E <= 31 ->
  (forall d, 0 <= d < device_count E -> set_device_status E d = cudaSuccess) ->
  selectable E (expanded_mask E 0) = upto (device_count E).
Proof.
  intros Hn Hok. rewrite expanded_mask_zero by exact Hn.
  unfold selectable. apply filter_below_upto; [lia| |].
  - intros d Hd. rewrite Z.testbit_ones_nonneg by lia.
    rewrite (Hok d Hd). cbn. apply andb_true_intro. split; [lia|reflexivity].
  - intros d Hd. rewrite Z.testbit_ones_nonneg by lia.
    replace (d <? device_count E) with false by lia. reflexivity.
Qed.

(** The verdict of [check_args] does not depend on the world. *)
Lemma check_args_outcome E tol yy ss fs cs device fp16 verb s c a w :
  exists r w',
    check_args E tol yy ss fs cs device fp16 verb s c a w = Return r w' /\
    (forall w0, returned (check_args E tol yy ss fs cs device fp16 verb s c a w0) = Some r) /\
    w_mem w' = w_mem w /\ w_rng w' = w_rng w.
Proof.
  pose proof (check_args_cascade E tol yy ss fs cs device fp16 verb s c a) as Hc.
  unfold check_args in *.
  destruct ((cs <? 2) || (cs =? UINT32_MAX)); [eexists; eexists; split; [reflexivity|auto]|].
  destruct (fs =? 0); [eexists; eexists; split; [reflexivity|auto]|].
  destruct (ss <? cs); [eexists; eexists; split; [reflexivity|auto]|].
  destruct (device <? 0); [eexists; eexists; split; [reflexivity|auto]|].
  unfold bind at 1. unfold cudaGetDeviceCount, record_call, bind, ret.
  unfold bind, cudaGetDeviceCount, record_call, ret in Hc.
  destruct (device >? shl32 1 (device_count E));
    [eexists; eexists; split; [reflexivity|auto]|].
  destruct ((s =? 0) || (c =? 0) || (a =? 0));
    [eexists; eexists; split; [reflexivity|auto]|].
  destruct (flt tol fzero || fgt tol fone);
    [eexists; eexists; split; [reflexivity|auto]|].
  destruct (flt yy fzero || fgt yy fhalf);
    [eexists; eexists; split; [reflexivity|auto]|].
  destruct ((CUDA_ARCH E <? 60) && fp16);
    eexists; eexists; (split; [reflexivity|auto]).
Qed.

(** What a successful [check_args] says about sizes and the yinyang
    fraction. *)
Lemma check_args_success_inv E tol yy ss fs cs device fp16 verb s c a w :
  returned (check_args E tol yy ss fs cs device fp16 verb s c a w) = Some kmcudaSuccess ->
  2 <= cs /\ cs <> UINT32_MAX /\ fs <> 0 /\ cs <= ss /\
  flt yy fzero = false /\ fgt yy fhalf = false.
Proof.
  rewrite check_args_cascade.
  destruct ((cs <? 2) || (cs =? UINT32_MAX)) eqn:H1; [discriminate|].
  destruct (fs =? 0) eqn:H2; [discriminate|].
  destruct (ss <? cs) eqn:H3; [discriminate|].
  destruct (device <? 0); [discriminate|].
  destruct (device >? shl32 1 (device_count E)); [discriminate|].
  destruct ((s =? 0) || (c =? 0) || (a =? 0)); [discriminate|].
  destruct (flt tol fzero || fgt tol fone); [discriminate|].
  destruct (flt yy fzero || fgt yy fhalf) eqn:H4; [discriminate|].
  intros _. bool_to_prop. repeat split; try lia; assumption.
Qed.

(** C3 (as amended): with between 1 and 31 devices installed, all of which
    can be selected, the mask [0] makes [setup_devices] return all of them,
    [0 .. n-1]; and a call of [kmeans_cuda] that passes [check_args], whose
    yinyang fraction is a number and whose reassignment threshold
    [uint32_t(tolerance * samples_size)] (line 272) is defined, returns
    NoSuchDevice when no device of its mask can be selected. *)
Theorem mask_zero_and_empty_selection :
  forall (E : env) (fuel : nat) (init : KMCUDAInitMethod) (tolerance : cfloat) (q : Q)
         (metric samples_size features_size clusters_size seed device device_ptrs
          fp16x2 verbosity samples centroids assignments : Z) (w : world),
    (1 <= device_count E <= 31 ->
     (forall d, 0 <= d < device_count E -> set_device_status E d = cudaSuccess) ->
     exists w',
       setup_devices E 0 device_ptrs verbosity w = Return (upto (device_count E)) w') /\
    (is_u32 device -> is_u32 clusters_size ->
     returned (check_args E tolerance (FNum q) samples_size features_size clusters_size
                          device (negb (fp16x2 =? 0)) verbosity
                          samples centroids assignments w)
     = Some kmcudaSuccess ->
     scaled_to_u32 tolerance samples_size <> None ->
     selectable E (expanded_mask E device) = [] ->
     returned (kmeans_cuda E fuel init tolerance (FNum q) metric samples_size features_size
                           clusters_size seed device device_ptrs fp16x2 verbosity
                           samples centroids assignments w)
     = Some kmcudaNoSuchDevice).
Proof.
  intros. split.
  - intros Hn Hok.
    destruct (setup_devices_spec E 0 device_ptrs verbosity w) as (w' & H & _).
    { unfold is_u32. lia. }
    exists w'. rewrite H. rewrite selectable_all by assumption. reflexivity.
  - intros Hdev Hcs Hcheck Hthr Hsel.
    unfold kmeans_cuda.
    unfold bind at 1. unfold DEBUG at 1, log_line at 1.
    unfold bind at 1. unfold call_fn at 1.
    match goal with |- context [check_args _ _ _ _ _ _ _ _ _ _ _ _ ?w0] =>
      destruct (check_args_outcome E tolerance (FNum q) samples_size features_size
                  clusters_size device (negb (fp16x2 =? 0)) verbosity
                  samples centroids assignments w0) as (r & w1 & H1 & Hr & _)
    end.
    rewrite H1. rewrite Hr in Hcheck. injection Hcheck as ->.
    unfold bind at 1. unfold RETERR at 1. cbn [is_success]. unfold ret at 1.
    destruct (scaled_to_u32 tolerance samples_size) as [threshold|]; [|congruence].
    unfold bind at 1. unfold INFO at 1, log_line at 1.
    destruct (check_args_success_inv _ _ _ _ _ _ _ _ _ _ _ _ _ (Hr w))
      as (_ & _ & _ & _ & Hy0 & Hy1).
    destruct (yy_groups_defined q clusters_size Hy0 Hy1 Hcs) as (g & Hg & _).
    rewrite Hg.
    unfold bind at 1. unfold DEBUG at 1, log_line at 1.
    unfold bind at 1. unfold call_fn at 1.
    match goal with |- context [setup_devices _ _ _ _ ?w0] =>
      destruct (setup_devices_spec E device device_ptrs verbosity w0 Hdev)
        as (w2 & H2 & _)
    end.
    rewrite H2. rewrite Hsel. reflexivity.
Qed.

(** C3, witness: three devices installed; mask [0] selects [0; 1; 2], and
    the mask [0b1000] names only device 3, which cannot be selected. *)
Lemma mask_zero_and_empty_selection_witness :
  (exists w',
      setup_devices (sample_env true 3 lcg (unit_dists 4)) 0 (-1) 0 empty_world
      = Return (upto 3) w') /\
  returned (kmeans_cuda (sample_env true 3 lcg (unit_dists 4)) 1 kmcudaInitMethodRandom
                        fzero (FNum (1 # 4)) 0 4 1 2 0 8 (-1) 0 0 1 2 3 empty_world)
  = Some kmcudaNoSuchDevice.
Proof.
  destruct (mask_zero_and_empty_selection
              (sample_env true 3 lcg (unit_dists 4)) 1 kmcudaInitMethodRandom
              fzero (1 # 4) 0 4 1 2 0 8 (-1) 0 0 1 2 3 empty_world) as [A B].
  split.
  - apply A.
    + cbn. lia.
    + intros d Hd. cbn in Hd |- *. destruct (d <? 3) eqn:H; [reflexivity|lia].
  - apply B.
    + unfold is_u32. lia.
    + unfold is_u32. lia.
    + reflexivity.
    + vm_compute. discriminate.
    + reflexivity.
Defined.

(** C3, counterexample.  With 33 devices installed, all of which can be
    selected, the mask [0] does not select [0 .. 32]: the mask has 32 bits
    (by [in_selectable] no list [setup_devices] returns holds an index
    above 31, whatever the shift of line 65 yields).  And a call with
    [clusters_size = 1] whose mask selects no device is answered
    InvalidArguments by [check_args], before any device is looked at. *)
Lemma mask_zero_with_33_devices_or_rejected_arguments :
  (returned (setup_devices (sample_env true 33 lcg (unit_dists 4)) 0 (-1) 0 empty_world)
   = Some [0] /\
   upto (device_count (sample_env true 33 lcg (unit_dists 4))) <> [0]) /\
  (selectable (sample_env true 3 lcg (unit_dists 4))
              (expanded_mask (sample_env true 3 lcg (unit_dists 4)) 8) = [] /\
   returned (kmeans_cuda (sample_env true 3 lcg (unit_dists 4)) 1 kmcudaInitMethodRandom
                         fzero (FNum (1 # 4)) 0 4 1 1 0 8 (-1) 0 0 1 2 3 empty_world)
   = Some kmcudaInvalidArguments).
Proof.
  split; split.
  - reflexivity.
  - discriminate.
  - reflexivity.
  - reflexivity.
Qed.

(** ** The cumulative-weight search of k-means++ *)

(** C1, the source at a failing input: 200 samples with the distances
    [skewed_dists] (non-negative, sum 1698) and the draw 1/2.  The target
    weight is 849 and the approximate rank 100; the prefix sum up to rank
    100 is 1099, so the search walks backward.  Its first step subtracts
    [host_dists[100]] = 500, which the prefix sum does not contain, and the
    search leaves [j = 100]; the naive scan stops at [j = 1], since the
    first distance alone reaches the target. *)
Theorem backward_walk_misses_crossing :
  Forall (fun d => Qle 0 d) skewed_dists /\
  Z.of_nat (length skewed_dists) = 200 /\
  Qeq (prefix_sum skewed_dists 200) 1698 /\
  weighted_search (map FNum skewed_dists) 200 (FNum (1 # 2)) (FNum 1698) = Some 100 /\
  naive_search skewed_dists ((1 # 2) * 1698) = 1.
Proof.
  split; [|split; [|split; [|split]]].
  - unfold skewed_dists. rewrite Forall_forall. intros d Hd.
    cbn [In app] in Hd. destruct Hd as [<-|Hd]; [discriminate|].
    apply in_app_or in Hd. destruct Hd as [Hd|[<-|Hd]];
      try discriminate; apply repeat_spec in Hd; subst; discriminate.
  - reflexivity.
  - vm_compute. reflexivity.
  - vm_compute. reflexivity.
  - vm_compute. reflexivity.
Qed.

(** *** Where the search agrees with the naive scan *)

Lemma prefix_sum_succ dists j d :
  nth_error dists j = Some d ->
  prefix_sum dists (S j) = (prefix_sum dists j + d)%Q.
Proof.
  intros H. unfold prefix_sum.
  assert (Hf : firstn (S j) dists = firstn j dists ++ [d]).
  { revert j H. induction dists as [|x l IH]; intros [|j] H; cbn in *; try discriminate.
    - injection H as ->. reflexivity.
    - rewrite (IH j H). reflexivity. }
  rewrite Hf, fold_left_app. reflexivity.
Qed.

Lemma host_at_map dists j :
  host_at (map FNum dists) (Z.of_nat j) = option_map FNum (nth_error dists j).
Proof.
  unfold host_at.
  replace (Z.of_nat j <? 0) with false by (symmetry; apply Z.ltb_ge; lia).
  rewrite Nat2Z.id, nth_error_map. reflexivity.
Qed.

Lemma find_seq_first (f : nat -> bool) (len s j : nat) :
  (s <= j < s + len)%nat ->
  (forall k, (s <= k < j)%nat -> f k = false) -> f j = true ->
  find f (seq s len) = Some j.
Proof.
  revert s. induction len as [|len IH]; intros s Hj Hlo Hf; [lia|].
  cbn [seq find]. destruct (Nat.eq_dec s j) as [->|Hne].
  - rewrite Hf. reflexivity.
  - rewrite (Hlo s) by lia. apply IH; [lia| |exact Hf].
    intros k Hk. apply Hlo. lia.
Qed.

Lemma find_seq_none (f : nat -> bool) (len s : nat) :
  (forall k, (s <= k < s + len)%nat -> f k = false) -> find f (seq s len) = None.
Proof.
  revert s. induction len as [|len IH]; intros s H; [reflexivity|].
  cbn [seq find]. rewrite (H s) by lia. apply IH. intros k Hk. apply H. lia.
Qed.

(** The forward loop, started at [j] with the prefix sum up to [j], finds
    the index of the naive scan when no smaller index reaches the target. *)
Lemma scan_forward_naive dists target fuel :
  forall j,
    (j <= length dists)%nat -> (length dists - j <= fuel)%nat ->
    (forall k, (k < j)%nat -> Qle_bool target (prefix_sum dists k) = false) ->
    scan_forward (map FNum dists) (Z.of_nat (length dists)) (FNum target) fuel
                 (Z.of_nat j) (FNum (prefix_sum dists j))
    = Some (naive_search dists target).
Proof.
  induction fuel as [|fuel IH]; intros j Hj Hfuel Hlo.
  - assert (j = length dists) by lia. subst j. cbn [scan_forward].
    rewrite Z.ltb_irrefl.
    cbn [andb]. unfold naive_search.
    destruct (Qle_bool target (prefix_sum dists (length dists))) eqn:Hq.
    + rewrite (find_seq_first _ _ 0 (length dists)); [reflexivity|lia| |exact Hq].
      intros k Hk. apply Hlo. lia.
    + rewrite find_seq_none; [reflexivity|].
      intros k Hk. destruct (Nat.eq_dec k (length dists)) as [->|Hne]; [exact Hq|].
      apply Hlo. lia.
  - cbn [scan_forward]. unfold flt, Qltb.
    destruct (Qle_bool target (prefix_sum dists j)) eqn:Hq.
    + rewrite andb_false_r. unfold naive_search.
      rewrite (find_seq_first _ _ 0 j); [reflexivity|lia| |exact Hq].
      intros k Hk. apply Hlo. lia.
    + cbn [negb]. rewrite andb_true_r.
      destruct (Z.of_nat j <? Z.of_nat (length dists)) eqn:Hlt.
      * apply Z.ltb_lt in Hlt.
        rewrite host_at_map.
        destruct (nth_error dists j) as [d|] eqn:Hd.
        2:{ apply nth_error_None in Hd. lia. }
        cbn [option_map fadd]. rewrite <- (prefix_sum_succ dists j d Hd).
        replace (Z.of_nat j + 1) with (Z.of_nat (S j)) by lia.
        apply IH; [lia|lia|].
        intros k Hk. destruct (Nat.eq_dec k j) as [->|Hne]; [exact Hq|].
        apply Hlo. lia.
      * apply Z.ltb_ge in Hlt. assert (j = length dists) by lia. subst j.
        unfold naive_search. rewrite find_seq_none; [reflexivity|].
        intros k Hk. destruct (Nat.eq_dec k (length dists)) as [->|Hne]; [exact Hq|].
        apply Hlo. lia.
Qed.

Lemma partial_sum_prefix dists k :
  forall s,
    (s + k <= length dists)%nat ->
    partial_sum (map FNum dists) (map Z.of_nat (seq s k)) (FNum (prefix_sum dists s))
    = Some (FNum (prefix_sum dists (s + k))).
Proof.
  induction k as [|k IH]; intros s Hs; cbn [seq map partial_sum].
  - rewrite Nat.add_0_r. reflexivity.
  - rewrite host_at_map.
    destruct (nth_error dists s) as [d|] eqn:Hd.
    2:{ apply nth_error_None in Hd. lia. }
    cbn [option_map fadd]. rewrite <- (prefix_sum_succ dists s d Hd).
    rewrite IH by lia. do 2 f_equal. f_equal. lia.
Qed.

(** Prefix sums of non-negative distances do not decrease. *)
Lemma prefix_sum_mono dists :
  Forall (fun d => 0 <= d)%Q dists ->
  forall j k, (k <= j <= length dists)%nat ->
              (prefix_sum dists k <= prefix_sum dists j)%Q.
Proof.
  intros Hpos j. induction j as [|j IH]; intros k Hk.
  - assert (k = 0)%nat by lia. subst. apply Qle_refl.
  - destruct (Nat.eq_dec k (S j)) as [->|Hne]; [apply Qle_refl|].
    destruct (nth_error dists j) as [d|] eqn:Hd.
    2:{ apply nth_error_None in Hd. lia. }
    rewrite (prefix_sum_succ dists j d Hd).
    apply Qle_trans with (prefix_sum dists j); [apply IH; lia|].
    rewrite <- (Qplus_0_r (prefix_sum dists j)) at 1.
    apply Qplus_le_compat; [apply Qle_refl|].
    rewrite Forall_forall in Hpos. apply Hpos. eapply nth_error_In. exact Hd.
Qed.

(** The approximate rank of a draw in [0, 1). *)
Lemma choice_approx_floor (choice : Q) (n : Z) :
  (0 <= choice)%Q -> (choice < 1)%Q -> 0 < n < 2 ^ 32 ->
  cfloat_to_u32 (fmul (FNum choice) (FNum (inject_Z n)))
  = Some (Qfloor (choice * inject_Z n)) /\
  0 <= Qfloor (choice * inject_Z n) < n.
Proof.
  intros H0 H1 Hn. destruct choice as [a b].
  unfold Qle in H0. unfold Qlt in H1. cbn in H0, H1.
  unfold cfloat_to_u32, fmul, Qfloor. cbn [Qmult Qnum Qden inject_Z].
  rewrite Pos.mul_1_r.
  assert (Ha : 0 <= a * n) by nia.
  rewrite Z.quot_div_nonneg by lia.
  assert (Hlo : 0 <= a * n / Z.pos b) by (apply Z.div_pos; lia).
  assert (Hhi : a * n / Z.pos b < n) by (apply Z.div_lt_upper_bound; [lia|nia]).
  replace (0 <=? a * n / Z.pos b) with true by lia.
  replace (a * n / Z.pos b <=? UINT32_MAX) with true by (unfold UINT32_MAX; lia).
  split; [reflexivity|lia].
Qed.

(** The part of C1 the source does satisfy: for non-negative distances and
    a draw in [0, 1), the search returns the index of the naive scan
    whenever it does not walk backward, that is when the approximate rank
    is below 100 or the prefix sum up to it is short of the target. *)
Theorem search_agrees_unless_walking_back :
  forall (dists : list Q) (choice dist_sum : Q),
    0 < Z.of_nat (length dists) < 2 ^ 32 ->
    Forall (fun d => 0 <= d)%Q dists ->
    (0 <= choice)%Q -> (choice < 1)%Q ->
    Qfloor (choice * inject_Z (Z.of_nat (length dists))) < 100 \/
    (prefix_sum dists (Z.to_nat (Qfloor (choice * inject_Z (Z.of_nat (length dists)))))
     < choice * dist_sum)%Q ->
    weighted_search (map FNum dists) (Z.of_nat (length dists)) (FNum choice) (FNum dist_sum)
    = Some (naive_search dists (choice * dist_sum)).
Proof.
  intros dists choice dist_sum Hn Hpos H0 H1 Hbranch.
  destruct (choice_approx_floor choice _ H0 H1 Hn) as [Hca Hrange].
  unfold weighted_search. rewrite Hca. cbn [fmul].
  set (ca := Qfloor (choice * inject_Z (Z.of_nat (length dists)))) in *.
  destruct (ca <? 100) eqn:Hlt.
  - rewrite Nat2Z.id.
    apply (scan_forward_naive dists (choice * dist_sum) (length dists) 0%nat); [lia|lia|].
    intros k Hk. lia.
  - destruct Hbranch as [Hb|Hb]; [lia|].
    unfold upto.
    change fzero with (FNum (prefix_sum dists 0)).
    rewrite (partial_sum_prefix dists (Z.to_nat ca) 0) by lia.
    cbn [Nat.add]. unfold flt, Qltb.
    assert (Hq : Qle_bool (choice * dist_sum) (prefix_sum dists (Z.to_nat ca)) = false).
    { destruct (Qle_bool _ _) eqn:Hq; [|reflexivity].
      apply Qle_bool_iff in Hq. exfalso. eapply Qlt_not_le; eassumption. }
    rewrite Hq. cbn [negb]. rewrite Nat2Z.id.
    rewrite <- (Z2Nat.id ca) at 1 by lia.
    apply scan_forward_naive; [lia|lia|].
    intros k Hk.
    destruct (Qle_bool (choice * dist_sum) (prefix_sum dists k)) eqn:Hk'; [|reflexivity].
    apply Qle_bool_iff in Hk'. exfalso.
    apply (Qlt_not_le _ _ Hb).
    eapply Qle_trans; [exact Hk'|]. apply prefix_sum_mono; [exact Hpos|lia].
Qed.

(** Witness: the draw 3/5 on [late_heavy_dists]; the approximate rank is
    120, the prefix sum up to it 120, the target 719.4: the forward scan. *)
Lemma search_agrees_unless_walking_back_witness :
  weighted_search (map FNum late_heavy_dists) (Z.of_nat (length late_heavy_dists))
                  (FNum (3 # 5)) (FNum 1199)
  = Some (naive_search late_heavy_dists ((3 # 5) * 1199)).
Proof.
  apply (search_agrees_unless_walking_back late_heavy_dists (3 # 5) 1199).
  - cbn. lia.
  - unfold late_heavy_dists. rewrite Forall_forall. intros d Hd.
    apply in_app_or in Hd. destruct Hd as [Hd|[<-|Hd]];
      try discriminate; apply repeat_spec in Hd; subst; discriminate.
  - discriminate.
  - reflexivity.
  - right. vm_compute. reflexivity.
Defined.

Example forward_scan_finds_heavy_sample :
  weighted_search (map FNum late_heavy_dists) 200 (FNum (3 # 5)) (FNum 1199) = Some 151.
Proof. vm_compute. reflexivity. Qed.

(** ** Random initialisation *)

Lemma list_set_length {A} (l : list A) k x : length (list_set l k x) = length l.
Proof.
  revert k. induction l as [|y l IH]; intros [|k]; cbn; auto.
Qed.

Lemma nth_list_set {A} (l : list A) k x j d :
  (k < length l)%nat ->
  nth j (list_set l k x) d = if Nat.eqb j k then x else nth j l d.
Proof.
  revert k j. induction l as [|y l IH]; intros k j Hk; [cbn in Hk; lia|].
  destruct k as [|k], j as [|j]; cbn; try reflexivity.
  apply IH. cbn in Hk. lia.
Qed.

Lemma swap_at_length l i j : length (swap_at l i j) = length l.
Proof. unfold swap_at. rewrite !list_set_length. reflexivity. Qed.

Lemma nth_swap_at l i j k :
  (i < length l)%nat -> (j < length l)%nat ->
  nth k (swap_at l i j) 0 =
  nth (if Nat.eqb k j then i else if Nat.eqb k i then j else k) l 0.
Proof.
  intros Hi Hj. unfold swap_at.
  rewrite nth_list_set by (rewrite list_set_length; exact Hj).
  destruct (Nat.eqb k j) eqn:Hkj; [reflexivity|].
  rewrite nth_list_set by exact Hi.
  destruct (Nat.eqb k i); reflexivity.
Qed.

(** An exchange of two positions of the vector permutes it. *)
Lemma swap_at_perm l i j :
  (i < length l)%nat -> (j < length l)%nat -> Permutation l (swap_at l i j).
Proof.
  intros Hi Hj. apply (proj2 (Permutation_nth l (swap_at l i j) 0)).
  split; [apply swap_at_length|].
  exists (fun k => if Nat.eqb k j then i else if Nat.eqb k i then j else k).
  split; [|split].
  - intros k Hk. destruct (Nat.eqb k j); [exact Hi|]. destruct (Nat.eqb k i); assumption.
  - intros a b Ha Hb.
    destruct (Nat.eqb a j) eqn:Haj, (Nat.eqb b j) eqn:Hbj,
             (Nat.eqb a i) eqn:Hai, (Nat.eqb b i) eqn:Hbi;
      repeat match goal with
             | H : Nat.eqb _ _ = true |- _ => apply Nat.eqb_eq in H
             | H : Nat.eqb _ _ = false |- _ => apply Nat.eqb_neq in H
             end; intros; subst; try congruence; try lia.
  - intros k Hk. apply nth_swap_at; assumption.
Qed.

Lemma shuffle_from_perm gen positions :
  forall state v,
    (forall i, In i positions -> 0 <= i < Z.of_nat (length v)) ->
    Permutation v (fst (shuffle_from gen positions state v)) /\
    length (fst (shuffle_from gen positions state v)) = length v.
Proof.
  induction positions as [|i rest IH]; intros state v Hpos; cbn [shuffle_from].
  - split; [apply Permutation_refl|reflexivity].
  - destruct (gen state) as [r state'].
    assert (Hi : 0 <= i < Z.of_nat (length v)) by (apply Hpos; left; reflexivity).
    pose proof (Z.mod_pos_bound r (i + 1) ltac:(lia)) as Hr.
    assert (Hp : Permutation v (swap_at v (Z.to_nat i) (Z.to_nat (r mod (i + 1)))))
      by (apply swap_at_perm; lia).
    destruct (IH state' (swap_at v (Z.to_nat i) (Z.to_nat (r mod (i + 1))))) as [IH1 IH2].
    { intros k Hk. rewrite swap_at_length. apply Hpos. right. exact Hk. }
    split.
    + eapply Permutation_trans; [exact Hp|exact IH1].
    + rewrite IH2. apply swap_at_length.
Qed.

Lemma upto_length n : length (upto n) = Z.to_nat n.
Proof. unfold upto. rewrite length_map, length_seq. reflexivity. Qed.

(** The shuffled vector is a permutation of [0 .. samples_size - 1]. *)
Lemma shuffled_perm E seed samples_size :
  Permutation (upto samples_size) (shuffled E seed samples_size) /\
  length (shuffled E seed samples_size) = Z.to_nat samples_size.
Proof.
  unfold shuffled.
  destruct (shuffle_from_perm (rand_gen E)
              (map (fun k => k + 1) (upto (Z.of_nat (length (upto samples_size)) - 1)))
              seed (upto samples_size)) as [H1 H2].
  - intros i Hi. apply in_map_iff in Hi. destruct Hi as (k & <- & Hk).
    apply in_upto in Hk. lia.
  - split; [exact H1|]. rewrite H2. apply upto_length.
Qed.

(** The monadic shuffle computes [shuffle_from] on the state of the
    generator; it issues no call and touches no memory. *)
Lemma random_shuffle_run E R (v : list Z) (w : world) :
  @random_shuffle E R v w
  = Val (fst (shuffle_from (rand_gen E)
                 (map (fun k => k + 1) (upto (Z.of_nat (length v) - 1))) (w_rng w) v))
        (mkWorld (w_mem w)
                 (snd (shuffle_from (rand_gen E)
                         (map (fun k => k + 1) (upto (Z.of_nat (length v) - 1))) (w_rng w) v))
                 (w_calls w) (w_log w)).
Proof.
  unfold random_shuffle.
  generalize (map (fun k => k + 1) (upto (Z.of_nat (length v) - 1))) as positions.
  intros positions. revert v w.
  induction positions as [|i rest IH]; intros v w; cbn [fold_each shuffle_from].
  - destruct w; reflexivity.
  - unfold bind at 1. unfold bind at 1. unfold rand at 1.
    destruct (rand_gen E (w_rng w)) as [r state'] eqn:Hg.
    unfold ret at 1. rewrite IH. reflexivity.
Qed.

(** *** Call traces *)

Lemma emits_ret {R A} (a : A) : emits (@ret R A a) a [].
Proof. intros w. exists w. rewrite app_nil_r. auto. Qed.

Lemma emits_bind {R A B} (c : M R A) (k : A -> M R B) a b cs1 cs2 :
  emits c a cs1 -> emits (k a) b cs2 -> emits (bind c k) b (cs1 ++ cs2).
Proof.
  intros Hc Hk w.
  destruct (Hc w) as (w1 & H1 & Hc1). destruct (Hk w1) as (w2 & H2 & Hc2).
  exists w2. rewrite (bind_Val _ _ _ _ _ H1). split; [exact H2|].
  rewrite Hc2, Hc1, app_assoc. reflexivity.
Qed.

Lemma emits_log {R} (m : msg) : emits (@log_line R m) tt [].
Proof. intros w. eexists. split; [reflexivity|]. cbn. rewrite app_nil_r. reflexivity. Qed.

Lemma emits_cudaSetDevice {R} E dev :
  emits (@cudaSetDevice E R dev) (set_device_status E dev) [CudaSetDevice dev].
Proof. intros w. eexists. split; reflexivity. Qed.

Lemma emits_for_each {R A} (l : list A) (body : A -> M R unit) (f : A -> list call) :
  (forall x, In x l -> emits (body x) tt (f x)) ->
  emits (for_each l body) tt (flat_map f l).
Proof.
  induction l as [|x l IH]; intros H; cbn [for_each flat_map].
  - apply emits_ret.
  - apply emits_bind with (a := tt).
    + apply H. left. reflexivity.
    + apply IH. intros y Hy. apply H. right. exact Hy.
Qed.

Lemma at_ret {R A} (v : list A) (i : Z) (d : A) :
  0 <= i < Z.of_nat (length v) -> @at_ R A v i = ret (nth (Z.to_nat i) v d).
Proof.
  intros Hi. unfold at_. replace (i <? 0) with false by lia.
  rewrite (nth_error_nth' v d) by lia. reflexivity.
Qed.

Lemma emits_cudaMemcpyAsync {R} E dst src count kind :
  copies_succeed E ->
  emits (@cudaMemcpyAsync E R dst src count kind) cudaSuccess
        [CudaMemcpyAsync dst src count kind].
Proof.
  intros H w. unfold cudaMemcpyAsync, issue_copy. rewrite H.
  eexists. split; reflexivity.
Qed.

Lemma emits_eq {R A} (c : M R A) a cs cs' : cs = cs' -> emits c a cs -> emits c a cs'.
Proof. intros ->. auto. Qed.

(** Lines 173-181 for a shuffled vector [v]. *)
Lemma random_copies_emit E devs samples centroids features_size clusters_size v :
  copies_succeed E ->
  length samples = length devs -> length centroids = length devs ->
  0 <= clusters_size <= Z.of_nat (length v) ->
  emits
    (FOR_EACH_DEVI E devs (fun devi =>
       for_each (upto clusters_size) (fun c =>
         d <- at_ centroids devi ;;
         s <- at_ samples devi ;;
         ch <- at_ v c ;;
         st <- cudaMemcpyAsync E (dp_get d + u32 (c * features_size))
                               (dp_get s + ch * features_size)
                               features_size cudaMemcpyDeviceToDevice ;;
         CUCH st kmcudaMemoryCopyError)))
    tt
    (random_copy_calls devs samples centroids features_size
                       (firstn (Z.to_nat clusters_size) v)).
Proof.
  intros Hok Hs Hc Hk. unfold FOR_EACH_DEVI, random_copy_calls.
  apply emits_for_each. intros devi Hdevi. apply in_upto in Hdevi.
  rewrite (at_ret devs devi 0) by lia.
  apply emits_bind with (a := nth (Z.to_nat devi) devs 0) (cs1 := []);
    [apply emits_ret|].
  apply emits_bind with (a := set_device_status E (nth (Z.to_nat devi) devs 0))
                        (cs1 := [CudaSetDevice (nth (Z.to_nat devi) devs 0)]);
    [apply emits_cudaSetDevice|].
  rewrite length_firstn, Nat.min_l by lia. rewrite Z2Nat.id by lia.
  rewrite <- (flat_map_concat_map _ (upto clusters_size)) || idtac.
  assert (Hmap : forall (g : Z -> call) l,
            map g l = flat_map (fun c => [g c]) l).
  { intros g l. induction l as [|x l IH]; [reflexivity|]. cbn. rewrite IH. reflexivity. }
  rewrite Hmap.
  apply emits_for_each. intros c Hcin. apply in_upto in Hcin.
  rewrite (at_ret centroids devi (mkDevptr 0 false)) by lia.
  rewrite (at_ret samples devi (mkDevptr 0 false)) by lia.
  rewrite (at_ret v c 0) by lia.
  apply emits_bind with (a := nth (Z.to_nat devi) centroids (mkDevptr 0 false)) (cs1 := []);
    [apply emits_ret|].
  apply emits_bind with (a := nth (Z.to_nat devi) samples (mkDevptr 0 false)) (cs1 := []);
    [apply emits_ret|].
  apply emits_bind with (a := nth (Z.to_nat c) v 0) (cs1 := []); [apply emits_ret|].
  cbn [app].
  rewrite nth_firstn. replace (Z.to_nat c <? Z.to_nat clusters_size)%nat with true
    by (symmetry; apply Nat.ltb_lt; lia).
  eapply emits_eq; [|eapply emits_bind; [apply emits_cudaMemcpyAsync; exact Hok|]].
  2:{ cbn [CUCH cuda_ok]. apply emits_ret. }
  reflexivity.
Qed.

Lemma init_random_run E samples_size features_size clusters_size devs samples centroids w :
  copies_succeed E ->
  length samples = length devs -> length centroids = length devs ->
  0 <= clusters_size <= samples_size ->
  exists w',
    init_random E samples_size features_size clusters_size devs samples centroids w
    = Val (shuffled E (w_rng w) samples_size) w' /\
    w_calls w' = w_calls w ++
                 random_copy_calls devs samples centroids features_size
                   (firstn (Z.to_nat clusters_size) (shuffled E (w_rng w) samples_size)).
Proof.
  intros Hok Hs Hc Hk. unfold init_random.
  unfold bind at 1. unfold INFO at 1, log_line at 1.
  unfold bind at 1. rewrite random_shuffle_run. cbn [w_mem w_rng w_calls w_log].
  fold (shuffled E (w_rng w) samples_size).
  unfold bind at 1. unfold DEBUG at 1, log_line at 1. cbn [w_mem w_rng w_calls w_log].
  match goal with |- context [bind (FOR_EACH_DEVI _ _ _) _ ?w0] =>
    destruct (random_copies_emit E devs samples centroids features_size clusters_size
                (shuffled E (w_rng w) samples_size) Hok Hs Hc
                ltac:(rewrite (proj2 (shuffled_perm E (w_rng w) samples_size)); lia) w0)
      as (w2 & H2 & Hc2)
  end.
  rewrite (bind_Val _ _ _ _ _ H2). unfold ret. exists w2. split; [reflexivity|].
  rewrite Hc2. reflexivity.
Qed.

Lemma upto_NoDup n : NoDup (upto n).
Proof.
  unfold upto. apply Injective_map_NoDup; [|apply seq_NoDup].
  intros a b H. lia.
Qed.

(** C5: for every seed and [samples_size >= clusters_size >= 2], random
    initialisation copies, on every device, the samples whose indices are
    the first [clusters_size] entries of [shuffled E seed samples_size], a
    permutation of [0 .. samples_size - 1] that depends on the seed and the
    sample count only: [clusters_size] distinct indices, all in
    [0, samples_size). *)
Theorem random_init_picks_distinct_samples :
  forall (E : env) (fuel : nat) (samples_size features_size clusters_size : Z)
         (metric : KMCUDADistanceMetric) (seed : Z) (devs : list Z)
         (device_ptrs fp16x2 verbosity host_centroids : Z)
         (samples dists dev_sums centroids : udevptrs) (w : world),
    2 <= clusters_size <= samples_size ->
    let chosen := firstn (Z.to_nat clusters_size) (shuffled E seed samples_size) in
    (copies_succeed E ->
     length samples = length devs -> length centroids = length devs ->
     exists w',
       kmeans_init_centroids E fuel kmcudaInitMethodRandom samples_size features_size
                             clusters_size metric seed devs device_ptrs fp16x2 verbosity
                             host_centroids samples dists dev_sums centroids w
       = Return kmcudaSuccess w' /\
       w_calls w' = w_calls w ++
                    random_copy_calls devs samples centroids features_size chosen) /\
    Permutation (upto samples_size) (shuffled E seed samples_size) /\
    Z.of_nat (length chosen) = clusters_size /\
    NoDup chosen /\
    (forall x, In x chosen -> 0 <= x < samples_size).
Proof.
  intros E fuel samples_size features_size clusters_size metric seed devs
         device_ptrs fp16x2 verbosity host_centroids samples dists dev_sums centroids w
         Hk chosen.
  destruct (shuffled_perm E seed samples_size) as [Hperm Hlen].
  split; [|split; [|split; [|split]]].
  - intros Hok Hs Hc. unfold kmeans_init_centroids.
    unfold bind at 1. unfold srand at 1, set_rng at 1.
    unfold bind at 1. unfold bind at 1.
    match goal with |- context [init_random _ _ _ _ _ _ _ ?w0] =>
      destruct (init_random_run E samples_size features_size clusters_size devs
                  samples centroids w0 Hok Hs Hc ltac:(lia)) as (w1 & H1 & Hc1)
    end.
    rewrite H1. unfold ret at 1.
    unfold bind at 1. unfold INFO at 1, log_line at 1. unfold return_.
    eexists. split; [reflexivity|]. cbn [w_calls]. exact Hc1.
  - exact Hperm.
  - unfold chosen. rewrite length_firstn, Hlen. lia.
  - unfold chosen.
    assert (Hnd : NoDup (shuffled E seed samples_size)).
    { eapply Permutation_NoDup; [exact Hperm|apply upto_NoDup]. }
    rewrite <- (firstn_skipn (Z.to_nat clusters_size)) in Hnd.
    eapply NoDup_app_remove_r. exact Hnd.
  - intros x Hx. unfold chosen in Hx.
    apply in_upto. eapply Permutation_in; [apply Permutation_sym; exact Hperm|].
    rewrite <- (firstn_skipn (Z.to_nat clusters_size)). apply in_or_app. left. exact Hx.
Qed.

(** C5, witness: 5 samples, 3 clusters, seed 7, two devices. *)
Lemma random_init_picks_distinct_samples_witness :
  (exists w',
     kmeans_init_centroids (sample_env true 2 lcg (unit_dists 5)) 1
                           kmcudaInitMethodRandom 5 2 3 0 7 [0; 1] (-1) 0 0 0
                           [mkDevptr 100 false; mkDevptr 200 false] [] []
                           [mkDevptr 300 false; mkDevptr 400 false] empty_world
     = Return kmcudaSuccess w' /\
     w_calls w' = w_calls empty_world ++
                  random_copy_calls [0; 1] [mkDevptr 100 false; mkDevptr 200 false]
                    [mkDevptr 300 false; mkDevptr 400 false] 2
                    (firstn (Z.to_nat 3)
                            (shuffled (sample_env true 2 lcg (unit_dists 5)) 7 5))) /\
  Permutation (upto 5) (shuffled (sample_env true 2 lcg (unit_dists 5)) 7 5) /\
  Z.of_nat (length (firstn (Z.to_nat 3)
                           (shuffled (sample_env true 2 lcg (unit_dists 5)) 7 5))) = 3 /\
  NoDup (firstn (Z.to_nat 3) (shuffled (sample_env true 2 lcg (unit_dists 5)) 7 5)) /\
  (forall x,
      In x (firstn (Z.to_nat 3) (shuffled (sample_env true 2 lcg (unit_dists 5)) 7 5)) ->
      0 <= x < 5).
Proof.
  destruct (random_init_picks_distinct_samples
              (sample_env true 2 lcg (unit_dists 5)) 1 5 2 3 0 7 [0; 1] (-1) 0 0 0
              [mkDevptr 100 false; mkDevptr 200 false] [] []
              [mkDevptr 300 false; mkDevptr 400 false] empty_world
              ltac:(lia)) as [A B].
  split; [|exact B].
  apply A; [intros calls c; reflexivity | reflexivity | reflexivity].
Defined.

Example shuffled_seed_7 :
  shuffled (sample_env true 2 lcg (unit_dists 5)) 7 5 = [0; 4; 3; 1; 2].
Proof. vm_compute. reflexivity. Qed.

(** ** k-means++ initialisation *)

Lemma falls_through_ret {R A} (a : A) : falls_through (@ret R A a).
Proof. intros w. exists a, w. auto. Qed.

Lemma falls_through_bind {R A B} (c : M R A) (k : A -> M R B) :
  falls_through c -> (forall a, falls_through (k a)) -> falls_through (bind c k).
Proof.
  intros Hc Hk w. destruct (Hc w) as (a & w1 & H1 & L1).
  destruct (Hk a w1) as (b & w2 & H2 & L2).
  exists b, w2. rewrite (bind_Val _ _ _ _ _ H1). auto.
Qed.

Lemma falls_through_for_each {R A} (l : list A) (body : A -> M R unit) :
  (forall x, In x l -> falls_through (body x)) -> falls_through (for_each l body).
Proof.
  induction l as [|x l IH]; intros H; cbn [for_each].
  - apply falls_through_ret.
  - apply falls_through_bind; [apply H; left; reflexivity|].
    intros _. apply IH. intros y Hy. apply H. right. exact Hy.
Qed.

Lemma falls_through_log {R} (m : msg) : falls_through (@log_line R m).
Proof.
  intros w. eexists; eexists; split; [reflexivity|].
  intros m' Hm'. cbn. apply in_or_app. left. exact Hm'.
Qed.

Lemma falls_through_when {R} (b : bool) (c : M R unit) :
  falls_through c -> falls_through (when b c).
Proof. intros H. destruct b; [exact H|apply falls_through_ret]. Qed.

Lemma falls_through_cudaSetDevice {R} E dev : falls_through (@cudaSetDevice E R dev).
Proof. intros w. eexists; eexists; split; [reflexivity|auto]. Qed.

Lemma falls_through_FOR_EACH_DEVI {R} E devs (body : Z -> M R unit) :
  (forall devi, 0 <= devi < Z.of_nat (length devs) -> falls_through (body devi)) ->
  falls_through (FOR_EACH_DEVI E devs body).
Proof.
  intros H. unfold FOR_EACH_DEVI. apply falls_through_for_each.
  intros devi Hd. apply in_upto in Hd.
  rewrite (at_ret devs devi 0) by lia.
  apply falls_through_bind; [apply falls_through_ret|]. intros dev.
  apply falls_through_bind; [apply falls_through_cudaSetDevice|]. intros _.
  apply H. exact Hd.
Qed.

Lemma falls_through_D2D E devs dst dst_stride src src_stride size :
  copies_succeed E ->
  length dst = length devs -> length src = length devs ->
  falls_through (CUMEMCPY_D2D_ASYNC E devs dst dst_stride src src_stride size).
Proof.
  intros Hok Hd Hs. unfold CUMEMCPY_D2D_ASYNC.
  apply falls_through_FOR_EACH_DEVI. intros devi Hdevi.
  rewrite (at_ret dst devi (mkDevptr 0 false)) by lia.
  rewrite (at_ret src devi (mkDevptr 0 false)) by lia.
  apply falls_through_bind; [apply falls_through_ret|]. intros d.
  apply falls_through_bind; [apply falls_through_ret|]. intros s.
  intros w. unfold bind, cudaMemcpyAsync, issue_copy. rewrite Hok.
  cbn [CUCH cuda_ok]. eexists; eexists; split; [reflexivity|auto].
Qed.

(** *** The search reads inside [host_dists] *)

Lemma host_at_defined host_dists j :
  0 <= j < Z.of_nat (length host_dists) -> exists d, host_at host_dists j = Some d.
Proof.
  intros H. unfold host_at. replace (j <? 0) with false by lia.
  destruct (nth_error host_dists (Z.to_nat j)) eqn:Hn; [eauto|].
  apply nth_error_None in Hn. lia.
Qed.

Lemma scan_forward_defined host_dists samples_size choice_sum fuel :
  forall j dist_sum2,
    samples_size = Z.of_nat (length host_dists) ->
    0 <= j -> (Z.to_nat (samples_size - j) <= fuel)%nat ->
    exists j', scan_forward host_dists samples_size choice_sum fuel j dist_sum2 = Some j'
               /\ j <= j' /\ (j <= samples_size -> j' <= samples_size).
Proof.
  induction fuel as [|fuel IH]; intros j ds2 Hn Hj Hf; cbn [scan_forward].
  - destruct (j <? samples_size) eqn:Hlt; [lia|]. cbn [andb]. exists j. split; [reflexivity|lia].
  - destruct ((j <? samples_size) && flt ds2 choice_sum) eqn:Hg; [|exists j; split; [reflexivity|lia]].
    apply andb_true_iff in Hg. destruct Hg as [Hlt _]. apply Z.ltb_lt in Hlt.
    destruct (host_at_defined host_dists j ltac:(lia)) as (d & Hd). rewrite Hd.
    destruct (IH (j + 1) (fadd ds2 d) Hn ltac:(lia) ltac:(lia)) as (j' & Hj' & Hle & Hub).
    exists j'. split; [exact Hj'|lia].
Qed.

Lemma partial_sum_defined host_dists ts :
  forall dist_sum2,
    (forall t, In t ts -> 0 <= t < Z.of_nat (length host_dists)) ->
    exists s, partial_sum host_dists ts dist_sum2 = Some s.
Proof.
  induction ts as [|t ts IH]; intros ds2 H; cbn [partial_sum]; [eauto|].
  destruct (host_at_defined host_dists t) as (d & Hd); [apply H; left; reflexivity|].
  rewrite Hd. apply IH. intros t' Ht'. apply H. right. exact Ht'.
Qed.

Lemma walk_back_defined host_dists choice_sum fuel :
  forall j dist_sum2,
    0 <= j < Z.of_nat (length host_dists) -> (Z.to_nat j <= fuel)%nat ->
    exists j', walk_back host_dists choice_sum fuel j dist_sum2 = Some j' /\ 0 <= j' <= j.
Proof.
  induction fuel as [|fuel IH]; intros j ds2 Hj Hf; cbn [walk_back].
  - destruct (j >? 1) eqn:Hgt; [lia|]. cbn [andb]. exists j. split; [reflexivity|lia].
  - destruct ((j >? 1) && fge ds2 choice_sum) eqn:Hg; [|exists j; split; [reflexivity|lia]].
    apply andb_true_iff in Hg. destruct Hg as [Hgt _].
    assert (1 < j) by lia.
    destruct (host_at_defined host_dists j Hj) as (d & Hd). rewrite Hd.
    destruct (IH (j - 1) (fsub ds2 d) ltac:(lia) ltac:(lia)) as (j' & Hj' & Hb).
    exists j'. split; [exact Hj'|lia].
Qed.

(** The approximate rank of a draw in [0, 1) is below [samples_size]. *)
Lemma choice_approx_defined (r rand_max samples_size : Z) :
  0 <= r < rand_max -> 0 < samples_size < 2 ^ 32 ->
  exists ca,
    cfloat_to_u32 (fmul (FNum (inject_Z r / inject_Z rand_max)) (FNum (inject_Z samples_size)))
    = Some ca /\ 0 <= ca < samples_size.
Proof.
  intros Hr Hn. unfold cfloat_to_u32, fmul.
  destruct rand_max as [|p|p]; try lia.
  unfold Qdiv, Qinv, inject_Z. cbn [Qnum Qden Qmult Z.mul Pos.mul].
  rewrite !Z.mul_1_r, !Pos.mul_1_r. cbn [Qnum Qden].
  assert (Hnum : 0 <= r * samples_size) by nia.
  rewrite Z.quot_div_nonneg by lia.
  assert (Hlo : 0 <= r * samples_size / Z.pos p) by (apply Z.div_pos; lia).
  assert (Hhi : r * samples_size / Z.pos p < samples_size).
  { apply Z.div_lt_upper_bound; [lia|]. nia. }
  exists (r * samples_size / Z.pos p).
  replace (0 <=? r * samples_size / Z.pos p) with true by lia.
  replace (r * samples_size / Z.pos p <=? UINT32_MAX) with true
    by (unfold UINT32_MAX; lia).
  split; [reflexivity|lia].
Qed.

Lemma weighted_search_defined host_dists samples_size r rand_max dist_sum :
  samples_size = Z.of_nat (length host_dists) ->
  0 <= r < rand_max -> 0 < samples_size < 2 ^ 32 ->
  exists j,
    weighted_search host_dists samples_size (FNum (inject_Z r / inject_Z rand_max)) dist_sum
    = Some j /\ 0 <= j <= samples_size.
Proof.
  intros Hlen Hr Hn. unfold weighted_search.
  destruct (choice_approx_defined r rand_max samples_size Hr Hn) as (ca & Hca & Hb).
  rewrite Hca.
  destruct (ca <? 100).
  - destruct (scan_forward_defined host_dists samples_size
                (fmul (FNum (inject_Z r / inject_Z rand_max)) dist_sum)
                (Z.to_nat samples_size) 0 fzero Hlen ltac:(lia) ltac:(lia))
      as (j & Hj & H1 & H2).
    exists j. split; [exact Hj|lia].
  - destruct (partial_sum_defined host_dists (upto ca) fzero) as (s & Hs).
    { intros t Ht. apply in_upto in Ht. lia. }
    rewrite Hs.
    destruct (flt s (fmul (FNum (inject_Z r / inject_Z rand_max)) dist_sum)).
    + destruct (scan_forward_defined host_dists samples_size
                  (fmul (FNum (inject_Z r / inject_Z rand_max)) dist_sum)
                  (Z.to_nat samples_size) ca s Hlen ltac:(lia) ltac:(lia))
        as (j & Hj & H1 & H2).
      exists j. split; [exact Hj|lia].
    + destruct (walk_back_defined host_dists
                  (fmul (FNum (inject_Z r / inject_Z rand_max)) dist_sum)
                  (Z.to_nat ca) ca s ltac:(lia) ltac:(lia)) as (j & Hj & H1).
      rewrite Hj. exists (u32 (j + 1)). split; [reflexivity|].
      unfold u32. rewrite Z.mod_small by lia. lia.
Qed.

(** *** Closed runs of the initialisation *)

(** A release build, four samples, three clusters, one device and a kernel
    whose sum is always NaN: both violations are logged in each of the two
    iterations, and the call returns success. *)
Example plus_plus_nan_release_run :
  returned (kmeans_init_centroids (sample_env true 1 lcg (nan_dists 4)) 1
                                  kmcudaInitMethodPlusPlus 4 1 3 0 1 [0] (-1) 0 0 0
                                  [mkDevptr 100 false] [mkDevptr 200 false]
                                  [mkDevptr 300 false] [mkDevptr 400 false] empty_world)
  = Some kmcudaSuccess /\
  option_map w_log
    (final_world (kmeans_init_centroids (sample_env true 1 lcg (nan_dists 4)) 1
                                  kmcudaInitMethodPlusPlus 4 1 3 0 1 [0] (-1) 0 0 0
                                  [mkDevptr 100 false] [mkDevptr 200 false]
                                  [mkDevptr 300 false] [mkDevptr 400 false] empty_world))
  = Some [InfoPlusPlus; InfoDistSumNaN; InfoBadIndex 0;
          InfoDistSumNaN; InfoBadIndex 0; InfoDone].
Proof. split; vm_compute; reflexivity. Qed.


(** ** Import initialisation *)

(** C8, the source at a failing input: 65538 clusters of 65535 features on
    one device, no designated device.  The centroid array has
    [65538 * 65535 = 4295032830] elements; line 146 computes the count in 32
    bits, where it is 65534, so the one copy issued moves 65534 elements
    and the call returns success.  Element 65534 of the device buffer (at
    [2^40]) keeps the word 0 it had, while the caller's array holds 7
    there. *)
Theorem import_copies_wrapped_count :
  65534 < 65538 * 65535 /\
  returned (kmeans_init_centroids (sample_env true 1 lcg (unit_dists 4)) 1
                                  kmcudaInitMethodImport 65538 65535 65538 0 0 [0] (-1) 0 0
                                  (2 ^ 33) [mkDevptr (2 ^ 50) false] [] []
                                  [mkDevptr (2 ^ 40) false] big_centroids_world)
  = Some kmcudaSuccess /\
  option_map w_calls
    (final_world
       (kmeans_init_centroids (sample_env true 1 lcg (unit_dists 4)) 1
                              kmcudaInitMethodImport 65538 65535 65538 0 0 [0] (-1) 0 0
                              (2 ^ 33) [mkDevptr (2 ^ 50) false] [] []
                              [mkDevptr (2 ^ 40) false] big_centroids_world))
  = Some [CudaSetDevice 0;
          CudaMemcpyAsync (2 ^ 40) (2 ^ 33) 65534 cudaMemcpyHostToDevice] /\
  option_map (fun w => (w_mem w (2 ^ 40 + 65533), w_mem w (2 ^ 40 + 65534)))
    (final_world
       (kmeans_init_centroids (sample_env true 1 lcg (unit_dists 4)) 1
                              kmcudaInitMethodImport 65538 65535 65538 0 0 [0] (-1) 0 0
                              (2 ^ 33) [mkDevptr (2 ^ 50) false] [] []
                              [mkDevptr (2 ^ 40) false] big_centroids_world))
  = Some (7, 0) /\
  w_mem big_centroids_world (2 ^ 33 + 65534) = 7.
Proof.
  repeat split; vm_compute; reflexivity.
Qed.

(** *** Import without wrap-around *)

Lemma copy_mem_inside m dst src n k :
  0 <= k < n -> copy_mem m dst src n (dst + k) = m (src + k).
Proof.
  intros Hk. unfold copy_mem.
  replace ((dst <=? dst + k) && (dst + k <? dst + n)) with true by lia.
  f_equal. lia.
Qed.

Lemma copy_mem_outside m dst src n a :
  ~ (dst <= a < dst + n) -> copy_mem m dst src n a = m a.
Proof.
  intros Ha. unfold copy_mem.
  destruct ((dst <=? a) && (a <? dst + n)) eqn:H; [|reflexivity].
  exfalso. apply Ha. lia.
Qed.

Lemma copy_each_cons written dst host n x l m :
  copy_each written dst host n (x :: l) m
  = copy_each written dst host n l
              (if written x then copy_mem m (dst x) host n else m).
Proof. reflexivity. Qed.

(** Copies of one source to buffers that do not overlap: every buffer
    written holds the source, and the source is as it was. *)
Lemma copy_each_content (written : Z -> bool) (dst : Z -> Z) (host n : Z) (l : list Z) :
  NoDup l ->
  (forall x y, In x l -> In y l -> x <> y -> apart (dst x) (dst y) n) ->
  (forall x, In x l -> dst x = host \/ apart (dst x) host n) ->
  forall m,
    (forall x k, In x l -> written x = true -> 0 <= k < n ->
                 copy_each written dst host n l m (dst x + k) = m (host + k)) /\
    (forall k, 0 <= k < n -> copy_each written dst host n l m (host + k) = m (host + k)) /\
    (forall a, (forall x, In x l -> ~ (dst x <= a < dst x + n)) ->
               copy_each written dst host n l m a = m a).
Proof.
  induction l as [|x l IH]; intros Hnd Hap Hhost m.
  - cbn. repeat split; intros; try reflexivity. contradiction.
  - inversion Hnd as [|? ? Hnotin Hnd']; subst.
    assert (Hap' : forall y z, In y l -> In z l -> y <> z -> apart (dst y) (dst z) n).
    { intros y z Hy Hz. apply Hap; right; assumption. }
    assert (Hhost' : forall y, In y l -> dst y = host \/ apart (dst y) host n).
    { intros y Hy. apply Hhost. right. exact Hy. }
    rewrite copy_each_cons.
    set (m1 := if written x then copy_mem m (dst x) host n else m).
    destruct (IH Hnd' Hap' Hhost' m1) as (IH1 & IH2 & IH3).
    assert (Hsrc : forall k, 0 <= k < n -> m1 (host + k) = m (host + k)).
    { intros k Hk. unfold m1. destruct (written x); [|reflexivity].
      destruct (Hhost x (or_introl eq_refl)) as [->|Hx].
      - apply copy_mem_inside. exact Hk.
      - apply copy_mem_outside. unfold apart in Hx. lia. }
    split; [|split].
    + intros y k [<-|Hy] Hw Hk.
      * rewrite IH3.
        -- unfold m1. rewrite Hw. apply copy_mem_inside. exact Hk.
        -- intros z Hz. assert (Hne : x <> z) by (intros ->; contradiction).
           pose proof (Hap x z (or_introl eq_refl) (or_intror Hz) Hne) as Ha.
           unfold apart in Ha. lia.
      * rewrite (IH1 y k Hy Hw Hk). apply Hsrc. exact Hk.
    + intros k Hk. rewrite (IH2 k Hk). apply Hsrc. exact Hk.
    + intros a Ha. rewrite IH3 by (intros z Hz; apply Ha; right; exact Hz).
      unfold m1. destruct (written x); [|reflexivity].
      apply copy_mem_outside. apply Ha. left. reflexivity.
Qed.

(** A loop whose body copies, or does nothing, leaves [copy_each]. *)
Lemma for_each_copies {R} (written : Z -> bool) (dst : Z -> Z) (host n : Z)
  (body : Z -> M R unit) (l : list Z) :
  (forall x w, In x l ->
     exists w', body x w = Val tt w' /\
                w_mem w' = if written x then copy_mem (w_mem w) (dst x) host n
                           else w_mem w) ->
  forall w, exists w',
    for_each l body w = Val tt w' /\ w_mem w' = copy_each written dst host n l (w_mem w).
Proof.
  induction l as [|x l IH]; intros H w; cbn [for_each].
  - exists w. split; reflexivity.
  - destruct (H x w (or_introl eq_refl)) as (w1 & H1 & Hm1).
    destruct (IH (fun y w0 Hy => H y w0 (or_intror Hy)) w1) as (w2 & H2 & Hm2).
    exists w2. rewrite (bind_Val _ _ _ _ _ H1). split; [exact H2|].
    rewrite Hm2, Hm1. reflexivity.
Qed.

(** Lines 148-153: the position of the designated device, or -1. *)
Lemma origin_devi_found E devs device_ptrs (w : world) :
  exists o w',
    FOR_EACH_DEVI_with E (R:=KMCUDAResult) devs (-1) (fun devi origin_devi =>
      dev <- at_ devs devi ;;
      if dev =? device_ptrs then ret devi else ret origin_devi) w
    = Val o w' /\
    w_mem w' = w_mem w /\
    (o = -1 \/ (0 <= o < Z.of_nat (length devs) /\ nth (Z.to_nat o) devs 0 = device_ptrs)).
Proof.
  unfold FOR_EACH_DEVI_with.
  assert (Hgen : forall l o0 w0,
    (forall x, In x l -> 0 <= x < Z.of_nat (length devs)) ->
    (o0 = -1 \/ (0 <= o0 < Z.of_nat (length devs) /\ nth (Z.to_nat o0) devs 0 = device_ptrs)) ->
    exists o w',
      fold_each (R:=KMCUDAResult) l o0
        (fun devi s => dev <- at_ devs devi ;; cudaSetDevice E dev ;;
                       (dev <- at_ devs devi ;;
                        if dev =? device_ptrs then ret devi else ret s)) w0
      = Val o w' /\ w_mem w' = w_mem w0 /\
      (o = -1 \/ (0 <= o < Z.of_nat (length devs) /\ nth (Z.to_nat o) devs 0 = device_ptrs))).
  { induction l as [|x l IH]; intros o0 w0 Hl Ho; cbn [fold_each].
    - exists o0, w0. auto.
    - assert (Hx : 0 <= x < Z.of_nat (length devs)) by (apply Hl; left; reflexivity).
      rewrite (at_ret devs x 0) by exact Hx.
      unfold bind at 1. unfold bind at 1. unfold ret at 1.
      unfold bind at 1. unfold cudaSetDevice, bind, record_call, ret.
      destruct (nth (Z.to_nat x) devs 0 =? device_ptrs) eqn:Heq.
      + edestruct (IH x) as (o & w' & H' & Hm' & Ho'); [| |exists o, w'; split; [exact H'|]].
        * intros y Hy. apply Hl. right. exact Hy.
        * right. split; [exact Hx|]. apply Z.eqb_eq. exact Heq.
        * split; [exact Hm'|exact Ho'].
      + edestruct (IH o0) as (o & w' & H' & Hm' & Ho'); [| |exists o, w'; split; [exact H'|]].
        * intros y Hy. apply Hl. right. exact Hy.
        * exact Ho.
        * split; [exact Hm'|exact Ho']. }
  apply Hgen; [|left; reflexivity].
  intros x Hx. apply in_upto in Hx. exact Hx.
Qed.

(** The part of C8 the source does satisfy: when
    [clusters_size * features_size] is below [2^32], the centroid buffers
    do not overlap and, with a designated device, its entry is the caller's
    array, a call in import mode whose copies succeed returns success and
    leaves the [clusters_size * features_size] elements of the caller's
    array in the centroid buffer of every device. *)
Theorem import_replicates_centroids :
  forall (E : env) (fuel : nat) (samples_size features_size clusters_size : Z)
         (metric : KMCUDADistanceMetric) (seed : Z) (devs : list Z)
         (device_ptrs fp16x2 verbosity host_centroids : Z)
         (samples dists dev_sums centroids : udevptrs) (w : world),
    copies_succeed E ->
    length centroids = length devs ->
    0 <= clusters_size * features_size < 2 ^ 32 ->
    buffers_apart centroids host_centroids (clusters_size * features_size) ->
    (0 <= device_ptrs -> designated_entry_is_host devs device_ptrs centroids host_centroids) ->
    exists w',
      kmeans_init_centroids E fuel kmcudaInitMethodImport samples_size features_size
                            clusters_size metric seed devs device_ptrs fp16x2 verbosity
                            host_centroids samples dists dev_sums centroids w
      = Return kmcudaSuccess w' /\
      forall devi k,
        (devi < length devs)%nat -> 0 <= k < clusters_size * features_size ->
        w_mem w' (dp_get (nth devi centroids (mkDevptr 0 false)) + k)
        = w_mem w (host_centroids + k).
Proof.
  intros E fuel samples_size features_size clusters_size metric seed devs
         device_ptrs fp16x2 verbosity host_centroids samples dists dev_sums centroids w
         Hcopy Hlen Hn [Hap Hhost] Hdes.
  set (n := clusters_size * features_size) in *.
  set (dst := fun devi => dp_get (nth (Z.to_nat devi) centroids (mkDevptr 0 false))).
  assert (Hnd : NoDup (upto (Z.of_nat (length devs)))) by apply upto_NoDup.
  assert (Hap' : forall x y, In x (upto (Z.of_nat (length devs))) ->
                             In y (upto (Z.of_nat (length devs))) -> x <> y ->
                             apart (dst x) (dst y) n).
  { intros x y Hx Hy Hne. apply in_upto in Hx, Hy. apply Hap; lia. }
  assert (Hhost' : forall x, In x (upto (Z.of_nat (length devs))) ->
                             dst x = host_centroids \/ apart (dst x) host_centroids n).
  { intros x Hx. apply in_upto in Hx. apply Hhost. lia. }
  unfold kmeans_init_centroids, init_import.
  unfold bind at 1. unfold srand at 1, set_rng at 1.
  fold n. unfold u32. rewrite (Z.mod_small n) by exact Hn.
  destruct (device_ptrs <? 0) eqn:Hdp.
  - (* host to device, on every device *)
    unfold CUMEMCPY_H2D_ASYNC, FOR_EACH_DEVI.
    match goal with |- context [bind (for_each ?l ?body) _ ?w0] =>
      destruct (for_each_copies (fun _ => true) dst host_centroids n body l) with (w := w0)
        as (w1 & H1 & Hm1)
    end.
    { intros x w0 Hx. apply in_upto in Hx. cbv beta.
      rewrite (at_ret devs x 0) by lia.
      rewrite (at_ret centroids x (mkDevptr 0 false)) by lia.
      unfold cudaSetDevice, record_call, cudaMemcpyAsync, issue_copy, bind, ret.
      cbv beta iota. rewrite Hcopy. cbn [CUCH cuda_ok w_mem]. unfold ret.
      eexists. split; [reflexivity|]. cbn [w_mem]. unfold dst.
      rewrite Z.add_0_r. reflexivity. }
    rewrite (bind_Val _ _ _ _ _ H1).
    unfold bind at 1. unfold INFO at 1, log_line at 1. unfold return_.
    eexists. split; [reflexivity|]. cbn [w_mem].
    intros devi k Hdevi Hk. rewrite Hm1. cbn [w_mem].
    destruct (copy_each_content (fun _ => true) dst host_centroids n _ Hnd Hap' Hhost'
                                (w_mem w)) as (C1 & _ & _).
    specialize (C1 (Z.of_nat devi) k). unfold dst in C1 at 2. rewrite Nat2Z.id in C1.
    apply C1; [apply in_upto; lia|reflexivity|exact Hk].
  - (* peer copies from the designated device *)
    unfold bind at 1. unfold bind at 1.
    match goal with |- context [FOR_EACH_DEVI_with _ _ _ _ ?w0] =>
      destruct (origin_devi_found E devs device_ptrs w0) as (o & w1 & H1 & Hm1 & Ho)
    end.
    rewrite H1. unfold FOR_EACH_DEVI.
    match goal with |- context [for_each ?l ?body ?w0] =>
      destruct (for_each_copies (fun devi => negb (devi =? o)) dst host_centroids n body l)
        with (w := w0) as (w2 & H2 & Hm2)
    end.
    { intros x w0 Hx. apply in_upto in Hx. cbv beta.
      rewrite (at_ret devs x 0) by lia.
      destruct (negb (x =? o)).
      - rewrite (at_ret centroids x (mkDevptr 0 false)) by lia.
        unfold cudaSetDevice, record_call, cudaMemcpyPeerAsync, issue_copy, bind, ret.
        cbv beta iota. rewrite Hcopy. cbn [CUCH cuda_ok w_mem]. unfold ret.
        eexists. split; reflexivity.
      - unfold cudaSetDevice, record_call, bind, ret. cbv beta iota.
        eexists. split; reflexivity. }
    rewrite H2.
    unfold bind at 1. unfold INFO at 1, log_line at 1. unfold return_.
    eexists. split; [reflexivity|]. cbn [w_mem].
    intros devi k Hdevi Hk. rewrite Hm2, Hm1. cbn [w_mem].
    destruct (copy_each_content (fun devi => negb (devi =? o)) dst host_centroids n _
                                Hnd Hap' Hhost' (w_mem w)) as (C1 & C2 & _).
    destruct (Z.of_nat devi =? o) eqn:Hod.
    + apply Z.eqb_eq in Hod.
      destruct Ho as [Ho|[Ho Hnth]]; [lia|].
      assert (Hentry : dp_get (nth devi centroids (mkDevptr 0 false)) = host_centroids).
      { apply Hdes; [lia|exact Hdevi|]. rewrite <- Hod, Nat2Z.id in Hnth. exact Hnth. }
      rewrite Hentry. apply C2. exact Hk.
    + specialize (C1 (Z.of_nat devi) k). unfold dst in C1 at 2. rewrite Nat2Z.id in C1.
      apply C1; [apply in_upto; lia|rewrite Hod; reflexivity|exact Hk].
Qed.

(** Witness: two devices, device 1 designated; the caller's array of
    [3 * 2] elements is at 6000 and is the entry of device 1. *)
Lemma import_replicates_centroids_witness :
  exists w',
    kmeans_init_centroids (sample_env true 2 lcg (unit_dists 4)) 1 kmcudaInitMethodImport
                          4 2 3 0 0 [0; 1] 1 0 0 6000 [] [] []
                          [mkDevptr 5000 false; mkDevptr 6000 true] empty_world
    = Return kmcudaSuccess w' /\
    forall devi k,
      (devi < length [0; 1])%nat -> 0 <= k < 3 * 2 ->
      w_mem w' (dp_get (nth devi [mkDevptr 5000 false; mkDevptr 6000 true]
                            (mkDevptr 0 false)) + k)
      = w_mem empty_world (6000 + k).
Proof.
  apply (import_replicates_centroids
           (sample_env true 2 lcg (unit_dists 4)) 1 4 2 3 0 0 [0; 1] 1 0 0 6000 [] [] []
           [mkDevptr 5000 false; mkDevptr 6000 true] empty_world).
  - intros calls c. reflexivity.
  - reflexivity.
  - lia.
  - split.
    + intros [|[|i]] [|[|j]] Hi Hj Hne; cbn in *; try lia; unfold apart; lia.
    + intros [|[|i]] Hi; cbn in *;
        first [lia | left; reflexivity | right; unfold apart; lia].
  - intros _ [|[|i]] Hi Hnth; cbn in *; first [lia | reflexivity].
Defined.

(** ** The driver: buffer sizes and result collection *)

(** C7, the source at a failing input: 131076 clusters of 65535 features
    with the yinyang fraction 0.5, hence 65538 groups, on one device whose
    partition holds all 131076 samples.  The group centroids take
    [65538 * 65535 = 4295032830] elements; line 335 computes the product in
    32 bits, where it is 65534, and line 336 finds room for it in the passed
    buffer of 196614 elements: the buffers are aliased and no allocation is
    made for the group centroids. *)
Theorem yinyang_alias_on_wrapped_size :
  yy_passed_size 131076 131076 65538 = 196614 /\
  65538 * 65535 > 196614 /\
  yyc_size 65538 65535 = 65534 /\
  yy_reuses_passed 131076 131076 65535 65538 = true /\
  option_map w_calls
    (final_world (alloc_yinyang (sample_env true 1 lcg (unit_dists 4))
                                131076 65535 131076 65538 (131076 * 65535) [0]
                                empty_world))
  = Some [CudaSetDevice 0; CudaMalloc 131076;
          CudaSetDevice 0; CudaMalloc (131076 * 65539);
          CudaSetDevice 0; CudaMalloc (131076 * 65535 + 131076);
          CudaSetDevice 0; CudaMalloc 196614].
Proof.
  repeat split; vm_compute; reflexivity.
Qed.

(** C9, the source at a failing input: two devices installed, the mask
    [0b10] (device 1 alone), no designated device.  The only selected
    device is device 1 and the vectors of buffers have one entry, at
    position 0; line 374 indexes them with the device id 1, outside the
    vector.  With the mask [0b01] the id and the position agree and the
    call ends with the two copies to the host. *)
Theorem collect_indexes_by_device_id :
  returned (setup_devices (sample_env true 2 lcg (unit_dists 4)) 2 (-1) 0 empty_world)
  = Some [1] /\
  kmeans_cuda (sample_env true 2 lcg (unit_dists 4)) 1 kmcudaInitMethodImport
              fzero fzero 0 4 1 2 0 2 (-1) 0 0 1000 2000 3000 empty_world
  = Undefined /\
  returned (kmeans_cuda (sample_env true 2 lcg (unit_dists 4)) 1 kmcudaInitMethodImport
                        fzero fzero 0 4 1 2 0 1 (-1) 0 0 1000 2000 3000 empty_world)
  = Some kmcudaSuccess.
Proof.
  repeat split; vm_compute; reflexivity.
Qed.

(** C10: [normalize_cuda] returns success for every input; it issues no
    runtime call and leaves memory (the samples and the output buffer
    included) and the generator as they were: only the debug line is
    logged. *)
Theorem normalize_cuda_does_nothing :
  forall (samples features_size samples_size device device_ptrs verbosity output : Z)
         (w : world),
    normalize_cuda samples features_size samples_size device device_ptrs verbosity output w
    = Return kmcudaSuccess
             (mkWorld (w_mem w) (w_rng w) (w_calls w) (w_log w ++ [DebugReturnSuccess])).
Proof. reflexivity. Qed.

(** *** Buffer sizes when no 32-bit expression wraps *)

Lemma issues_ret {R A} (a : A) : issues (@ret R A a) [].
Proof. intros w. exists a, w. rewrite app_nil_r. auto. Qed.

Lemma issues_bind {R A B} (c : M R A) (k : A -> M R B) cs1 cs2 :
  issues c cs1 -> (forall a, issues (k a) cs2) -> issues (bind c k) (cs1 ++ cs2).
Proof.
  intros Hc Hk w.
  destruct (Hc w) as (a & w1 & H1 & Hc1). destruct (Hk a w1) as (b & w2 & H2 & Hc2).
  exists b, w2. rewrite (bind_Val _ _ _ _ _ H1). split; [exact H2|].
  rewrite Hc2, Hc1, app_assoc. reflexivity.
Qed.

Lemma issues_fold_each {R A S} (l : list A) (s : S) (body : A -> S -> M R S)
  (f : A -> list call) :
  (forall x s, issues (body x s) (f x)) -> issues (fold_each l s body) (flat_map f l).
Proof.
  intros H. revert s. induction l as [|x l IH]; intros s; cbn [fold_each flat_map].
  - apply issues_ret.
  - apply issues_bind; [apply H|]. intros s'. apply IH.
Qed.

Lemma issues_CUMALLOC E devs dest size :
  mallocs_succeed E -> issues (CUMALLOC E devs dest size) (allocs devs size).
Proof.
  intros Hm. unfold CUMALLOC, allocs. apply issues_fold_each.
  intros dev s w. unfold bind, cudaSetDevice, record_call, ret, bind.
  unfold CUMALLOC_ONE, bind, cudaMalloc. cbn [w_calls].
  destruct (Hm (w_calls w ++ [CudaSetDevice dev]) size) as (a & Ha). rewrite Ha.
  unfold ret. eexists; eexists; split; [reflexivity|].
  cbn [w_calls]. rewrite <- app_assoc. reflexivity.
Qed.

(** The part of C7 the source does satisfy: when neither
    [clusters_size + yy_groups_size] nor [yy_groups_size * features_size]
    reaches [2^32] (and there are no more groups than clusters), the yinyang
    buffers are allocated, on every device,
    with [max_length * (yy_groups_size + 1)],
    [clusters_size * features_size + clusters_size] and
    [max(max_length, clusters_size + yy_groups_size)] elements, and the
    group centroids are allocated exactly when
    [yy_groups_size * features_size] exceeds the size of the passed
    buffer. *)
Theorem yinyang_buffers_without_wrap :
  forall (E : env) (samples_size features_size clusters_size yy_groups_size : Z)
         (devs : list Z),
    1 <= yy_groups_size <= clusters_size -> 0 <= features_size ->
    clusters_size + yy_groups_size < 2 ^ 32 ->
    yy_groups_size * features_size < 2 ^ 32 ->
    clusters_size * features_size + clusters_size < 2 ^ 64 ->
    mallocs_succeed E ->
    let max_length := u32 (max_distribute_length E samples_size (features_size * 4) devs) in
    let passed := Z.max max_length (clusters_size + yy_groups_size) in
    issues (alloc_yinyang E samples_size features_size clusters_size yy_groups_size
                          (clusters_size * features_size) devs)
           (allocs devs clusters_size ++
            allocs devs (max_length * (yy_groups_size + 1)) ++
            allocs devs (clusters_size * features_size + clusters_size) ++
            allocs devs passed ++
            (if yy_groups_size * features_size <=? passed then []
             else allocs devs (yy_groups_size * features_size))).
Proof.
  intros E samples_size features_size clusters_size yy_groups_size devs
         Hyy Hfs Hsum Hprod Hdrift Hm max_length passed.
  assert (Hml : 0 <= max_length < 2 ^ 32) by (apply Z.mod_pos_bound; lia).
  assert (Hb : yyb_size max_length yy_groups_size = max_length * (yy_groups_size + 1)).
  { unfold yyb_size, u64, u32. rewrite (Z.mod_small (yy_groups_size + 1)) by lia.
    apply Z.mod_small. split; [nia|].
    assert (max_length * (yy_groups_size + 1) < 2 ^ 32 * 2 ^ 32) by nia. lia. }
  assert (Hd : yy_drifts_size (clusters_size * features_size) clusters_size
               = clusters_size * features_size + clusters_size).
  { unfold yy_drifts_size, u64. apply Z.mod_small. nia. }
  assert (Hp : yy_passed_size max_length clusters_size yy_groups_size = passed).
  { unfold yy_passed_size, u32. rewrite Z.mod_small by lia. reflexivity. }
  assert (Hc : yyc_size yy_groups_size features_size = yy_groups_size * features_size).
  { unfold yyc_size, u32. apply Z.mod_small. nia. }
  unfold alloc_yinyang. replace (yy_groups_size >=? 1) with true
    by (symmetry; rewrite Z.geb_leb; apply Z.leb_le; lia).
  fold max_length. rewrite Hb, Hd, Hp, Hc.
  apply issues_bind; [apply issues_CUMALLOC; exact Hm|]. intros ayy.
  apply issues_bind; [apply issues_CUMALLOC; exact Hm|]. intros byy.
  apply issues_bind; [apply issues_CUMALLOC; exact Hm|]. intros dyy.
  apply issues_bind; [apply issues_CUMALLOC; exact Hm|]. intros pyy.
  rewrite <- (app_nil_r (if _ <=? _ then _ else _)).
  apply issues_bind; [|intros cyy; apply issues_ret].
  destruct (yy_groups_size * features_size <=? passed).
  - rewrite <- (app_nil_r []). apply issues_bind; [|intros _; apply issues_ret].
    intros w. eexists; eexists; split; [reflexivity|]. cbn. rewrite app_nil_r. reflexivity.
  - apply issues_CUMALLOC. exact Hm.
Qed.

Lemma sample_mallocs_succeed ndebug ndev gen pp :
  mallocs_succeed (sample_env ndebug ndev gen pp).
Proof. intros calls size. eexists. reflexivity. Qed.

(** Witness: 1000 samples of 8 features, 10 clusters in 3 groups, two
    devices: the 24 group-centroid elements fit in the passed buffer. *)
Lemma yinyang_buffers_without_wrap_witness :
  issues (alloc_yinyang (sample_env true 2 lcg (unit_dists 4)) 1000 8 10 3 (10 * 8) [0; 1])
         (allocs [0; 1] 10 ++ allocs [0; 1] (1000 * (3 + 1)) ++
          allocs [0; 1] (10 * 8 + 10) ++ allocs [0; 1] 1000 ++ []).
Proof.
  apply (yinyang_buffers_without_wrap (sample_env true 2 lcg (unit_dists 4))
           1000 8 10 3 [0; 1]); try lia.
  apply sample_mallocs_succeed.
Defined.

(** *** Result collection *)

Lemma emits_issue_copy {R} E c dst src count :
  copies_succeed E -> emits (@issue_copy E R c dst src count) cudaSuccess [c].
Proof.
  intros H w. unfold issue_copy. rewrite H. eexists. split; reflexivity.
Qed.

Lemma emits_SYNC_ALL_DEVS E devs :
  syncs_succeed E ->
  emits (SYNC_ALL_DEVS E devs) tt
        (flat_map (fun dev => [CudaSetDevice dev; CudaDeviceSynchronize]) devs).
Proof.
  intros Hs. unfold SYNC_ALL_DEVS, FOR_EACH_DEV. apply emits_for_each.
  intros dev _ w. unfold bind, cudaSetDevice, record_call, ret, bind, cudaDeviceSynchronize.
  rewrite Hs. cbn [CUCH cuda_ok]. unfold ret.
  eexists. split; [reflexivity|]. cbn [w_calls]. rewrite <- app_assoc. reflexivity.
Qed.

(** The part of C9 the source does satisfy.  With a designated device that
    is not a compute device, the centroids and the assignments are
    peer-copied from the last entry of the buffer vectors, on the last
    selected device, to the designated device, and every selected device
    is then synchronised.  With no designated device, the buffers copied to
    the host are the entries at position [devs.back()]: those of the last
    selected device when its id is also its position. *)
Theorem collect_results_copies :
  forall (E : env) (samples_size centroids_size : Z) (devs : list Z)
         (device_ptrs centroids assignments : Z)
         (device_centroids device_assignments : udevptrs),
    copies_succeed E -> syncs_succeed E ->
    length device_centroids = length devs ->
    length device_assignments = length devs ->
    devs <> [] ->
    (0 <= device_ptrs ->
     emits (collect_results E samples_size centroids_size devs device_ptrs (-1)
                            centroids assignments device_centroids device_assignments)
           tt
           ([CudaMemcpyPeer centroids device_ptrs
               (dp_get (nth (length devs - 1) device_centroids (mkDevptr 0 false)))
               (last devs 0) centroids_size;
             CudaMemcpyPeer assignments device_ptrs
               (dp_get (nth (length devs - 1) device_assignments (mkDevptr 0 false)))
               (last devs 0) samples_size]
            ++ flat_map (fun dev => [CudaSetDevice dev; CudaDeviceSynchronize]) devs)) /\
    (device_ptrs < 0 ->
     0 <= last devs 0 < Z.of_nat (length devs) ->
     emits (collect_results E samples_size centroids_size devs device_ptrs (-1)
                            centroids assignments device_centroids device_assignments)
           tt
           [CudaMemcpy centroids
              (dp_get (nth (Z.to_nat (last devs 0)) device_centroids (mkDevptr 0 false)))
              centroids_size cudaMemcpyDeviceToHost;
            CudaMemcpy assignments
              (dp_get (nth (Z.to_nat (last devs 0)) device_assignments (mkDevptr 0 false)))
              samples_size cudaMemcpyDeviceToHost]).
Proof.
  intros E samples_size centroids_size devs device_ptrs centroids assignments
         device_centroids device_assignments Hcopy Hsync Hc Ha Hdevs.
  assert (Hlen : (0 < length devs)%nat) by (destruct devs; [congruence|cbn; lia]).
  split.
  - intros Hdp. unfold collect_results. cbn [Z.ltb Z.compare].
    replace (device_ptrs <? 0) with false by lia.
    rewrite (at_ret device_centroids _ (mkDevptr 0 false)) by lia.
    rewrite (at_ret device_assignments _ (mkDevptr 0 false)) by lia.
    replace (Z.to_nat (Z.of_nat (length devs) - 1)) with (length devs - 1)%nat by lia.
    eapply emits_eq; [|eapply emits_bind; [apply emits_ret|]].
    2:{ eapply emits_bind; [apply emits_issue_copy; exact Hcopy|].
        cbn [CUCH cuda_ok]. eapply emits_bind; [apply emits_ret|].
        eapply emits_bind; [apply emits_ret|].
        eapply emits_bind; [apply emits_issue_copy; exact Hcopy|].
        cbn [CUCH cuda_ok]. eapply emits_bind; [apply emits_ret|].
        apply emits_SYNC_ALL_DEVS. exact Hsync. }
    reflexivity.
  - intros Hdp Hlast. unfold collect_results. cbn [Z.ltb Z.compare].
    replace (device_ptrs <? 0) with true by lia.
    rewrite (at_ret device_centroids _ (mkDevptr 0 false)) by lia.
    rewrite (at_ret device_assignments _ (mkDevptr 0 false)) by lia.
    eapply emits_eq; [|eapply emits_bind; [apply emits_ret|]].
    2:{ eapply emits_bind; [apply emits_issue_copy; exact Hcopy|].
        cbn [CUCH cuda_ok]. eapply emits_bind; [apply emits_ret|].
        eapply emits_bind; [apply emits_ret|].
        eapply emits_bind; [apply emits_issue_copy; exact Hcopy|].
        cbn [CUCH cuda_ok]. apply emits_ret. }
    reflexivity.
Qed.

(** Witness: devices 0 and 1 of three; once with device 2 designated (the
    peer copies and the synchronisation), once with no designated device
    (the host copies from position 1). *)
Lemma collect_results_copies_witness :
  emits (collect_results (sample_env true 3 lcg (unit_dists 4)) 4 2 [0; 1] 2 (-1) 2000 3000
                         [mkDevptr 100 false; mkDevptr 200 false]
                         [mkDevptr 300 false; mkDevptr 400 false])
        tt
        [CudaMemcpyPeer 2000 2 200 1 2; CudaMemcpyPeer 3000 2 400 1 4;
         CudaSetDevice 0; CudaDeviceSynchronize;
         CudaSetDevice 1; CudaDeviceSynchronize] /\
  emits (collect_results (sample_env true 3 lcg (unit_dists 4)) 4 2 [0; 1] (-1) (-1) 2000 3000
                         [mkDevptr 100 false; mkDevptr 200 false]
                         [mkDevptr 300 false; mkDevptr 400 false])
        tt
        [CudaMemcpy 2000 200 2 cudaMemcpyDeviceToHost;
         CudaMemcpy 3000 400 4 cudaMemcpyDeviceToHost].
Proof.
  split.
  - apply (proj1 (collect_results_copies
                    (sample_env true 3 lcg (unit_dists 4)) 4 2 [0; 1] 2 2000 3000
                    [mkDevptr 100 false; mkDevptr 200 false]
                    [mkDevptr 300 false; mkDevptr 400 false]
                    (fun _ _ => eq_refl) (fun _ => eq_refl) eq_refl eq_refl
                    ltac:(discriminate))).
    lia.
  - apply (proj2 (collect_results_copies
                    (sample_env true 3 lcg (unit_dists 4)) 4 2 [0; 1] (-1) 2000 3000
                    [mkDevptr 100 false; mkDevptr 200 false]
                    [mkDevptr 300 false; mkDevptr 400 false]
                    (fun _ _ => eq_refl) (fun _ => eq_refl) eq_refl eq_refl
                    ltac:(discriminate))).
    + lia.
    + cbn. lia.
Defined.

(** ** Further properties of the search *)

(** For a draw below 1 ([rand()] below [RAND_MAX]) and a distance array of
    [samples_size] entries, whatever they hold (NaN included), the search
    reads inside the array and leaves an index [j <= samples_size]: of the
    two violations line 246 looks for, only [j = 0] can happen. *)
Theorem search_stays_in_range :
  forall (host_dists : list cfloat) (samples_size r rand_max : Z) (dist_sum : cfloat),
    samples_size = Z.of_nat (length host_dists) ->
    0 <= r < rand_max -> 0 < samples_size < 2 ^ 32 ->
    exists j,
      weighted_search host_dists samples_size
                      (FNum (inject_Z r / inject_Z rand_max)) dist_sum = Some j /\
      0 <= j <= samples_size.
Proof.
  intros host_dists samples_size r rand_max dist_sum Hlen Hr Hn.
  apply weighted_search_defined; assumption.
Qed.

Lemma search_stays_in_range_witness :
  exists j,
    weighted_search [FNum 1; FNaN; FNum 3] 3 (FNum (inject_Z 5 / inject_Z 7)) FNaN = Some j /\
    0 <= j <= 3.
Proof.
  apply (search_stays_in_range [FNum 1; FNaN; FNum 3] 3 5 7 FNaN).
  - reflexivity.
  - lia.
  - lia.
Defined.

(** When [rand()] returns [RAND_MAX] the draw is 1 and the approximate rank
    is [samples_size].  With 100 samples or more and a reported sum that
    the distances reach, the search walks backward from
    [j = samples_size], and its first step reads
    [host_dists[samples_size]], one element past the end of the array. *)
Theorem search_reads_past_end_at_draw_one :
  forall (dists : list Q) (rand_max : Z) (dist_sum : Q),
    0 < rand_max ->
    100 <= Z.of_nat (length dists) < 2 ^ 32 ->
    (dist_sum <= prefix_sum dists (length dists))%Q ->
    cfloat_to_u32 (fmul (FNum (inject_Z rand_max / inject_Z rand_max))
                        (FNum (inject_Z (Z.of_nat (length dists)))))
    = Some (Z.of_nat (length dists)) /\
    host_at (map FNum dists) (Z.of_nat (length dists)) = None /\
    weighted_search (map FNum dists) (Z.of_nat (length dists))
                    (FNum (inject_Z rand_max / inject_Z rand_max)) (FNum dist_sum)
    = None.
Proof.
  intros dists rand_max dist_sum Hr Hn Hsum.
  set (n := Z.of_nat (length dists)) in *.
  destruct rand_max as [|p|p]; try lia.
  assert (Hca : cfloat_to_u32 (fmul (FNum (inject_Z (Z.pos p) / inject_Z (Z.pos p)))
                                    (FNum (inject_Z n))) = Some n).
  { unfold cfloat_to_u32, fmul, Qdiv, Qinv, inject_Z.
    cbn [Qnum Qden Qmult]. rewrite ?Pos.mul_1_r, ?Pos.mul_1_l, ?Z.mul_1_r.
    rewrite Z.quot_div_nonneg by lia.
    rewrite Z.mul_comm, Z.div_mul by lia.
    replace (0 <=? n) with true by lia.
    replace (n <=? UINT32_MAX) with true by (unfold UINT32_MAX; lia).
    reflexivity. }
  assert (Hat : host_at (map FNum dists) n = None).
  { unfold n. rewrite host_at_map.
    replace (nth_error dists (length dists)) with (@None Q); [reflexivity|].
    symmetry. apply nth_error_None. lia. }
  split; [exact Hca|]. split; [exact Hat|].
  unfold weighted_search. rewrite Hca.
  replace (n <? 100) with false by (symmetry; apply Z.ltb_ge; lia).
  unfold upto, n. rewrite Nat2Z.id.
  change fzero with (FNum (prefix_sum dists 0)).
  rewrite (partial_sum_prefix dists (length dists) 0) by lia.
  cbn [Nat.add fmul]. unfold flt, Qltb.
  assert (Hle : (inject_Z (Z.pos p) / inject_Z (Z.pos p) * dist_sum
                 <= prefix_sum dists (length dists))%Q).
  { assert (Hone : (inject_Z (Z.pos p) / inject_Z (Z.pos p) == 1)%Q).
    { unfold Qdiv, Qinv, inject_Z, Qeq. cbn. lia. }
    rewrite Hone, Qmult_1_l. exact Hsum. }
  apply Qle_bool_iff in Hle. rewrite Hle. cbn [negb].
  destruct (length dists) as [|k] eqn:Hk; [lia|].
  cbn [walk_back]. unfold fge. rewrite Hle.
  replace (Z.of_nat (S k) >? 1) with true
    by (symmetry; rewrite Z.gtb_ltb; apply Z.ltb_lt; lia).
  cbn [andb].
  unfold n in Hat. rewrite Hat. reflexivity.
Qed.

Lemma search_reads_past_end_at_draw_one_witness :
  cfloat_to_u32 (fmul (FNum (inject_Z 2147483647 / inject_Z 2147483647))
                      (FNum (inject_Z (Z.of_nat (length skewed_dists)))))
  = Some (Z.of_nat (length skewed_dists)) /\
  host_at (map FNum skewed_dists) (Z.of_nat (length skewed_dists)) = None /\
  weighted_search (map FNum skewed_dists) (Z.of_nat (length skewed_dists))
                  (FNum (inject_Z 2147483647 / inject_Z 2147483647)) (FNum 1698)
  = None.
Proof.
  apply (search_reads_past_end_at_draw_one skewed_dists 2147483647 1698).
  - lia.
  - cbn. lia.
  - vm_compute. discriminate.
Defined.

(** ** Further properties of [check_args] *)

(** A NaN tolerance and a NaN yinyang fraction are not rejected: every
    comparison of lines 43 and 46 is false on a NaN.  [kmeans_cuda] then
    converts the NaN products of lines 272 and 273 to [uint32_t], which
    has no defined value. *)
Theorem nan_fractions_pass_check_args :
  forall (E : env) (fuel : nat) (init : KMCUDAInitMethod) (metric : KMCUDADistanceMetric)
         (samples_size features_size clusters_size seed device device_ptrs
          fp16x2 verbosity samples centroids assignments : Z) (w : world),
    ~ sizes_rejected samples_size features_size clusters_size ->
    ~ mask_rejected E device ->
    samples <> 0 -> centroids <> 0 -> assignments <> 0 ->
    ~ fp16_rejected E (negb (fp16x2 =? 0)) ->
    returned (check_args E FNaN FNaN samples_size features_size clusters_size device
                         (negb (fp16x2 =? 0)) verbosity samples centroids assignments w)
    = Some kmcudaSuccess /\
    kmeans_cuda E fuel init FNaN FNaN metric samples_size features_size clusters_size
                seed device device_ptrs fp16x2 verbosity samples centroids assignments w
    = Undefined.
Proof.
  intros E fuel init metric samples_size features_size clusters_size seed device
         device_ptrs fp16x2 verbosity samples centroids assignments w
         Hs Hm Hsa Hce Has Hf.
  assert (Hcheck : forall w0,
    returned (check_args E FNaN FNaN samples_size features_size clusters_size device
                (negb (fp16x2 =? 0)) verbosity samples centroids assignments w0)
    = Some kmcudaSuccess).
  { intros w0. rewrite check_args_cascade.
    unfold sizes_rejected, mask_rejected, fp16_rejected in *.
    destruct ((clusters_size <? 2) || (clusters_size =? UINT32_MAX)) eqn:H1;
      [apply orb_true_iff in H1; destruct H1 as [H1|H1]; bool_to_prop; tauto|].
    destruct (features_size =? 0) eqn:H2; [bool_to_prop; tauto|].
    destruct (samples_size <? clusters_size) eqn:H3; [bool_to_prop; tauto|].
    destruct (device <? 0) eqn:H4; [bool_to_prop; tauto|].
    destruct (device >? shl32 1 (device_count E)) eqn:H5; [bool_to_prop; exfalso; apply Hm; lia|].
    replace (samples =? 0) with false by lia.
    replace (centroids =? 0) with false by lia.
    replace (assignments =? 0) with false by lia.
    unfold fgt, flt, fzero, fone, fhalf. cbn [orb].
    destruct ((CUDA_ARCH E <? 60) && negb (fp16x2 =? 0)) eqn:H6; [|reflexivity].
    bool_to_prop. exfalso. apply Hf. split; [lia|assumption]. }
  split; [apply Hcheck|].
  unfold kmeans_cuda.
  unfold bind at 1. unfold DEBUG at 1, log_line at 1.
  unfold bind at 1. unfold call_fn at 1.
  match goal with |- context [check_args _ _ _ _ _ _ _ _ _ _ _ _ ?w0] =>
    destruct (check_args_outcome E FNaN FNaN samples_size features_size
                clusters_size device (negb (fp16x2 =? 0)) verbosity
                samples centroids assignments w0) as (r & w1 & H1 & Hr & _)
  end.
  rewrite H1. pose proof (Hcheck w) as Hc. rewrite Hr in Hc. injection Hc as ->.
  reflexivity.
Qed.

Lemma nan_fractions_pass_check_args_witness :
  returned (check_args (sample_env true 1 lcg (unit_dists 4)) FNaN FNaN 4 1 2 1
                       (negb (0 =? 0)) 0 1000 2000 3000 empty_world)
  = Some kmcudaSuccess /\
  kmeans_cuda (sample_env true 1 lcg (unit_dists 4)) 1 kmcudaInitMethodRandom FNaN FNaN 0
              4 1 2 0 1 (-1) 0 0 1000 2000 3000 empty_world
  = Undefined.
Proof.
  apply (nan_fractions_pass_check_args (sample_env true 1 lcg (unit_dists 4)) 1
           kmcudaInitMethodRandom 0 4 1 2 0 1 (-1) 0 0 1000 2000 3000 empty_world).
  - unfold sizes_rejected, UINT32_MAX. lia.
  - unfold mask_rejected. cbn. lia.
  - lia.
  - lia.
  - lia.
  - unfold fp16_rejected. cbn. intros [_ H]. discriminate.
Defined.

(** ** [print_memory_stats] *)

Lemma print_memory_stats_loop E devs :
  mem_info_succeeds E ->
  forall w, exists w',
    FOR_EACH_DEV E (R:=KMCUDAResult) devs (fun dev =>
      st <- cudaMemGetInfo E ;;
      if negb (cuda_ok st) then return_ kmcudaRuntimeError
      else printf (PrintMemoryStats dev)) w = Val tt w' /\
    w_log w' = w_log w ++ map PrintMemoryStats devs /\
    w_calls w' = w_calls w ++ flat_map (fun dev => [CudaSetDevice dev; CudaMemGetInfo]) devs /\
    w_mem w' = w_mem w /\ w_rng w' = w_rng w.
Proof.
  intros Hok. unfold FOR_EACH_DEV.
  induction devs as [|dev devs IH]; intros w; cbn [for_each map flat_map].
  - exists w. rewrite !app_nil_r. auto.
  - unfold bind at 1. unfold bind at 1.
    unfold cudaSetDevice, record_call, bind, ret. cbv beta iota.
    unfold cudaMemGetInfo. rewrite Hok. cbn [cuda_ok negb w_calls w_mem w_rng w_log].
    unfold printf, log_line. cbn [w_calls w_mem w_rng w_log].
    match goal with |- context [for_each devs ?body ?w0] =>
      destruct (IH w0) as (w' & H' & Hl & Hc & Hm & Hr)
    end.
    exists w'. split; [exact H'|]. cbn [w_calls w_mem w_rng w_log] in *.
    rewrite Hl, Hc, <- !app_assoc. auto.
Qed.

(** [print_memory_stats] queries every device in order.  When every query
    succeeds it prints one line per device and returns success; when the
    query fails it returns RuntimeError at the first device, printing
    nothing.  Either way memory is untouched. *)
Theorem print_memory_stats_lines :
  forall (E : env) (devs : list Z) (w : world),
    (mem_info_succeeds E ->
     exists w',
       print_memory_stats E devs w = Return kmcudaSuccess w' /\
       w_log w' = w_log w ++ map PrintMemoryStats devs /\
       w_calls w' = w_calls w ++
                    flat_map (fun dev => [CudaSetDevice dev; CudaMemGetInfo]) devs /\
       w_mem w' = w_mem w) /\
    (mem_info_fails E -> devs <> [] ->
     exists w',
       print_memory_stats E devs w = Return kmcudaRuntimeError w' /\
       w_log w' = w_log w /\
       w_calls w' = w_calls w ++ [CudaSetDevice (hd 0 devs); CudaMemGetInfo] /\
       w_mem w' = w_mem w).
Proof.
  intros E devs w. split.
  - intros Hok. unfold print_memory_stats.
    destruct (print_memory_stats_loop E devs Hok w) as (w' & H' & Hl & Hc & Hm & _).
    rewrite (bind_Val _ _ _ _ _ H'). unfold return_. exists w'. auto.
  - intros Hfail Hdevs. destruct devs as [|dev devs]; [congruence|].
    unfold print_memory_stats, FOR_EACH_DEV. cbn [for_each hd].
    unfold cudaSetDevice, record_call, cudaMemGetInfo, bind, ret. cbv beta iota.
    rewrite Hfail. cbn [negb]. unfold return_.
    eexists. split; [reflexivity|]. cbn [w_log w_calls w_mem].
    rewrite <- app_assoc. auto.
Qed.

Lemma print_memory_stats_lines_witness :
  (exists w',
     print_memory_stats (sample_env true 2 lcg (unit_dists 4)) [0; 1] empty_world
     = Return kmcudaSuccess w' /\
     w_log w' = w_log empty_world ++ map PrintMemoryStats [0; 1] /\
     w_calls w' = w_calls empty_world ++
                  flat_map (fun dev => [CudaSetDevice dev; CudaMemGetInfo]) [0; 1] /\
     w_mem w' = w_mem empty_world) /\
  (exists w',
     print_memory_stats
       (with_mem_get_info_status (sample_env true 2 lcg (unit_dists 4))
                                 (fun _ => cudaErrorOther)) [0; 1] empty_world
     = Return kmcudaRuntimeError w' /\
     w_log w' = w_log empty_world /\
     w_calls w' = w_calls empty_world ++ [CudaSetDevice (hd 0 [0; 1]); CudaMemGetInfo] /\
     w_mem w' = w_mem empty_world).
Proof.
  split.
  - apply (print_memory_stats_lines (sample_env true 2 lcg (unit_dists 4)) [0; 1] empty_world).
    intros calls. reflexivity.
  - apply (print_memory_stats_lines
             (with_mem_get_info_status (sample_env true 2 lcg (unit_dists 4))
                                       (fun _ => cudaErrorOther)) [0; 1] empty_world).
    + intros calls. reflexivity.
    + discriminate.
Defined.

(** ** Failures during centroid initialisation *)

Lemma upto_cons (n : Z) : 0 < n -> upto n = 0 :: map (fun k => k + 1) (upto (n - 1)).
Proof.
  intros Hn. rewrite <- (Z2Nat.id n) at 1 by lia.
  replace (Z.to_nat n) with (S (Z.to_nat (n - 1))) by lia.
  rewrite upto_succ. rewrite Z2Nat.id by lia. reflexivity.
Qed.

Lemma nonempty_length {A} (l : list A) : l <> [] -> 0 < Z.of_nat (length l).
Proof. destruct l; [congruence|cbn; lia]. Qed.

Lemma import_copy_fails E samples_size features_size clusters_size devs device_ptrs
      host_centroids centroids w :
  copies_fail E -> devs <> [] -> length centroids = length devs -> device_ptrs < 0 ->
  exists w',
    init_import E samples_size features_size clusters_size devs device_ptrs
                host_centroids centroids w = Return kmcudaMemoryCopyError w' /\
    w_mem w' = w_mem w.
Proof.
  intros Hfail Hdevs Hlen Hdp. pose proof (nonempty_length devs Hdevs) as Hpos.
  unfold init_import. replace (device_ptrs <? 0) with true by lia.
  unfold CUMEMCPY_H2D_ASYNC, FOR_EACH_DEVI.
  rewrite (upto_cons (Z.of_nat (length devs))) by exact Hpos. cbn [for_each].
  rewrite (at_ret devs 0 0) by lia.
  rewrite (at_ret centroids 0 (mkDevptr 0 false)) by lia.
  unfold cudaSetDevice, record_call, cudaMemcpyAsync, issue_copy, CUCH, bind, ret.
  cbv beta iota. rewrite !Hfail. unfold return_.
  eexists. split; reflexivity.
Qed.

Lemma random_copy_fails E samples_size features_size clusters_size devs samples centroids w :
  copies_fail E -> devs <> [] ->
  length samples = length devs -> length centroids = length devs ->
  1 <= clusters_size <= samples_size ->
  exists w',
    init_random E samples_size features_size clusters_size devs samples centroids w
    = Return kmcudaMemoryCopyError w' /\
    w_mem w' = w_mem w.
Proof.
  intros Hfail Hdevs Hs Hc Hk. pose proof (nonempty_length devs Hdevs) as Hpos.
  unfold init_random.
  unfold bind at 1. unfold INFO at 1, log_line at 1.
  unfold bind at 1. rewrite random_shuffle_run. cbn [w_mem w_rng w_calls w_log].
  fold (shuffled E (w_rng w) samples_size).
  destruct (shuffled_perm E (w_rng w) samples_size) as [_ Hlen].
  unfold bind at 1. unfold DEBUG at 1, log_line at 1. cbn [w_mem w_rng w_calls w_log].
  unfold FOR_EACH_DEVI.
  rewrite (upto_cons (Z.of_nat (length devs))) by exact Hpos. cbn [for_each].
  rewrite (upto_cons clusters_size) by lia. cbn [for_each].
  rewrite (at_ret devs 0 0) by lia.
  rewrite (at_ret centroids 0 (mkDevptr 0 false)) by lia.
  rewrite (at_ret samples 0 (mkDevptr 0 false)) by lia.
  rewrite (at_ret (shuffled E (w_rng w) samples_size) 0 0) by lia.
  unfold cudaSetDevice, record_call, cudaMemcpyAsync, issue_copy, CUCH, bind, ret.
  cbv beta iota. rewrite !Hfail. unfold return_.
  eexists. split; reflexivity.
Qed.

Lemma plus_plus_copy_fails E fuel samples_size features_size clusters_size metric devs
      fp16x2 verbosity samples dists dev_sums centroids w :
  copies_fail E -> devs <> [] -> length samples = length devs ->
  fuel <> 0%nat -> samples_size <> 0 ->
  exists w',
    init_plus_plus E fuel samples_size features_size clusters_size metric devs
                   fp16x2 verbosity samples dists dev_sums centroids w
    = Return kmcudaMemoryCopyError w' /\
    w_mem w' = w_mem w.
Proof.
  intros Hfail Hdevs Hs Hfuel Hn. pose proof (nonempty_length devs Hdevs) as Hpos.
  destruct fuel as [|fuel]; [congruence|].
  unfold init_plus_plus.
  unfold bind at 1. unfold INFO at 1, log_line at 1.
  unfold bind at 1. cbn [probe_sample].
  change (word_is_nan NAN_word) with true. cbv iota.
  replace (samples_size =? 0) with false by lia.
  rewrite (at_ret devs 0 0) by lia.
  rewrite (at_ret samples 0 (mkDevptr 0 false)) by lia.
  unfold rand, cudaSetDevice, record_call, cudaMemcpyToLocal, CUCH, bind, ret.
  cbv beta iota. cbn [w_rng w_mem w_calls w_log].
  destruct (rand_gen E (w_rng w)) as [r state']. cbv beta iota.
  cbn [w_rng w_mem w_calls w_log]. rewrite !Hfail. unfold return_.
  eexists. split; reflexivity.
Qed.

(** A copy that fails is fatal and nothing has been written: with no
    designated device and at least one device, when the runtime refuses
    every copy, [kmeans_init_centroids] returns MemoryCopyError in each of
    its three modes and memory is as it was. *)
Theorem init_copy_failure_is_fatal :
  forall (E : env) (fuel : nat) (method : KMCUDAInitMethod)
         (samples_size features_size clusters_size : Z)
         (metric : KMCUDADistanceMetric) (seed : Z) (devs : list Z)
         (device_ptrs fp16x2 verbosity host_centroids : Z)
         (samples dists dev_sums centroids : udevptrs) (w : world),
    copies_fail E -> devs <> [] ->
    length samples = length devs -> length centroids = length devs ->
    device_ptrs < 0 -> 1 <= clusters_size <= samples_size -> fuel <> 0%nat ->
    exists w',
      kmeans_init_centroids E fuel method samples_size features_size clusters_size
                            metric seed devs device_ptrs fp16x2 verbosity host_centroids
                            samples dists dev_sums centroids w
      = Return kmcudaMemoryCopyError w' /\
      w_mem w' = w_mem w.
Proof.
  intros E fuel method samples_size features_size clusters_size metric seed devs
         device_ptrs fp16x2 verbosity host_centroids samples dists dev_sums centroids w
         Hfail Hdevs Hs Hc Hdp Hk Hfuel.
  unfold kmeans_init_centroids.
  unfold bind at 1. unfold srand at 1, set_rng at 1.
  unfold bind at 1.
  set (w0 := mkWorld (w_mem w) seed (w_calls w) (w_log w)).
  destruct method.
  - destruct (random_copy_fails E samples_size features_size clusters_size devs
                samples centroids w0 Hfail Hdevs Hs Hc Hk) as (w' & H' & Hm').
    unfold bind at 1. rewrite H'. exists w'. split; [reflexivity|exact Hm'].
  - destruct (plus_plus_copy_fails E fuel samples_size features_size clusters_size metric
                devs fp16x2 verbosity samples dists dev_sums centroids w0
                Hfail Hdevs Hs Hfuel ltac:(lia)) as (w' & H' & Hm').
    rewrite H'. exists w'. split; [reflexivity|exact Hm'].
  - destruct (import_copy_fails E samples_size features_size clusters_size devs device_ptrs
                host_centroids centroids w0 Hfail Hdevs Hc Hdp) as (w' & H' & Hm').
    rewrite H'. exists w'. split; [reflexivity|exact Hm'].
Qed.

Lemma init_copy_failure_is_fatal_witness :
  exists w',
    kmeans_init_centroids
      (with_memcpy_status (sample_env true 1 lcg (unit_dists 4)) (fun _ _ => cudaErrorOther))
      1 kmcudaInitMethodRandom 4 2 3 0 7 [0] (-1) 0 0 0
      [mkDevptr 100 false] [] [] [mkDevptr 300 false] empty_world
    = Return kmcudaMemoryCopyError w' /\
    w_mem w' = w_mem empty_world.
Proof.
  apply (init_copy_failure_is_fatal
           (with_memcpy_status (sample_env true 1 lcg (unit_dists 4))
                               (fun _ _ => cudaErrorOther))
           1 kmcudaInitMethodRandom 4 2 3 0 7 [0] (-1) 0 0 0
           [mkDevptr 100 false] [] [] [mkDevptr 300 false] empty_world).
  - intros calls c. reflexivity.
  - discriminate.
  - reflexivity.
  - reflexivity.
  - lia.
  - lia.
  - discriminate.
Defined.

(** A failure of the distance kernel is returned as it is: when the kernel
    answers a code other than success, k-means++ initialisation returns
    that code from its first iteration, after the debug line of line
    215. *)
Theorem plus_plus_kernel_failure_is_returned :
  forall (E : env) (fuel : nat) (r : KMCUDAResult)
         (samples_size features_size clusters_size : Z)
         (metric : KMCUDADistanceMetric) (seed : Z) (devs : list Z)
         (device_ptrs fp16x2 verbosity host_centroids : Z)
         (samples dists dev_sums centroids : udevptrs) (w : world),
    kernel_answers E r -> r <> kmcudaSuccess ->
    copies_succeed E -> 0 < samples_size -> 2 <= clusters_size ->
    fuel <> 0%nat -> devs <> [] ->
    length samples = length devs -> length centroids = length devs ->
    length dists = length devs -> length dev_sums = length devs ->
    first_probe_is_number E seed samples_size features_size samples (w_mem w) ->
    exists w',
      kmeans_init_centroids E fuel kmcudaInitMethodPlusPlus samples_size features_size
                            clusters_size metric seed devs device_ptrs fp16x2 verbosity
                            host_centroids samples dists dev_sums centroids w
      = Return r w' /\
      In DebugPlusPlusFailed (w_log w').
Proof.
  intros E fuel r samples_size features_size clusters_size metric seed devs
         device_ptrs fp16x2 verbosity host_centroids samples dists dev_sums centroids w
         Hker Hr Hcopy Hn Hk Hfuel Hdevs Hs Hc Hd Hsum Hprobe.
  destruct fuel as [|fuel]; [congruence|].
  unfold kmeans_init_centroids.
  unfold bind at 1. unfold srand at 1, set_rng at 1.
  unfold bind at 1. unfold init_plus_plus.
  unfold bind at 1. unfold INFO at 1, log_line at 1.
  unfold bind at 1.
  assert (Hprobe' : forall w0 : world,
            w_mem w0 = w_mem w -> w_rng w0 = seed ->
            exists a w1, probe_sample E (S fuel) samples_size features_size devs samples
                                      NAN_word 0 w0 = Val a w1).
  { intros w0 Hm0 Hr0. cbn [probe_sample].
    change (word_is_nan NAN_word) with true. cbv iota.
    pose proof (nonempty_length devs Hdevs) as Hpos.
    replace (samples_size =? 0) with false by lia.
    rewrite (at_ret devs 0 0) by lia.
    rewrite (at_ret samples 0 (mkDevptr 0 false)) by lia.
    unfold rand, cudaSetDevice, record_call, cudaMemcpyToLocal, CUCH, bind, ret.
    cbv beta iota. rewrite Hr0, Hm0.
    unfold first_probe_is_number in Hprobe.
    destruct (rand_gen E seed) as [v state']. cbv beta iota.
    cbn [w_rng w_mem w_calls w_log fst] in *. rewrite Hcopy. cbn [cuda_ok].
    change (Z.to_nat 0) with 0%nat.
    destruct fuel; cbn [probe_sample]; rewrite Hprobe; unfold ret;
      eexists; eexists; reflexivity. }
  match goal with |- context [probe_sample _ _ _ _ _ _ _ _ ?w0] =>
    destruct (Hprobe' w0 eq_refl eq_refl) as (off & w1 & H1)
  end.
  rewrite H1.
  destruct (falls_through_D2D E devs centroids 0 samples off features_size
              Hcopy Hc Hs w1) as ([] & w2 & H2 & _).
  rewrite (bind_Val _ _ _ _ _ H2).
  set (dump := when (verbosity >? 2) _).
  assert (Hdump : falls_through (R:=KMCUDAResult) dump).
  { apply falls_through_when. apply falls_through_bind; [apply falls_through_log|].
    intros _. apply falls_through_FOR_EACH_DEVI. intros devi Hdevi.
    rewrite (at_ret devs devi 0) by lia.
    rewrite (at_ret samples devi (mkDevptr 0 false)) by lia.
    rewrite (at_ret centroids devi (mkDevptr 0 false)) by lia.
    rewrite (at_ret dists devi (mkDevptr 0 false)) by lia.
    rewrite (at_ret dev_sums devi (mkDevptr 0 false)) by lia.
    repeat (apply falls_through_bind; [apply falls_through_ret|]; intros ?).
    apply falls_through_log. }
  destruct (Hdump w2) as ([] & w3 & H3 & _).
  rewrite (bind_Val _ _ _ _ _ H3).
  rewrite (upto_cons (clusters_size - 1)) by lia. cbn [map for_each].
  unfold bind at 1. unfold bind at 1. unfold plus_plus_step.
  set (progress := when _ (printf (PrintStep (0 + 1)))).
  assert (Hp : falls_through (R:=KMCUDAResult) progress).
  { apply falls_through_when. apply falls_through_log. }
  destruct (Hp w3) as ([] & w4 & H4 & _).
  rewrite (bind_Val _ _ _ _ _ H4).
  unfold bind at 1. unfold get_world at 1.
  pose proof (Hker samples_size features_size (0 + 1) metric devs fp16x2 verbosity
                   samples centroids dists dev_sums (w_mem w4)) as Hres.
  destruct (kmeans_cuda_plus_plus E samples_size features_size (0 + 1) metric devs fp16x2
              verbosity samples centroids dists dev_sums (w_mem w4))
    as [[[res host_dists] dist_sum] m].
  cbn [fst] in Hres. subst res.
  unfold bind at 1. unfold set_mem at 1.
  unfold bind at 1. unfold RETERR at 1.
  destruct r; try congruence; cbn [is_success];
    unfold bind, DEBUG, log_line, return_; cbn [w_log];
    (eexists; split; [reflexivity|]; cbn [w_log]; apply in_or_app; right; left; reflexivity).
Qed.

Lemma plus_plus_kernel_failure_is_returned_witness :
  exists w',
    kmeans_init_centroids (sample_env true 1 lcg failing_dists) 1
                          kmcudaInitMethodPlusPlus 4 1 3 0 1 [0] (-1) 0 0 0
                          [mkDevptr 100 false] [mkDevptr 200 false]
                          [mkDevptr 300 false] [mkDevptr 400 false] empty_world
    = Return kmcudaRuntimeError w' /\
    In DebugPlusPlusFailed (w_log w').
Proof.
  apply (plus_plus_kernel_failure_is_returned
           (sample_env true 1 lcg failing_dists) 1 kmcudaRuntimeError 4 1 3 0 1 [0] (-1) 0 0 0
           [mkDevptr 100 false] [mkDevptr 200 false]
           [mkDevptr 300 false] [mkDevptr 400 false] empty_world).
  - intros ss fs i metric devs fp verb s c d ds m. reflexivity.
  - discriminate.
  - intros calls c. reflexivity.
  - lia.
  - lia.
  - discriminate.
  - discriminate.
  - reflexivity.
  - reflexivity.
  - reflexivity.
  - reflexivity.
  - reflexivity.
Defined.

Lemma probe_sample_never_ends E samples_size features_size devs samples :
  copies_succeed E -> devs <> [] -> length samples = length devs -> samples_size <> 0 ->
  forall fuel smoke first_offset w,
    word_is_nan smoke = true ->
    (forall a, word_is_nan (w_mem w a) = true) ->
    probe_sample E fuel samples_size features_size devs samples smoke first_offset w
    = Diverge.
Proof.
  intros Hcopy Hdevs Hs Hn. pose proof (nonempty_length devs Hdevs) as Hpos.
  induction fuel as [|fuel IH]; intros smoke off w Hsmoke Hmem; cbn [probe_sample];
    rewrite Hsmoke; [reflexivity|].
  replace (samples_size =? 0) with false by lia.
  rewrite (at_ret devs 0 0) by lia.
  rewrite (at_ret samples 0 (mkDevptr 0 false)) by lia.
  unfold bind at 1. unfold rand at 1.
  destruct (rand_gen E (w_rng w)) as [r state'].
  unfold bind at 1. unfold ret at 1.
  unfold bind at 1. unfold cudaSetDevice, record_call, bind, ret. cbv beta iota.
  unfold cudaMemcpyToLocal. cbv beta iota. rewrite Hcopy. cbn [CUCH cuda_ok w_mem].
  unfold ret. apply IH; [apply Hmem|exact Hmem].
Qed.

(** When every word of memory is a NaN (every sample probed reads as NaN)
    and the copies succeed, the probe loop of lines 188-193 never finds a
    number: whatever the number of probes allowed, k-means++
    initialisation does not return. *)
Theorem plus_plus_hangs_on_nan_samples :
  forall (E : env) (fuel : nat) (samples_size features_size clusters_size : Z)
         (metric : KMCUDADistanceMetric) (seed : Z) (devs : list Z)
         (device_ptrs fp16x2 verbosity host_centroids : Z)
         (samples dists dev_sums centroids : udevptrs) (w : world),
    copies_succeed E -> devs <> [] -> length samples = length devs ->
    samples_size <> 0 ->
    (forall a, word_is_nan (w_mem w a) = true) ->
    kmeans_init_centroids E fuel kmcudaInitMethodPlusPlus samples_size features_size
                          clusters_size metric seed devs device_ptrs fp16x2 verbosity
                          host_centroids samples dists dev_sums centroids w
    = Diverge.
Proof.
  intros E fuel samples_size features_size clusters_size metric seed devs
         device_ptrs fp16x2 verbosity host_centroids samples dists dev_sums centroids w
         Hcopy Hdevs Hs Hn Hmem.
  unfold kmeans_init_centroids.
  unfold bind at 1. unfold srand at 1, set_rng at 1.
  unfold bind at 1. unfold init_plus_plus.
  unfold bind at 1. unfold INFO at 1, log_line at 1.
  unfold bind at 1.
  rewrite (probe_sample_never_ends E samples_size features_size devs samples
             Hcopy Hdevs Hs Hn); [reflexivity|reflexivity|exact Hmem].
Qed.

Lemma plus_plus_hangs_on_nan_samples_witness :
  kmeans_init_centroids (sample_env true 1 lcg (unit_dists 4)) 1000
                        kmcudaInitMethodPlusPlus 4 1 3 0 1 [0] (-1) 0 0 0
                        [mkDevptr 100 false] [mkDevptr 200 false]
                        [mkDevptr 300 false] [mkDevptr 400 false] nan_world
  = Diverge.
Proof.
  apply (plus_plus_hangs_on_nan_samples
           (sample_env true 1 lcg (unit_dists 4)) 1000 4 1 3 0 1 [0] (-1) 0 0 0
           [mkDevptr 100 false] [mkDevptr 200 false]
           [mkDevptr 300 false] [mkDevptr 400 false] nan_world).
  - intros calls c. reflexivity.
  - discriminate.
  - reflexivity.
  - lia.
  - intros a. reflexivity.
Defined.

(** ** The internal checks of k-means++ initialisation (lines 216-219 and 246-249) *)

Section PlusPlusChecks.

Variable E : env.
Variables (samples_size features_size clusters_size : Z).
Variable metric : KMCUDADistanceMetric.
Variable devs : list Z.
Variables (fp16x2 verbosity : Z).
Variables (samples dists dev_sums centroids : udevptrs).

Hypothesis copies_ok : copies_succeed E.
Hypothesis kernel_ok : kernel_fills E samples_size.
Hypothesis rand_ok : rand_in_range E.
Hypothesis draw_one_ok :
  draw_one_search_defined E samples_size features_size metric devs fp16x2 verbosity
                          samples dists dev_sums centroids.
Hypothesis samples_size_range : 0 < samples_size < 2 ^ 32.
Hypothesis samples_per_device : length samples = length devs.
Hypothesis centroids_per_device : length centroids = length devs.
Hypothesis dists_per_device : length dists = length devs.
Hypothesis sums_per_device : length dev_sums = length devs.

(** The search of every iteration leaves an index: for a draw below 1 it
    stays inside [host_dists], and for a draw of 1 this is assumed. *)
Lemma step_search_defined (i : Z) (w : world) :
  exists j,
    step_index E samples_size features_size metric devs fp16x2 verbosity
               samples dists dev_sums centroids i w = Some j.
Proof.
  destruct rand_ok as [Hmax Hr].
  destruct (Z.eq_dec (fst (rand_gen E (w_rng w))) (RAND_MAX E)) as [Heq|Hne].
  - pose proof (draw_one_ok i w Heq) as Hd.
    destruct (step_index E samples_size features_size metric devs fp16x2 verbosity
                         samples dists dev_sums centroids i w) as [j|];
      [exists j; reflexivity | congruence].
  - unfold step_index.
    pose proof (kernel_ok features_size i metric devs fp16x2 verbosity
                          samples centroids dists dev_sums (w_mem w)) as Hk.
    destruct (kmeans_cuda_plus_plus E samples_size features_size i metric devs fp16x2
                verbosity samples centroids dists dev_sums (w_mem w))
      as [[[res host_dists] dist_sum] m].
    destruct Hk as [_ Hlen]. specialize (Hr (w_rng w)).
    destruct (weighted_search_defined host_dists samples_size
                (fst (rand_gen E (w_rng w))) (RAND_MAX E) dist_sum
                ltac:(lia) ltac:(lia) samples_size_range) as (j & Hj & _).
    exists j. exact Hj.
Qed.

Lemma assert_release (c : bool) :
  NDEBUG E = true -> @assert E KMCUDAResult c = ret tt.
Proof. intros H. unfold assert. rewrite H. reflexivity. Qed.

Lemma assert_debug :
  NDEBUG E = false -> @assert E KMCUDAResult false = fun w => Aborted w.
Proof. intros H. unfold assert. rewrite H. reflexivity. Qed.

(** With assertions compiled out, an iteration falls through to the next
    one, and it logs a NaN sum and an index out of range. *)
Lemma plus_plus_step_continues (i : Z) (w : world) :
  NDEBUG E = true ->
  exists w',
    plus_plus_step E samples_size features_size clusters_size metric devs fp16x2 verbosity
                   samples dists dev_sums centroids i w = Val tt w' /\
    (forall m, In m (w_log w) -> In m (w_log w')) /\
    (step_dist_sum E samples_size features_size metric devs fp16x2 verbosity
                   samples dists dev_sums centroids i w = FNaN ->
     In InfoDistSumNaN (w_log w')) /\
    (forall j,
        step_index E samples_size features_size metric devs fp16x2 verbosity
                   samples dists dev_sums centroids i w = Some j ->
        j = 0 \/ j > samples_size ->
        In (InfoBadIndex j) (w_log w')).
Proof.
  intros release_build.
  destruct (step_search_defined i w) as (j & Hj). revert Hj.
  unfold plus_plus_step, step_dist_sum, step_index.
  set (progress := when _ (printf (PrintStep i))).
  assert (Hp : falls_through (R:=KMCUDAResult) progress).
  { apply falls_through_when. apply falls_through_log. }
  destruct (Hp w) as ([] & w1 & H1 & L1).
  assert (Hmem1 : w_mem w1 = w_mem w /\ w_rng w1 = w_rng w).
  { unfold progress, when in H1.
    destruct ((verbosity >? 1) || _) in H1;
      unfold printf, log_line, ret in H1; inversion H1; auto. }
  destruct Hmem1 as [Hmem1 Hrng1].
  rewrite (bind_Val _ _ _ _ _ H1).
  unfold bind at 1. unfold get_world at 1. rewrite Hmem1.
  pose proof (kernel_ok features_size i metric devs fp16x2 verbosity
                        samples centroids dists dev_sums (w_mem w)) as Hk.
  destruct (kmeans_cuda_plus_plus E samples_size features_size i metric devs fp16x2
              verbosity samples centroids dists dev_sums (w_mem w))
    as [[[res host_dists] dist_sum] m].
  destruct Hk as [-> Hlen]. intros Hj.
  unfold bind at 1. unfold set_mem at 1.
  unfold bind at 1. unfold RETERR at 1. cbn [is_success]. unfold ret at 1.
  cbn [w_mem w_rng w_calls w_log].
  set (nan_branch := when (fne_self dist_sum) _).
  assert (Hnan : exists w2,
             nan_branch (mkWorld m (w_rng w1) (w_calls w1) (w_log w1)) = Val tt w2 /\
             w_rng w2 = w_rng w /\
             (forall x, In x (w_log w1) -> In x (w_log w2)) /\
             (dist_sum = FNaN -> In InfoDistSumNaN (w_log w2))).
  { unfold nan_branch. rewrite (assert_release _ release_build).
    destruct dist_sum; cbn [fne_self when].
    - eexists. split; [reflexivity|]. cbn. split; [exact Hrng1|]. split.
      + intros x Hx. apply in_or_app. left. exact Hx.
      + intros _. apply in_or_app. right. left. reflexivity.
    - eexists. split; [reflexivity|]. cbn. split; [exact Hrng1|]. split; [auto|discriminate]. }
  destruct Hnan as (w2 & H2 & Hrng2 & L2 & N2).
  rewrite (bind_Val _ _ _ _ _ H2).
  unfold bind at 1. unfold rand at 1. rewrite Hrng2.
  destruct (rand_gen E (w_rng w)) as [r state'] eqn:Hgen.
  cbn [fst] in Hj. rewrite Hj.
  set (bad_branch := when ((j =? 0) || (j >? samples_size)) _).
  set (w3 := mkWorld (w_mem w2) state' (w_calls w2) (w_log w2)).
  assert (Hbad : exists w4,
             bad_branch w3 = Val tt w4 /\
             (forall x, In x (w_log w2) -> In x (w_log w4)) /\
             (j = 0 \/ j > samples_size -> In (InfoBadIndex j) (w_log w4))).
  { unfold bad_branch. rewrite (assert_release _ release_build).
    destruct ((j =? 0) || (j >? samples_size)) eqn:Hb; cbn [when].
    - eexists. split; [reflexivity|]. cbn. split.
      + intros x Hx. apply in_or_app. left. exact Hx.
      + intros _. apply in_or_app. right. left. reflexivity.
    - eexists. split; [reflexivity|]. split; [auto|].
      intros Hv. bool_to_prop. lia. }
  destruct Hbad as (w4 & H4 & L4 & B4).
  rewrite (bind_Val _ _ _ _ _ H4).
  destruct (falls_through_D2D E devs centroids (u32 (i * features_size)) samples
              (u32 (u32 (j - 1) * features_size)) features_size
              copies_ok centroids_per_device samples_per_device w4)
    as ([] & w5 & H5 & L5).
  exists w5. split; [exact H5|]. split; [|split].
  - intros x Hx. auto.
  - intros Hn. auto.
  - intros j' Hj' Hv. cbn [fst] in Hj'. rewrite Hj in Hj'.
    injection Hj' as <-. auto.
Qed.

(** With assertions enabled, an iteration that violates a check aborts the
    process, at line 217 or at line 247, before the violation is
    logged. *)
Lemma plus_plus_step_aborts (i : Z) (w : world) :
  NDEBUG E = false ->
  step_violation E samples_size features_size metric devs fp16x2 verbosity
                 samples dists dev_sums centroids i w ->
  exists w',
    plus_plus_step E samples_size features_size clusters_size metric devs fp16x2 verbosity
                   samples dists dev_sums centroids i w = Aborted w' /\
    (forall m, In m (w_log w') -> In m (w_log w) \/ m = PrintStep i).
Proof.
  intros debug_build.
  destruct (step_search_defined i w) as (j & Hj). revert Hj.
  unfold step_violation, plus_plus_step, step_dist_sum, step_index.
  set (progress := when _ (printf (PrintStep i))).
  assert (Hp : exists w1, progress w = Val tt w1 /\
                          w_mem w1 = w_mem w /\ w_rng w1 = w_rng w /\
                          (forall m, In m (w_log w1) -> In m (w_log w) \/ m = PrintStep i)).
  { unfold progress, when.
    destruct ((verbosity >? 1) || _); unfold printf, log_line, ret;
      eexists; (split; [reflexivity|]); cbn [w_mem w_rng w_log];
      (split; [reflexivity|]); (split; [reflexivity|]).
    - intros m Hm. apply in_app_or in Hm. destruct Hm as [Hm|[Hm|[]]]; auto.
    - auto. }
  destruct Hp as (w1 & H1 & Hmem1 & Hrng1 & L1).
  rewrite (bind_Val _ _ _ _ _ H1).
  unfold bind at 1. unfold get_world at 1. rewrite Hmem1.
  pose proof (kernel_ok features_size i metric devs fp16x2 verbosity
                        samples centroids dists dev_sums (w_mem w)) as Hk.
  destruct (kmeans_cuda_plus_plus E samples_size features_size i metric devs fp16x2
              verbosity samples centroids dists dev_sums (w_mem w))
    as [[[res host_dists] dist_sum] m].
  destruct Hk as [-> Hlen]. intros Hj Hv.
  unfold bind at 1. unfold set_mem at 1.
  unfold bind at 1. unfold RETERR at 1. cbn [is_success]. unfold ret at 1.
  cbn [w_mem w_rng w_calls w_log].
  destruct dist_sum as [|d]; cbn [fne_self when negb].
  - (* line 217 *)
    rewrite (assert_debug debug_build).
    unfold bind. eexists. split; [reflexivity|]. cbn [w_log]. exact L1.
  - (* line 247 *)
    destruct Hv as [Hv|(j' & Hj' & Hv)]; [discriminate|].
    rewrite Hj in Hj'. injection Hj' as <-.
    unfold bind at 1. unfold ret at 1.
    unfold bind at 1. unfold rand at 1. cbn [w_rng]. rewrite Hrng1.
    destruct (rand_gen E (w_rng w)) as [r state'] eqn:Hgen.
    cbn [fst] in Hj. rewrite Hj.
    replace ((j =? 0) || (j >? samples_size)) with true
      by (symmetry; apply orb_true_iff; destruct Hv; [left; lia | right; lia]).
    replace ((j >? 0) && (j <=? samples_size)) with false
      by (symmetry; apply andb_false_iff; destruct Hv; [left; lia | right; lia]).
    cbn [when]. rewrite (assert_debug debug_build).
    unfold bind. eexists. split; [reflexivity|]. cbn [w_log]. exact L1.
Qed.

Lemma probe_sample_first (fuel : nat) (w : world) :
  devs <> [] ->
  word_is_nan
    (w_mem w (dp_get (nth 0 samples (mkDevptr 0 false))
              + u32 ((fst (rand_gen E (w_rng w)) mod samples_size) * features_size)))
  = false ->
  exists a w',
    probe_sample E (S fuel) samples_size features_size devs samples NAN_word 0 w
    = Val a w' /\ (forall m, In m (w_log w) -> In m (w_log w')).
Proof.
  intros Hdevs Hnum. cbn [probe_sample].
  change (word_is_nan NAN_word) with true. cbn match.
  unfold bind at 1. unfold rand at 1.
  destruct (rand_gen E (w_rng w)) as [r state'] eqn:Hgen. cbn [fst] in Hnum.
  replace (samples_size =? 0) with false by lia.
  assert (Hd : 0 < Z.of_nat (length devs)) by (destruct devs; [congruence|cbn; lia]).
  rewrite (at_ret devs 0 0) by lia.
  rewrite (at_ret samples 0 (mkDevptr 0 false)) by lia.
  unfold bind at 1. unfold ret at 1.
  unfold bind at 1. unfold cudaSetDevice, bind, record_call, ret.
  unfold cudaMemcpyToLocal. rewrite copies_ok. cbn [CUCH cuda_ok w_mem].
  change (Z.to_nat 0) with 0%nat.
  destruct fuel; cbn [probe_sample]; rewrite Hnum; unfold ret;
    eexists; eexists; (split; [reflexivity|auto]).
Qed.

(** Lines 141-204: the initialisation up to the loop over [i]. *)
Lemma init_plus_plus_reaches_loop (fuel : nat) (seed device_ptrs host_centroids : Z)
      (w : world) :
  fuel <> 0%nat -> devs <> [] ->
  first_probe_is_number E seed samples_size features_size samples (w_mem w) ->
  exists w3,
    kmeans_init_centroids E fuel kmcudaInitMethodPlusPlus samples_size features_size
                          clusters_size metric seed devs device_ptrs fp16x2 verbosity
                          host_centroids samples dists dev_sums centroids w
    = (for_each (map (fun k => k + 1) (upto (clusters_size - 1)))
                (plus_plus_step E samples_size features_size clusters_size metric devs
                                fp16x2 verbosity samples dists dev_sums centroids) ;;
       INFO InfoDone ;;
       return_ kmcudaSuccess) w3.
Proof.
  intros Hfuel Hdevs Hprobe. destruct fuel as [|fuel]; [congruence|].
  unfold kmeans_init_centroids.
  unfold bind at 1. unfold srand at 1, set_rng at 1.
  unfold bind at 1. unfold init_plus_plus.
  unfold bind at 1. unfold INFO at 1, log_line at 1.
  unfold bind at 1.
  match goal with |- context [probe_sample _ _ _ _ _ _ _ _ ?w0] =>
    destruct (probe_sample_first fuel w0 Hdevs Hprobe) as (off & w1 & H1 & _)
  end.
  rewrite H1.
  destruct (falls_through_D2D E devs centroids 0 samples off features_size
              copies_ok centroids_per_device samples_per_device w1) as ([] & w2 & H2 & _).
  rewrite (bind_Val _ _ _ _ _ H2).
  set (dump := when (verbosity >? 2) _).
  assert (Hdump : falls_through (R:=KMCUDAResult) dump).
  { apply falls_through_when. apply falls_through_bind; [apply falls_through_log|].
    intros _. apply falls_through_FOR_EACH_DEVI. intros devi Hdevi.
    rewrite (at_ret devs devi 0) by lia.
    rewrite (at_ret samples devi (mkDevptr 0 false)) by lia.
    rewrite (at_ret centroids devi (mkDevptr 0 false)) by lia.
    rewrite (at_ret dists devi (mkDevptr 0 false)) by lia.
    rewrite (at_ret dev_sums devi (mkDevptr 0 false)) by lia.
    repeat (apply falls_through_bind; [apply falls_through_ret|]; intros ?).
    apply falls_through_log. }
  destruct (Hdump w2) as ([] & w3 & H3 & _).
  rewrite (bind_Val _ _ _ _ _ H3).
  exists w3. unfold bind. reflexivity.
Qed.

(** With assertions compiled out and no failure of a copy or of the kernel,
    k-means++ initialisation returns success. *)
Lemma init_plus_plus_returns (fuel : nat) (seed device_ptrs host_centroids : Z) (w : world) :
  NDEBUG E = true ->
  fuel <> 0%nat -> devs <> [] ->
  first_probe_is_number E seed samples_size features_size samples (w_mem w) ->
  exists w',
    kmeans_init_centroids E fuel kmcudaInitMethodPlusPlus samples_size features_size
                          clusters_size metric seed devs device_ptrs fp16x2 verbosity
                          host_centroids samples dists dev_sums centroids w
    = Return kmcudaSuccess w'.
Proof.
  intros Hrel Hfuel Hdevs Hprobe.
  destruct (init_plus_plus_reaches_loop fuel seed device_ptrs host_centroids w
              Hfuel Hdevs Hprobe) as (w3 & ->).
  assert (Hloop : falls_through
            (for_each (map (fun k => k + 1) (upto (clusters_size - 1)))
               (plus_plus_step E samples_size features_size clusters_size metric devs
                               fp16x2 verbosity samples dists dev_sums centroids))).
  { apply falls_through_for_each. intros i _ w0.
    destruct (plus_plus_step_continues i w0 Hrel) as (w' & H' & L' & _).
    exists tt, w'. auto. }
  destruct (Hloop w3) as ([] & w4 & H4 & _).
  rewrite (bind_Val _ _ _ _ _ H4).
  unfold bind at 1. unfold INFO at 1, log_line at 1. unfold return_.
  eexists. reflexivity.
Qed.

(** With assertions enabled, the call aborts in its first iteration when
    that iteration violates a check. *)
Lemma init_plus_plus_aborts (fuel : nat) (seed device_ptrs host_centroids : Z) (w : world) :
  NDEBUG E = false ->
  fuel <> 0%nat -> devs <> [] ->
  first_probe_is_number E seed samples_size features_size samples (w_mem w) ->
  2 <= clusters_size ->
  (forall w0, step_violation E samples_size features_size metric devs fp16x2 verbosity
                             samples dists dev_sums centroids 1 w0) ->
  exists w',
    kmeans_init_centroids E fuel kmcudaInitMethodPlusPlus samples_size features_size
                          clusters_size metric seed devs device_ptrs fp16x2 verbosity
                          host_centroids samples dists dev_sums centroids w
    = Aborted w'.
Proof.
  intros Hdbg Hfuel Hdevs Hprobe Hk Hv.
  destruct (init_plus_plus_reaches_loop fuel seed device_ptrs host_centroids w
              Hfuel Hdevs Hprobe) as (w3 & ->).
  rewrite (upto_cons (clusters_size - 1)) by lia. cbn [map for_each].
  change (0 + 1) with 1.
  destruct (plus_plus_step_aborts 1 w3 Hdbg (Hv w3)) as (w' & H' & _).
  unfold bind. rewrite H'. exists w'. reflexivity.
Qed.

End PlusPlusChecks.



(** The runs of the witness.  In the release build both violations are
    logged in each of the two iterations, with the index 101 of a sample
    past the end, and the call returns success.  In the build with
    assertions the sum is a number, and it is the assertion of line 247
    that aborts the call. *)
Example plus_plus_index_past_end_release_run :
  option_map w_log
    (final_world
       (kmeans_init_centroids (sample_env true 1 (constant_rand 2147483647) (nan_dists 100)) 1
                              kmcudaInitMethodPlusPlus 100 1 3 0 1 [0] (-1) 0 0 0
                              [mkDevptr 100 false] [mkDevptr 200 false]
                              [mkDevptr 300 false] [mkDevptr 400 false] empty_world))
  = Some [InfoPlusPlus; InfoDistSumNaN; InfoBadIndex 101;
          InfoDistSumNaN; InfoBadIndex 101; InfoDone].
Proof. vm_compute. reflexivity. Qed.

Example plus_plus_index_zero_aborts_debug_build :
  step_dist_sum (sample_env false 1 (constant_rand 0) (unit_dists 4)) 4 1 0 [0] 0 0
                [mkDevptr 100 false] [mkDevptr 200 false]
                [mkDevptr 300 false] [mkDevptr 400 false] 1 empty_world = FNum 4 /\
  step_index (sample_env false 1 (constant_rand 0) (unit_dists 4)) 4 1 0 [0] 0 0
             [mkDevptr 100 false] [mkDevptr 200 false]
             [mkDevptr 300 false] [mkDevptr 400 false] 1 empty_world = Some 0 /\
  aborted (kmeans_init_centroids (sample_env false 1 (constant_rand 0) (unit_dists 4)) 1
                                 kmcudaInitMethodPlusPlus 4 1 3 0 1 [0] (-1) 0 0 0
                                 [mkDevptr 100 false] [mkDevptr 200 false]
                                 [mkDevptr 300 false] [mkDevptr 400 false] empty_world)
  = true.
Proof. repeat split; vm_compute; reflexivity. Qed.

(** ** Early exits of [kmeans_cuda] *)

(** Lines 265-272 of [kmeans_cuda] up to the verdict of [check_args]. *)
Ltac run_check_args E tolerance yinyang_t samples_size features_size clusters_size
                    device fp16x2 verbosity samples centroids assignments r w1 H1 Hr Hm1 Hr1 :=
  unfold kmeans_cuda;
  unfold bind at 1; unfold DEBUG at 1, log_line at 1;
  unfold bind at 1; unfold call_fn at 1;
  match goal with |- context [check_args _ _ _ _ _ _ _ _ _ _ _ _ ?w0] =>
    destruct (check_args_outcome E tolerance yinyang_t samples_size features_size
                clusters_size device (negb (fp16x2 =? 0)) verbosity
                samples centroids assignments w0) as (r & w1 & H1 & Hr & Hm1 & Hr1)
  end;
  rewrite H1.

(** Arguments that [check_args] rejects are rejected before any device
    work: [kmeans_cuda] returns the code of [check_args], memory and the
    generator are as they were, and the only runtime call it may have made
    is [cudaGetDeviceCount]. *)
Theorem rejected_call_touches_nothing :
  forall (E : env) (fuel : nat) (init : KMCUDAInitMethod) (tolerance yinyang_t : cfloat)
         (metric : KMCUDADistanceMetric)
         (samples_size features_size clusters_size seed device device_ptrs
          fp16x2 verbosity samples centroids assignments : Z) (w : world) (r : KMCUDAResult),
    returned (check_args E tolerance yinyang_t samples_size features_size clusters_size
                         device (negb (fp16x2 =? 0)) verbosity
                         samples centroids assignments w) = Some r ->
    r <> kmcudaSuccess ->
    exists w',
      kmeans_cuda E fuel init tolerance yinyang_t metric samples_size features_size
                  clusters_size seed device device_ptrs fp16x2 verbosity
                  samples centroids assignments w = Return r w' /\
      w_mem w' = w_mem w /\ w_rng w' = w_rng w /\
      (w_calls w' = w_calls w \/ w_calls w' = w_calls w ++ [CudaGetDeviceCount]).
Proof.
  intros E fuel init tolerance yinyang_t metric samples_size features_size clusters_size
         seed device device_ptrs fp16x2 verbosity samples centroids assignments w r
         Hcheck Hne.
  assert (Hcalls : forall w0 w1 r0,
            check_args E tolerance yinyang_t samples_size features_size clusters_size
                       device (negb (fp16x2 =? 0)) verbosity samples centroids assignments w0
            = Return r0 w1 ->
            w_calls w1 = w_calls w0 \/ w_calls w1 = w_calls w0 ++ [CudaGetDeviceCount]).
  { intros w0 w1 r0. unfold check_args.
    destruct ((clusters_size <? 2) || (clusters_size =? UINT32_MAX));
      [intros H; inversion H; auto|].
    destruct (features_size =? 0); [intros H; inversion H; auto|].
    destruct (samples_size <? clusters_size); [intros H; inversion H; auto|].
    destruct (device <? 0); [intros H; inversion H; auto|].
    unfold cudaGetDeviceCount, record_call, bind, ret. cbv beta iota.
    destruct (device >? shl32 1 (device_count E)); [intros H; inversion H; auto|].
    destruct ((samples =? 0) || (centroids =? 0) || (assignments =? 0));
      [intros H; inversion H; auto|].
    destruct (flt tolerance fzero || fgt tolerance fone); [intros H; inversion H; auto|].
    destruct (flt yinyang_t fzero || fgt yinyang_t fhalf); [intros H; inversion H; auto|].
    destruct ((CUDA_ARCH E <? 60) && negb (fp16x2 =? 0));
      unfold INFO, log_line, return_; intros H; inversion H; auto. }
  run_check_args E tolerance yinyang_t samples_size features_size clusters_size
                 device fp16x2 verbosity samples centroids assignments r0 w1 H1 Hr Hm1 Hr1.
  rewrite Hr in Hcheck. injection Hcheck as ->.
  unfold bind at 1. unfold RETERR at 1.
  destruct r; try congruence; cbn [is_success];
    unfold bind, ret, return_;
    (exists w1; split; [reflexivity|]; split; [exact Hm1|]; split; [exact Hr1|];
     apply (Hcalls _ _ _ H1)).
Qed.

Lemma rejected_call_touches_nothing_witness :
  exists w',
    kmeans_cuda (sample_env true 1 lcg (unit_dists 4)) 1 kmcudaInitMethodRandom
                (FNum 2) fzero 0 4 1 2 0 0 (-1) 0 0 1000 2000 3000 empty_world
    = Return kmcudaInvalidArguments w' /\
    w_mem w' = w_mem empty_world /\ w_rng w' = w_rng empty_world /\
    (w_calls w' = w_calls empty_world \/
     w_calls w' = w_calls empty_world ++ [CudaGetDeviceCount]).
Proof.
  apply (rejected_call_touches_nothing
           (sample_env true 1 lcg (unit_dists 4)) 1 kmcudaInitMethodRandom
           (FNum 2) fzero 0 4 1 2 0 0 (-1) 0 0 1000 2000 3000 empty_world
           kmcudaInvalidArguments).
  - reflexivity.
  - discriminate.
Defined.

(** Lines 272-278 of [kmeans_cuda] after a successful [check_args]: the
    reassignment threshold, the group count and the device list. *)
Ltac run_setup_devices E tolerance samples_size q clusters_size device device_ptrs verbosity
                       Hthr Hy0 Hy1 Hcs Hdev g Hg Hgr w2 H2 Hm2 Hr2 :=
  unfold bind at 1; unfold RETERR at 1; cbn [is_success]; unfold ret at 1;
  destruct (scaled_to_u32 tolerance samples_size) as [threshold|]; [|congruence];
  unfold bind at 1; unfold INFO at 1, log_line at 1;
  destruct (yy_groups_defined q clusters_size Hy0 Hy1 Hcs) as (g & Hg & Hgr);
  rewrite Hg;
  unfold bind at 1; unfold DEBUG at 1, log_line at 1;
  unfold bind at 1; unfold call_fn at 1;
  match goal with |- context [setup_devices _ _ _ _ ?w0] =>
    destruct (setup_devices_spec E device device_ptrs verbosity w0 Hdev)
      as (w2 & H2 & Hm2 & Hr2)
  end;
  rewrite H2.

(** An allocation that fails is fatal: when the runtime refuses every
    allocation, a call without designated device that passes [check_args],
    whose yinyang fraction is a number, whose reassignment threshold
    [uint32_t(tolerance * samples_size)] is defined and that selects at
    least one device returns MemoryAllocationError at its first
    allocation, that of the samples on the first selected device; memory is
    as it was. *)
Theorem allocation_failure_is_fatal :
  forall (E : env) (fuel : nat) (init : KMCUDAInitMethod) (tolerance : cfloat) (q : Q)
         (metric : KMCUDADistanceMetric)
         (samples_size features_size clusters_size seed device device_ptrs
          fp16x2 verbosity samples centroids assignments : Z) (w : world),
    is_u32 device -> is_u32 clusters_size ->
    returned (check_args E tolerance (FNum q) samples_size features_size clusters_size
                         device (negb (fp16x2 =? 0)) verbosity
                         samples centroids assignments w) = Some kmcudaSuccess ->
    scaled_to_u32 tolerance samples_size <> None ->
    selectable E (expanded_mask E device) <> [] ->
    device_ptrs < 0 ->
    mallocs_fail E ->
    exists w' calls,
      kmeans_cuda E fuel init tolerance (FNum q) metric samples_size features_size
                  clusters_size seed device device_ptrs fp16x2 verbosity
                  samples centroids assignments w
      = Return kmcudaMemoryAllocationError w' /\
      w_mem w' = w_mem w /\
      w_calls w' = calls ++ [CudaSetDevice (hd 0 (selectable E (expanded_mask E device)));
                             CudaMalloc (u64 (samples_size * features_size))].
Proof.
  intros E fuel init tolerance q metric samples_size features_size clusters_size
         seed device device_ptrs fp16x2 verbosity samples centroids assignments w
         Hdev Hcs Hcheck Hthr Hsel Hdp Hfail.
  destruct (check_args_success_inv _ _ _ _ _ _ _ _ _ _ _ _ _ Hcheck)
    as (_ & _ & _ & _ & Hy0 & Hy1).
  run_check_args E tolerance (FNum q) samples_size features_size clusters_size
                 device fp16x2 verbosity samples centroids assignments r0 w1 H1 Hr Hm1 Hr1.
  rewrite Hr in Hcheck. injection Hcheck as ->.
  run_setup_devices E tolerance samples_size q clusters_size device device_ptrs verbosity
                    Hthr Hy0 Hy1 Hcs Hdev g Hg Hgr w2 H2 Hm2 Hr2.
  destruct (selectable E (expanded_mask E device)) as [|d devs] eqn:Hdevs; [congruence|].
  assert (Hd : 0 <= d).
  { assert (Hin : In d (selectable E (expanded_mask E device))) by (rewrite Hdevs; left; reflexivity).
    apply in_selectable in Hin. lia. }
  cbn [length]. replace (Z.of_nat (S (length devs)) =? 0) with false
    by (symmetry; apply Z.eqb_neq; lia).
  unfold bind at 1. unfold FOR_EACH_DEVI_with.
  cbn [length]. rewrite upto_succ. cbn [fold_each].
  rewrite (at_ret (d :: devs) 0 0) by (cbn [length]; lia).
  change (nth (Z.to_nat 0) (d :: devs) 0) with d.
  unfold CUMALLOC_ONE, cudaMalloc, cudaSetDevice, record_call, bind, ret.
  cbv beta iota. replace (d =? device_ptrs) with false by lia.
  cbv beta iota. rewrite Hfail. unfold return_. cbn [hd].
  eexists. eexists. split; [reflexivity|]. cbn [w_mem w_calls] in *.
  split; [congruence|].
  rewrite <- app_assoc. reflexivity.
Qed.

Lemma allocation_failure_is_fatal_witness :
  exists w' calls,
    kmeans_cuda (with_malloc_result (sample_env true 2 lcg (unit_dists 4)) (fun _ _ => None))
                1 kmcudaInitMethodRandom fzero (FNum (1 # 4)) 0 4 1 2 0 0 (-1) 0 0
                1000 2000 3000 empty_world
    = Return kmcudaMemoryAllocationError w' /\
    w_mem w' = w_mem empty_world /\
    w_calls w' =
    calls ++ [CudaSetDevice
                (hd 0 (selectable
                         (with_malloc_result (sample_env true 2 lcg (unit_dists 4))
                                             (fun _ _ => None))
                         (expanded_mask
                            (with_malloc_result (sample_env true 2 lcg (unit_dists 4))
                                                (fun _ _ => None)) 0)));
              CudaMalloc (u64 (4 * 1))].
Proof.
  apply (allocation_failure_is_fatal
           (with_malloc_result (sample_env true 2 lcg (unit_dists 4)) (fun _ _ => None))
           1 kmcudaInitMethodRandom fzero (1 # 4) 0 4 1 2 0 0 (-1) 0 0
           1000 2000 3000 empty_world).
  - unfold is_u32. lia.
  - unfold is_u32. lia.
  - reflexivity.
  - vm_compute. discriminate.
  - vm_compute. discriminate.
  - lia.
  - intros calls size. reflexivity.
Defined.

(** ** The successful run of [kmeans_cuda] *)

Lemma yields_fold_each {R A St} (l : list A) (body : A -> St -> M R St)
      (I : nat -> St -> Prop) :
  (forall x s k, In x l -> I k s -> yields (body x s) (I (S k))) ->
  forall k s, I k s -> yields (fold_each l s body) (I (k + length l)%nat).
Proof.
  induction l as [|x l IH]; intros H k s Hs w; cbn [fold_each length].
  - exists s, w. rewrite Nat.add_0_r. auto.
  - destruct (H x s k (or_introl eq_refl) Hs w) as (s1 & w1 & H1 & Hs1).
    rewrite (bind_Val _ _ _ _ _ H1).
    destruct (IH (fun y s0 k0 Hy => H y s0 k0 (or_intror Hy)) (S k) s1 Hs1 w1)
      as (s2 & w2 & H2 & Hs2).
    exists s2, w2. split; [exact H2|].
    replace (k + S (length l))%nat with (S k + length l)%nat by lia. exact Hs2.
Qed.

Lemma yields_CUMALLOC_ONE E dest size dev :
  mallocs_succeed E ->
  yields (CUMALLOC_ONE E dest size dev) (fun v => length v = S (length dest)).
Proof.
  intros Hm w. unfold CUMALLOC_ONE, cudaMalloc, bind. cbv beta iota.
  destruct (Hm (w_calls w) size) as (a & Ha). rewrite Ha. unfold ret.
  eexists; eexists; split; [reflexivity|]. rewrite length_app. cbn. lia.
Qed.

Lemma yields_CUMALLOC E devs size :
  mallocs_succeed E ->
  yields (CUMALLOC E devs [] size) (fun v => length v = length devs).
Proof.
  intros Hm. unfold CUMALLOC.
  apply (yields_fold_each devs _ (fun k (v : udevptrs) => length v = k)) with (k := 0%nat);
    [|reflexivity].
  intros dev v k _ Hv w.
  unfold cudaSetDevice, record_call, bind, ret. cbv beta iota.
  match goal with |- context [CUMALLOC_ONE E v size dev ?w0] =>
    destruct (yields_CUMALLOC_ONE E v size dev Hm w0) as (v' & w' & H' & Hv')
  end.
  exists v', w'. split; [exact H'|]. rewrite Hv', Hv. reflexivity.
Qed.

(** Lines 304-318: one entry per device, allocated or borrowed. *)
Lemma yields_device_buffers E devs device_ptrs borrowed size :
  mallocs_succeed E ->
  yields (FOR_EACH_DEV_with E (R:=KMCUDAResult) devs ([] : udevptrs) (fun dev v =>
            if dev =? device_ptrs then ret (v ++ [mkDevptr borrowed true])
            else CUMALLOC_ONE E v size dev))
         (fun v => length v = length devs).
Proof.
  intros Hm. unfold FOR_EACH_DEV_with.
  apply (yields_fold_each devs _ (fun k (v : udevptrs) => length v = k)) with (k := 0%nat);
    [|reflexivity].
  intros dev v k _ Hv w.
  unfold cudaSetDevice, record_call, bind, ret. cbv beta iota.
  destruct (dev =? device_ptrs).
  - eexists; eexists; split; [reflexivity|]. rewrite length_app. cbn. lia.
  - match goal with |- context [CUMALLOC_ONE E v size dev ?w0] =>
      destruct (yields_CUMALLOC_ONE E v size dev Hm w0) as (v' & w' & H' & Hv')
    end.
    exists v', w'. split; [exact H'|]. rewrite Hv', Hv. reflexivity.
Qed.

(** Lines 282-289 without designated device: every entry is allocated and
    [origin_devi] stays -1. *)
Lemma yields_device_samples E devs device_ptrs samples size :
  mallocs_succeed E -> device_ptrs < 0 -> (forall d, In d devs -> 0 <= d) ->
  yields (FOR_EACH_DEVI_with E (R:=KMCUDAResult) devs (([] : udevptrs), -1) (fun devi st =>
            let '(device_samples, origin_devi) := st in
            dev <- at_ devs devi ;;
            if dev =? device_ptrs then
              ret (device_samples ++ [mkDevptr samples true], devi)
            else
              device_samples <- CUMALLOC_ONE E device_samples size dev ;;
              ret (device_samples, origin_devi)))
         (fun st => length (fst st) = length devs /\ snd st = -1).
Proof.
  intros Hm Hdp Hpos. unfold FOR_EACH_DEVI_with.
  assert (Hgoal : yields
    (fold_each (R:=KMCUDAResult) (upto (Z.of_nat (length devs))) (([] : udevptrs), -1)
       (fun devi s =>
          dev <- at_ devs devi ;; cudaSetDevice E dev ;;
          (let '(device_samples, origin_devi) := s in
           dev0 <- at_ devs devi ;;
           if dev0 =? device_ptrs then ret (device_samples ++ [mkDevptr samples true], devi)
           else device_samples0 <- CUMALLOC_ONE E device_samples size dev0 ;;
                ret (device_samples0, origin_devi))))
    (fun st => length (fst st) = (0 + length (upto (Z.of_nat (length devs))))%nat
               /\ snd st = -1)).
  { apply (yields_fold_each (upto (Z.of_nat (length devs))) _
             (fun k (st : udevptrs * Z) => length (fst st) = k /\ snd st = -1));
      [|split; reflexivity].
    intros devi [v o] k Hdevi [Hv Ho] w. apply in_upto in Hdevi. cbn [fst snd] in *.
    rewrite (at_ret devs devi 0) by lia.
    assert (Hd : 0 <= nth (Z.to_nat devi) devs 0) by (apply Hpos, nth_In; lia).
    unfold cudaSetDevice, record_call, bind, ret. cbv beta iota.
    replace (nth (Z.to_nat devi) devs 0 =? device_ptrs) with false by lia.
    match goal with |- context [CUMALLOC_ONE E v size ?dev ?w0] =>
      destruct (yields_CUMALLOC_ONE E v size dev Hm w0) as (v' & w' & H' & Hv')
    end.
    rewrite H'. exists (v', o), w'. cbn [fst snd]. split; [reflexivity|].
    split; [rewrite Hv', Hv; reflexivity|exact Ho]. }
  intros w. destruct (Hgoal w) as (st & w' & H' & Hl & Ho).
  exists st, w'. split; [exact H'|]. split; [|exact Ho].
  rewrite Hl, upto_length. lia.
Qed.

Lemma falls_through_H2D E devs dst dst_stride src size :
  copies_succeed E -> length dst = length devs ->
  falls_through (CUMEMCPY_H2D_ASYNC E devs dst dst_stride src size).
Proof.
  intros Hok Hd. unfold CUMEMCPY_H2D_ASYNC.
  apply falls_through_FOR_EACH_DEVI. intros devi Hdevi.
  rewrite (at_ret dst devi (mkDevptr 0 false)) by lia.
  apply falls_through_bind; [apply falls_through_ret|]. intros d.
  intros w. unfold bind, cudaMemcpyAsync, issue_copy. rewrite Hok.
  cbn [CUCH cuda_ok]. eexists; eexists; split; [reflexivity|auto].
Qed.

Lemma yields_alloc_yinyang E samples_size features_size clusters_size yy_groups_size
      centroids_size devs :
  mallocs_succeed E ->
  yields (alloc_yinyang E samples_size features_size clusters_size yy_groups_size
                        centroids_size devs) (fun _ => True).
Proof.
  intros Hm w. unfold alloc_yinyang.
  destruct (yy_groups_size >=? 1); [|eexists; eexists; split; [reflexivity|exact I]].
  unfold bind at 1.
  destruct (yields_CUMALLOC E devs clusters_size Hm w) as (v1 & w1 & H1 & _). rewrite H1.
  unfold bind at 1.
  match goal with |- context [CUMALLOC E devs [] ?size w1] =>
    destruct (yields_CUMALLOC E devs size Hm w1) as (v2 & w2 & H2 & _) end.
  rewrite H2. unfold bind at 1.
  match goal with |- context [CUMALLOC E devs [] ?size w2] =>
    destruct (yields_CUMALLOC E devs size Hm w2) as (v3 & w3 & H3 & _) end.
  rewrite H3. unfold bind at 1.
  match goal with |- context [CUMALLOC E devs [] ?size w3] =>
    destruct (yields_CUMALLOC E devs size Hm w3) as (v4 & w4 & H4 & _) end.
  rewrite H4. unfold bind at 1.
  match goal with |- context [if ?b then _ else _] => destruct b end.
  - unfold bind, DEBUG, log_line, ret. eexists; eexists; split; [reflexivity|exact I].
  - match goal with |- context [CUMALLOC E devs [] ?size w4] =>
      destruct (yields_CUMALLOC E devs size Hm w4) as (v5 & w5 & H5 & _) end.
    rewrite H5. unfold ret. eexists; eexists; split; [reflexivity|exact I].
Qed.

(** Import and random initialisation return success when the copies do. *)
Lemma init_returns_success E fuel method samples_size features_size clusters_size metric
      seed devs device_ptrs fp16x2 verbosity host_centroids samples dists dev_sums
      centroids w :
  method <> kmcudaInitMethodPlusPlus ->
  copies_succeed E -> device_ptrs < 0 ->
  length samples = length devs -> length centroids = length devs ->
  0 <= clusters_size <= samples_size ->
  exists w',
    kmeans_init_centroids E fuel method samples_size features_size clusters_size metric
                          seed devs device_ptrs fp16x2 verbosity host_centroids
                          samples dists dev_sums centroids w
    = Return kmcudaSuccess w'.
Proof.
  intros Hmeth Hcopy Hdp Hs Hc Hk. unfold kmeans_init_centroids.
  unfold bind at 1. unfold srand at 1, set_rng at 1.
  unfold bind at 1.
  destruct method; [| congruence |].
  - unfold bind at 1.
    match goal with |- context [init_random _ _ _ _ _ _ _ ?w0] =>
      destruct (init_random_run E samples_size features_size clusters_size devs
                  samples centroids w0 Hcopy Hs Hc Hk) as (w1 & H1 & _)
    end.
    rewrite H1. unfold ret at 1.
    unfold bind at 1. unfold INFO at 1, log_line at 1. unfold return_.
    eexists. reflexivity.
  - unfold init_import. replace (device_ptrs <? 0) with true by lia.
    match goal with |- context [CUMEMCPY_H2D_ASYNC E devs centroids 0 ?src ?n ?w0] =>
      destruct (falls_through_H2D E devs centroids 0 src n Hcopy Hc w0)
        as ([] & w1 & H1 & _)
    end.
    rewrite H1.
    unfold bind at 1. unfold INFO at 1, log_line at 1. unfold return_.
    eexists. reflexivity.
Qed.

(** [kmeans_cuda] on the path without runtime failure, up to the verdict
    of the refinement kernel (lines 265-371), and what follows each verdict
    (lines 372-393). *)
Lemma kmeans_cuda_returns_refinement_code
  (E : env) (fuel : nat) (init : KMCUDAInitMethod) (tolerance : cfloat) (q : Q)
  (metric : KMCUDADistanceMetric)
  (samples_size features_size clusters_size seed device device_ptrs
   fp16x2 verbosity samples centroids assignments : Z) (w : world) (r : KMCUDAResult) :
  is_u32 device -> is_u32 clusters_size ->
  returned (check_args E tolerance (FNum q) samples_size features_size clusters_size
                       device (negb (fp16x2 =? 0)) verbosity
                       samples centroids assignments w) = Some kmcudaSuccess ->
  scaled_to_u32 tolerance samples_size <> None ->
  init <> kmcudaInitMethodPlusPlus ->
  device_ptrs < 0 ->
  selectable E (expanded_mask E device) <> [] ->
  last (selectable E (expanded_mask E device)) 0
  = Z.of_nat (length (selectable E (expanded_mask E device))) - 1 ->
  copies_succeed E -> mallocs_succeed E -> mem_info_succeeds E ->
  setup_succeeds E -> refinement_answers E r ->
  exists w',
    kmeans_cuda E fuel init tolerance (FNum q) metric samples_size features_size
                clusters_size seed device device_ptrs fp16x2 verbosity
                samples centroids assignments w
    = Return r w' /\
    (r = kmcudaSuccess ->
     exists calls c a,
       w_calls w' = calls ++
                    [CudaMemcpy centroids c (u64 (clusters_size * features_size))
                                cudaMemcpyDeviceToHost;
                     CudaMemcpy assignments a samples_size cudaMemcpyDeviceToHost]) /\
    (r <> kmcudaSuccess -> exists log, w_log w' = log ++ [DebugInternalFailed]).
Proof.
  intros Hdev Hcs Hcheck Hthr Hinit Hdp Hsel Hlast Hcopy Hmalloc Hinfo Hsetup Hyy.
  destruct (check_args_success_inv _ _ _ _ _ _ _ _ _ _ _ _ _ Hcheck)
    as (Hk2 & _ & _ & Hks & Hy0 & Hy1).
  run_check_args E tolerance (FNum q) samples_size features_size clusters_size
                 device fp16x2 verbosity samples centroids assignments r0 w1 H1 Hr Hm1 Hr1.
  rewrite Hr in Hcheck. injection Hcheck as ->.
  run_setup_devices E tolerance samples_size q clusters_size device device_ptrs verbosity
                    Hthr Hy0 Hy1 Hcs Hdev g Hg Hgr w2 H2 Hm2 Hr2.
  set (devs := selectable E (expanded_mask E device)) in *.
  pose proof (nonempty_length devs Hsel) as Hpos.
  assert (Hnonneg : forall d, In d devs -> 0 <= d).
  { intros d Hd. apply in_selectable in Hd. lia. }
  replace (Z.of_nat (length devs) =? 0) with false by (symmetry; apply Z.eqb_neq; lia).
  (* the samples *)
  unfold bind at 1.
  match goal with |- context [FOR_EACH_DEVI_with E devs _ _ ?w0] =>
    destruct (yields_device_samples E devs device_ptrs samples
                (u64 (samples_size * features_size)) Hmalloc Hdp Hnonneg w0)
      as ([device_samples origin_devi] & w3 & H3 & Hlen3 & Ho)
  end.
  rewrite H3. cbn [fst snd] in Hlen3, Ho. subst origin_devi.
  replace (device_ptrs <? 0) with true by lia.
  unfold bind at 1.
  match goal with |- context [CUMEMCPY_H2D_ASYNC E devs device_samples 0 ?src ?n w3] =>
    destruct (falls_through_H2D E devs device_samples 0 src n Hcopy Hlen3 w3)
      as ([] & w4 & H4 & _)
  end.
  rewrite H4.
  (* the centroids and the assignments *)
  unfold bind at 1.
  match goal with |- context [FOR_EACH_DEV_with E devs _ _ w4] =>
    destruct (yields_device_buffers E devs device_ptrs centroids
                (u64 (clusters_size * features_size)) Hmalloc w4)
      as (device_centroids & w5 & H5 & Hlen5)
  end.
  rewrite H5.
  unfold bind at 1.
  match goal with |- context [FOR_EACH_DEV_with E devs _ _ w5] =>
    destruct (yields_device_buffers E devs device_ptrs assignments samples_size Hmalloc w5)
      as (device_assignments & w6 & H6 & Hlen6)
  end.
  rewrite H6.
  unfold bind at 1.
  destruct (yields_CUMALLOC E devs samples_size Hmalloc w6)
    as (device_assignments_prev & w7 & H7 & Hlen7).
  rewrite H7.
  unfold bind at 1.
  destruct (yields_CUMALLOC E devs clusters_size Hmalloc w7)
    as (device_ccounts & w8 & H8 & Hlen8).
  rewrite H8.
  (* the yinyang buffers *)
  unfold bind at 1.
  destruct (yields_alloc_yinyang E samples_size features_size clusters_size g
              (u64 (clusters_size * features_size)) devs Hmalloc w8)
    as ([[[[ayy byy] dyy] pyy] cyy] & w9 & H9 & _).
  rewrite H9.
  (* memory statistics and kernel setup *)
  unfold bind at 1.
  assert (Hstats : falls_through (R:=KMCUDAResult)
            (when (verbosity >? 1)
               (res <- call_fn (print_memory_stats E devs) ;; RETERR res (ret tt)))).
  { apply falls_through_when. intros w0. unfold bind at 1. unfold call_fn.
    unfold print_memory_stats.
    destruct (print_memory_stats_loop E devs Hinfo w0) as (w' & H' & Hl & _).
    rewrite (bind_Val _ _ _ _ _ H'). unfold return_, RETERR. cbn [is_success]. unfold ret.
    exists tt, w'. split; [reflexivity|].
    intros m Hin. rewrite Hl. apply in_or_app. left. exact Hin. }
  destruct (Hstats w9) as ([] & w10 & H10 & _).
  rewrite H10.
  unfold bind at 1. rewrite Hsetup. unfold RETERR at 1. cbn [is_success]. unfold ret at 1.
  (* initialisation *)
  unfold bind at 1. unfold call_fn at 1.
  destruct (init_returns_success E fuel init samples_size features_size clusters_size
              metric seed devs device_ptrs fp16x2 verbosity centroids
              device_samples device_assignments device_assignments_prev device_centroids
              w10 Hinit Hcopy Hdp Hlen3 Hlen5 ltac:(lia)) as (w11 & H11).
  rewrite H11.
  unfold bind at 1. unfold RETERR at 1. cbn [is_success]. unfold ret at 1.
  (* refinement *)
  unfold bind at 1. unfold get_world at 1.
  match goal with |- context [kmeans_cuda_yy E ?a1 ?a2 ?a3 ?a4 ?a5 ?a6 ?a7 ?a8 ?a9 ?a10
                                ?a11 ?a12 ?a13 ?a14 ?a15 ?a16 ?a17 ?a18 ?a19 ?a20] =>
    pose proof (Hyy a1 a2 a3 a4 a5 a6 a7 a8 a9 a10 a11 a12 a13 a14 a15 a16 a17 a18 a19 a20)
      as Hres;
    destruct (kmeans_cuda_yy E a1 a2 a3 a4 a5 a6 a7 a8 a9 a10
                             a11 a12 a13 a14 a15 a16 a17 a18 a19 a20) as [res m]
  end.
  cbn [fst] in Hres. subst res.
  unfold bind at 1. unfold set_mem at 1.
  unfold bind at 1. unfold RETERR at 1.
  destruct (is_success r) eqn:Hsucc.
  - (* the results *)
    assert (r = kmcudaSuccess) as -> by (destruct r; cbn in Hsucc; congruence).
    unfold ret at 1.
    unfold bind at 1. unfold collect_results.
    cbn [Z.ltb Z.compare]. replace (device_ptrs <? 0) with true by lia.
    rewrite (at_ret device_centroids (last devs 0) (mkDevptr 0 false)) by lia.
    rewrite (at_ret device_assignments (last devs 0) (mkDevptr 0 false)) by lia.
    unfold cudaMemcpy, issue_copy, CUCH, DEBUG, log_line, return_, bind, ret.
    cbv beta iota.
    repeat (rewrite Hcopy; cbn [cuda_ok]; cbv beta iota; cbn [w_mem w_rng w_calls w_log]).
    eexists. split; [reflexivity|]. split; [|congruence].
    intros _. eexists. eexists. eexists.
    cbn [w_calls]. rewrite <- app_assoc. reflexivity.
  - unfold DEBUG, log_line, return_, bind. cbv beta iota.
    eexists. split; [reflexivity|]. split; [intros ->; discriminate|].
    intros _. cbn [w_log]. eexists. reflexivity.
Qed.



(** A failure of the refinement kernel is the result of the call: on the
    same path (a call that passes [check_args], with a yinyang fraction
    that is a number and a defined reassignment threshold), when the kernel
    answers a code other than success, [kmeans_cuda] returns that code,
    having logged the failure last; it does not go on to collect the
    results. *)
Theorem refinement_failure_is_returned :
  forall (E : env) (fuel : nat) (init : KMCUDAInitMethod) (tolerance : cfloat) (q : Q)
         (metric : KMCUDADistanceMetric)
         (samples_size features_size clusters_size seed device device_ptrs
          fp16x2 verbosity samples centroids assignments : Z) (w : world)
         (r : KMCUDAResult),
    is_u32 device -> is_u32 clusters_size ->
    returned (check_args E tolerance (FNum q) samples_size features_size clusters_size
                         device (negb (fp16x2 =? 0)) verbosity
                         samples centroids assignments w) = Some kmcudaSuccess ->
    scaled_to_u32 tolerance samples_size <> None ->
    init <> kmcudaInitMethodPlusPlus ->
    device_ptrs < 0 ->
    selectable E (expanded_mask E device) <> [] ->
    last (selectable E (expanded_mask E device)) 0
    = Z.of_nat (length (selectable E (expanded_mask E device))) - 1 ->
    copies_succeed E -> mallocs_succeed E -> mem_info_succeeds E ->
    setup_succeeds E -> refinement_answers E r ->
    r <> kmcudaSuccess ->
    exists w' log,
      kmeans_cuda E fuel init tolerance (FNum q) metric samples_size features_size
                  clusters_size seed device device_ptrs fp16x2 verbosity
                  samples centroids assignments w
      = Return r w' /\
      w_log w' = log ++ [DebugInternalFailed].
Proof.
  intros E fuel init tolerance q metric samples_size features_size clusters_size
         seed device device_ptrs fp16x2 verbosity samples centroids assignments w r
         Hdev Hcs Hcheck Hthr Hinit Hdp Hsel Hlast Hcopy Hmalloc Hinfo Hsetup Hyy Hr.
  destruct (kmeans_cuda_returns_refinement_code
              E fuel init tolerance q metric samples_size features_size clusters_size
              seed device device_ptrs fp16x2 verbosity samples centroids assignments w
              r Hdev Hcs Hcheck Hthr Hinit Hdp Hsel Hlast Hcopy Hmalloc Hinfo
              Hsetup Hyy) as (w' & Hrun & _ & Hfail).
  destruct (Hfail Hr) as (log & Hlog).
  exists w', log. split; assumption.
Qed.

(** Witness: the call of the previous witness with a refinement kernel that
    answers RuntimeError. *)
Lemma refinement_failure_is_returned_witness :
  exists w' log,
    kmeans_cuda (with_refinement_code (sample_env true 2 lcg (unit_dists 4)) kmcudaRuntimeError)
                1 kmcudaInitMethodRandom
                fzero (FNum (1 # 4)) 0 4 1 2 0 0 (-1) 0 0 1000 2000 3000 empty_world
    = Return kmcudaRuntimeError w' /\
    w_log w' = log ++ [DebugInternalFailed].
Proof.
  apply (refinement_failure_is_returned
           (with_refinement_code (sample_env true 2 lcg (unit_dists 4)) kmcudaRuntimeError)
           1 kmcudaInitMethodRandom
           fzero (1 # 4) 0 4 1 2 0 0 (-1) 0 0 1000 2000 3000 empty_world
           kmcudaRuntimeError).
  - unfold is_u32. lia.
  - unfold is_u32. lia.
  - reflexivity.
  - vm_compute. discriminate.
  - discriminate.
  - lia.
  - vm_compute. discriminate.
  - vm_compute. reflexivity.
  - intros calls c. reflexivity.
  - intros calls size. eexists. reflexivity.
  - intros calls. reflexivity.
  - intros ? ? ? ? ? ?. reflexivity.
  - intros ? ? ? ? ? ? ? ? ? ? ? ? ? ? ? ? ? ? ? ?. reflexivity.
  - discriminate.
Defined.

(** ** Peer access in [setup_devices] *)

Lemma testbit_shift_filter (device dev : Z) (l : list Z) :
  Forall (fun x => 0 <= x) l ->
  filter (fun d => Z.testbit device (d - dev)) (map (fun x => dev + (x + 1)) l)
  = filter (fun d => Z.testbit (Z.shiftr device 1) (d - (dev + 1)))
           (map (fun k => dev + 1 + k) l).
Proof.
  induction 1 as [|x l Hx _ IH]; [reflexivity|].
  cbn [map filter]. rewrite Z.shiftr_spec by lia.
  replace (dev + 1 + x - (dev + 1) + 1) with (dev + (x + 1) - dev) by lia.
  replace (dev + 1 + x) with (dev + (x + 1)) by lia.
  rewrite IH. reflexivity.
Qed.

Lemma upto_nonneg (n : Z) : Forall (fun x => 0 <= x) (upto n).
Proof. apply Forall_forall. intros x Hx. apply in_upto in Hx. lia. Qed.

(** The loop of lines 67-76 selects every device whose bit is set, whether
    the selection succeeds or not. *)
Lemma scan_mask_calls E R (fuel : nat) :
  forall (dev device : Z) (devs : list Z) (w : world) v w',
    0 <= device < 2 ^ Z.of_nat fuel ->
    @scan_mask E R fuel dev device devs w = Val v w' ->
    w_calls w' = w_calls w ++
                 map CudaSetDevice
                     (filter (fun d => Z.testbit device (d - dev))
                             (map (fun k => dev + k) (upto (Z.of_nat fuel)))).
Proof.
  induction fuel as [|fuel IH]; intros dev device devs w v w' Hd H.
  - change (2 ^ Z.of_nat 0) with 1 in Hd. assert (device = 0) by lia. subst.
    cbn in H. injection H as _ <-. cbn. rewrite app_nil_r. reflexivity.
  - destruct (device =? 0) eqn:H0.
    + apply Z.eqb_eq in H0. subst device.
      cbn [scan_mask] in H. cbn [Z.eqb] in H. unfold ret in H. injection H as _ <-.
      rewrite <- (app_nil_r (w_calls w)) at 1. f_equal.
      induction (map (fun k => dev + k) (upto (Z.of_nat (S fuel)))) as [|x l IHl];
        [reflexivity|]. cbn [filter]. rewrite Z.testbit_0_l. exact IHl.
    + cbn [scan_mask] in H. rewrite H0 in H.
      rewrite upto_succ. cbn [map filter]. rewrite map_map.
      replace (dev + 0 - dev) with 0 by lia. replace (dev + 0) with dev by lia.
      rewrite bit0_land in H.
      assert (Hs : 0 <= Z.shiftr device 1 < 2 ^ Z.of_nat fuel).
      { rewrite Z.shiftr_div_pow2 by lia. change (2 ^ 1) with 2.
        rewrite Nat2Z.inj_succ, Z.pow_succ_r in Hd by lia.
        split; [apply Z.div_pos; lia | apply Z.div_lt_upper_bound; lia]. }
      rewrite (testbit_shift_filter device dev _ (upto_nonneg _)).
      destruct (Z.testbit device 0) eqn:Hb; cbn [negb] in H.
      * unfold bind at 1 in H. unfold bind at 1 in H.
        unfold cudaSetDevice at 1 in H. unfold bind at 1 in H.
        unfold record_call at 1, ret at 1 in H.
        destruct (cuda_ok (set_device_status E dev)); cbn [negb] in H.
        -- unfold ret at 1 in H.
           rewrite (IH _ _ _ _ _ _ Hs H). cbn [w_calls map].
           rewrite <- app_assoc. reflexivity.
        -- unfold bind at 1 in H. unfold INFO, log_line in H. unfold ret at 1 in H.
           rewrite (IH _ _ _ _ _ _ Hs H). cbn [w_calls map].
           rewrite <- app_assoc. reflexivity.
      * unfold bind at 1 in H. unfold ret at 1 in H.
        exact (IH _ _ _ _ _ _ Hs H).
Qed.

Lemma emits_when {R} (b : bool) (c : M R unit) :
  emits c tt [] -> emits (when b c) tt [].
Proof. intros H. destruct b; [exact H | apply emits_ret]. Qed.

Lemma emits_warn_p2p_impossible {R} E devs :
  emits (@warn_p2p_impossible E R devs) tt (peer_probes devs).
Proof.
  unfold warn_p2p_impossible, peer_probes.
  apply emits_for_each; intros dev1 _. apply emits_for_each; intros dev2 _.
  destruct (dev1 <=? dev2); [apply emits_ret|].
  eapply emits_eq; [|eapply emits_bind].
  2:{ unfold cudaDeviceCanAccessPeer. eapply emits_bind; [|apply emits_ret].
      intros w. eexists. split; reflexivity. }
  2:{ apply emits_when. apply emits_log. }
  reflexivity.
Qed.

Lemma emits_enable_p2p {R} E devs :
  emits (@enable_p2p E R devs) tt (peer_switches devs).
Proof.
  unfold enable_p2p, peer_switches.
  apply emits_for_each; intros dev _.
  eapply emits_eq; [|eapply emits_bind; [apply emits_cudaSetDevice|]].
  2:{ apply emits_for_each with
        (f := fun odev => if dev =? odev then [] else [CudaDeviceEnablePeerAccess odev]).
      intros odev _. destruct (dev =? odev); [apply emits_ret|].
      eapply emits_eq; [|eapply emits_bind].
      2:{ unfold cudaDeviceEnablePeerAccess. eapply emits_bind; [|apply emits_ret].
          intros w. eexists. split; reflexivity. }
      2:{ destruct (enable_peer_status E dev odev); unfold INFO;
            [apply emits_ret | apply emits_log | apply emits_log]. }
      reflexivity. }
  reflexivity.
Qed.

Lemma scan_mask_bits mask :
  filter (fun d => Z.testbit mask (d - 0)) (map (fun k => 0 + k) (upto (Z.of_nat 32)))
  = mask_bits mask.
Proof.
  unfold mask_bits. change (Z.of_nat 32) with 32.
  rewrite (map_ext (fun k => 0 + k) (fun k => k)) by (intros; lia).
  rewrite map_id. apply filter_ext. intros d. replace (d - 0) with d by lia. reflexivity.
Qed.

Lemma scan_selectable E mask :
  filter (fun d => Z.testbit mask (d - 0) && cuda_ok (set_device_status E d))
         (map (fun k => 0 + k) (upto (Z.of_nat 32)))
  = selectable E mask.
Proof.
  unfold selectable. change (Z.of_nat 32) with 32.
  rewrite (map_ext (fun k => 0 + k) (fun k => k)) by (intros; lia).
  rewrite map_id. apply filter_ext. intros d. replace (d - 0) with d by lia. reflexivity.
Qed.

Lemma mask_bits_zero : mask_bits 0 = [].
Proof.
  unfold mask_bits. induction (upto 32) as [|x l IH]; [reflexivity|].
  cbn [filter]. rewrite Z.testbit_0_l. exact IH.
Qed.

(** The runtime calls of [setup_devices].  It counts the devices when the
    mask is zero, selects every device whose bit is set, and, when the peer
    list has more than one entry, probes every descending pair of the list
    and switches peer access on for every ordered pair of different
    entries.  The peer list is the selected devices followed by the
    designated device whenever [device_ptrs >= 0], also when the designated
    device is one of the selected ones: by line 77 the loop has shifted the
    mask to zero, so the membership test of that line never excludes it. *)
Theorem setup_devices_calls :
  forall (E : env) (device device_ptrs verbosity : Z) (w : world),
    is_u32 device ->
    exists w',
      setup_devices E device device_ptrs verbosity w
      = Return (selectable E (expanded_mask E device)) w' /\
      w_calls w' = w_calls w ++ setup_calls E device device_ptrs.
Proof.
  intros E device device_ptrs verbosity w Hu.
  pose proof (expanded_mask_u32 E device Hu) as Hm.
  assert (Hp : forall devs' : list Z, emits (R:=list Z)
                 (when (1 <? Z.of_nat (length devs'))
                       (warn_p2p_impossible E devs' ;; enable_p2p E devs')) tt
                 (if 1 <? Z.of_nat (length devs')
                  then peer_probes devs' ++ peer_switches devs' else [])).
  { intros devs'. unfold when. destruct (1 <? Z.of_nat (length devs')); [|apply emits_ret].
    eapply emits_bind; [apply emits_warn_p2p_impossible | apply emits_enable_p2p]. }
  remember (setup_calls E device device_ptrs) as cs eqn:Hcs.
  unfold setup_devices, expanded_mask in *.
  destruct (device =? 0) eqn:H0.
  - unfold bind at 1. unfold bind at 1.
    unfold cudaGetDeviceCount. unfold bind at 1. unfold record_call, ret.
    destruct (u32 (device_count E) =? 0) eqn:Hn.
    + unfold return_. eexists. split; [rewrite selectable_zero; reflexivity|].
      subst cs. unfold setup_calls, peer_list, expanded_mask. rewrite H0, Hn.
      rewrite selectable_zero, mask_bits_zero. cbn [w_calls map app].
      destruct (device_ptrs >=? 0); reflexivity.
    + unfold bind at 1.
      match goal with |- context [scan_mask _ _ _ ?mask _ ?w0] =>
        destruct (scan_mask_spec E (list Z) 32 0 mask [] w0 Hm) as (w1 & H1 & _);
        pose proof (scan_mask_calls E (list Z) 32 0 mask [] w0 _ _ Hm H1) as Hc1
      end.
      rewrite H1. rewrite scan_selectable. rewrite scan_mask_bits in Hc1. cbn [app].
      rewrite Z.land_0_l. cbn [Z.eqb]. rewrite andb_true_r.
      match goal with |- context [when (1 <? Z.of_nat (length ?l)) _] =>
        destruct (Hp l w1) as (w2 & H2 & Hc2)
      end.
      unfold bind at 1. rewrite H2. unfold return_.
      exists w2. split.
      * f_equal. destruct (device_ptrs >=? 0); [apply removelast_last | reflexivity].
      * subst cs. unfold setup_calls, peer_list, expanded_mask. rewrite H0, Hn.
        rewrite Hc2, Hc1. cbn [w_calls]. rewrite <- !app_assoc. reflexivity.
  - unfold bind at 1. unfold ret at 1.
    destruct (scan_mask_spec E (list Z) 32 0 device [] w Hu) as (w1 & H1 & _).
    pose proof (scan_mask_calls E (list Z) 32 0 device [] w _ _ Hu H1) as Hc1.
    unfold bind at 1. rewrite H1. rewrite scan_selectable. rewrite scan_mask_bits in Hc1.
    cbn [app]. rewrite Z.land_0_l. cbn [Z.eqb]. rewrite andb_true_r.
    match goal with |- context [when (1 <? Z.of_nat (length ?l)) _] =>
      destruct (Hp l w1) as (w2 & H2 & Hc2)
    end.
    unfold bind at 1. rewrite H2. unfold return_.
    exists w2. split.
    + f_equal. destruct (device_ptrs >=? 0); [apply removelast_last | reflexivity].
    + subst cs. unfold setup_calls, peer_list, expanded_mask. rewrite H0.
      rewrite Hc2, Hc1. rewrite app_nil_l. rewrite <- !app_assoc. reflexivity.
Qed.

(** Witness: the mask selects device 0 alone, which is also the designated
    device.  The peer list is [[0; 0]], so the loops of lines 82-110 run:
    device 0 is selected twice more, and no peer access is switched on. *)
Lemma setup_devices_calls_witness :
  exists w',
    setup_devices (sample_env true 2 lcg (unit_dists 4)) 1 0 0 empty_world
    = Return (selectable (sample_env true 2 lcg (unit_dists 4))
                         (expanded_mask (sample_env true 2 lcg (unit_dists 4)) 1)) w' /\
    w_calls w' = w_calls empty_world ++
                 setup_calls (sample_env true 2 lcg (unit_dists 4)) 1 0.
Proof.
  apply (setup_devices_calls (sample_env true 2 lcg (unit_dists 4)) 1 0 0 empty_world).
  unfold is_u32. lia.
Defined.

Example designated_device_is_its_own_peer :
  setup_calls (sample_env true 2 lcg (unit_dists 4)) 1 0
  = [CudaSetDevice 0; CudaSetDevice 0; CudaSetDevice 0].
Proof. vm_compute. reflexivity. Qed.

Example designated_device_is_listed_twice :
  setup_calls (sample_env true 2 lcg (unit_dists 4)) 3 0
  = [CudaSetDevice 0; CudaSetDevice 1;
     CudaDeviceCanAccessPeer 1 0; CudaDeviceCanAccessPeer 1 0;
     CudaSetDevice 0; CudaDeviceEnablePeerAccess 1;
     CudaSetDevice 1; CudaDeviceEnablePeerAccess 0; CudaDeviceEnablePeerAccess 0;
     CudaSetDevice 0; CudaDeviceEnablePeerAccess 1].
Proof. vm_compute. reflexivity. Qed.
